(** * Life OS Mobile: token budget tracking and checkpoint / resume protocol

    A shallow embedding of
      - lib/token-monitor.ts                       (module [TokenMonitor]),
      - the declarations of app/page.tsx           (module [Page]),
      - app/api/checkpoint/route.ts over the table of
        supabase/migrations/001_session_checkpoints.sql
                                                   (module [CheckpointRoute]),
      - app/api/chat/route.ts                      (module [ChatRoute]),
      - the component of app/page.tsx              (module [LifeOSChat]),
    followed by the notions of the specification (module [Spec]) and by the
    properties that are settled on the embedding.

    Numbers.  A JavaScript number that holds a token count is an integer and
    is modelled as [Z]; the sums are exact as long as they stay below 2^53.
    The ratio [percentUsed] is modelled as an exact rational kept in lowest
    terms, so that equal values are equal terms; the thresholds 0.70 and 0.85
    are the rationals 7/10 and 17/20.  In the library the ratio is the
    quotient by whatever the limit table yields, so it can be [NaN] there
    ([JS.number]); on the page it is a quotient by the constant 180000.  A
    divisor that is a number is never 0.  Where a product is rounded to an
    integer ([Math.round(percentUsed * 100)]) the ratio and the product are
    taken as the binary64 values the engine computes ([JS.round_percent]).

    Strings.  A JavaScript string is modelled as [string], one character for
    one code unit below 256; only length, prefixes, comparison, trimming and
    concatenation are used.  The two pictographs of the library's template
    stand as the bytes of their UTF-8 form; nothing depends on their length.

    Objects.  A property read on the object literal [MODEL_LIMITS] finds an
    own key, or a member inherited from [Object.prototype], or nothing
    ([JS.get]).  The object a stored row is sent as has the columns of the
    table as its keys ([CheckpointRoute.Row_json]).

    Effects.  React state is a record and a handler is a function on it.  The
    world a handler talks to (the store behind the route, the network, the
    source of fresh identifiers and the clock) is passed explicitly. *)

From Stdlib Require Import ZArith QArith Qround String Ascii List Lia Lqa Bool.
From Stdlib Require Import SpecFloat.
From stdpp Require Import gmap strings.

Set Warnings "-register-all".

Local Open Scope Z_scope.

(** ** JavaScript helpers *)

Module JS.

(** [a / b] on two integer-valued numbers, kept in lowest terms. *)
Definition div (a b : Z) : Q := Qred (inject_Z a / inject_Z b).

(** [x || y] on numbers, where the left operand may be [undefined]:
    [undefined] and [0] are falsy. *)
Definition or_else (x : option Z) (y : Z) : Z :=
  match x with
  | Some v => if v =? 0 then y else v
  | None => y
  end.

(** [x || y] on strings, where the left operand may be [undefined]:
    [undefined] and the empty string are falsy. *)
Definition or_else_str (x : option string) (y : string) : string :=
  match x with
  | Some EmptyString | None => y
  | Some v => v
  end.

(** Truthiness of an optional string. *)
Definition truthy_str (x : option string) : bool :=
  match x with
  | Some EmptyString | None => false
  | Some _ => true
  end.

(** [x >= y] on numbers. *)
Definition ge (x y : Q) : bool := Qle_bool y x.

(** [Math.ceil]. *)
Definition ceil (x : Q) : Z := Qceiling x.

(** [Math.round] of a value: the nearest integer, halves rounded up. *)
Definition round (x : Q) : Z := Qfloor (x + (1 # 2)).

(** [s.slice(0, k)]. *)
Definition slice0 (k : nat) (s : string) : string := String.substring 0 k s.

(** [l.slice(-k)]: the last [k] elements, all of them when there are fewer. *)
Definition slice_last {A : Type} (k : nat) (l : list A) : list A :=
  drop (length l - k) l.

(** [l.join(sep)]. *)
Definition join (sep : string) (l : list string) : string := String.concat sep l.

(** The line feed and the double quote of the template literals. *)
Definition nl : string := String (ascii_of_nat 10) EmptyString.
Definition dquote : string := String (ascii_of_nat 34) EmptyString.

(** [s.toUpperCase()] for a text of ASCII characters, which the names of
    the roles are: the letters a-z are raised, the rest is kept. *)
Definition upper_ascii (c : ascii) : ascii :=
  let n := nat_of_ascii c in
  if ((97 <=? n)%nat && (n <=? 122)%nat)%bool then ascii_of_nat (n - 32) else c.

Fixpoint toUpperCase (s : string) : string :=
  match s with
  | EmptyString => EmptyString
  | String c s' => String (upper_ascii c) (toUpperCase s')
  end.

(** White space and line terminators removed by [s.trim()], among the code
    units below 256: tab, line feed, vertical tab, form feed, carriage
    return, space and no-break space. *)
Definition is_space (c : ascii) : bool :=
  let n := nat_of_ascii c in
  (((9 <=? n)%nat && (n <=? 13)%nat) || (n =? 32)%nat || (n =? 160)%nat)%bool.

(** [!s.trim()]: the string holds white space only. *)
Fixpoint blank (s : string) : bool :=
  match s with
  | EmptyString => true
  | String c s' => (is_space c && blank s')%bool
  end.

(** A JSON value, as carried by [Record<string, any>]. *)
Inductive Json :=
| JNull
| JBool (b : bool)
| JNum (n : Z)
| JStr (s : string)
| JArr (items : list Json)
| JObj (fields : list (string * Json)).

(** [x > y] on numbers. *)
Definition gt (x y : Q) : bool := negb (Qle_bool x y).

(** [Math.min(x, y)]. *)
Definition min (x y : Q) : Q := if Qle_bool x y then x else y.

(** A number that may be [NaN]. *)
Inductive number :=
| num (q : Q)
| NaN.

(** [x >= y] where [x] may be [NaN]: every comparison with [NaN] is false. *)
Definition number_ge (x : number) (y : Q) : bool :=
  match x with
  | num q => ge q y
  | NaN => false
  end.

(** The names every object inherits from [Object.prototype]. *)
Definition Object_prototype : list string :=
  ["constructor"; "hasOwnProperty"; "isPrototypeOf"; "propertyIsEnumerable";
   "toLocaleString"; "toString"; "valueOf"; "__proto__";
   "__defineGetter__"; "__defineSetter__"; "__lookupGetter__"; "__lookupSetter__"].

(** What [o[key]] yields on an object literal whose own properties hold
    numbers: the own number, a member inherited from [Object.prototype] (a
    function, or the prototype itself for [__proto__]), or [undefined]. *)
Inductive Property :=
| own (n : Z)
| inherited
| undefined.

Definition get (o : gmap string Z) (key : string) : Property :=
  match o !! key with
  | Some n => own n
  | None => if existsb (String.eqb key) Object_prototype then inherited else undefined
  end.

(** [x || y], [x] such a property read and [y] a number: an inherited member
    is an object, hence truthy. *)
Definition or_number (x : Property) (y : Z) : Property :=
  match x with
  | own n => if n =? 0 then own y else own n
  | inherited => inherited
  | undefined => own y
  end.

(** [a / b], [b] the result of such a read: a function or an object
    converts to [NaN], and so does [undefined].  A [b] that is a number is
    never 0 where this is used. *)
Definition div_by (a : Z) (b : Property) : number :=
  match b with
  | own n => num (div a n)
  | inherited | undefined => NaN
  end.

(** IEEE 754 binary64. *)
Definition prec : Z := 53.
Definition emax : Z := 1024.

(** The double nearest to a rational, ties to even: what the quotient of two
    integers evaluates to, and what a JSON number is parsed to. *)
Definition toDouble (x : Q) : spec_float :=
  match Qnum x with
  | Z0 => S754_zero false
  | Zpos n =>
      let '(m, e, l) := SFdiv_core_binary prec emax (Zpos n) 0 (Zpos (Qden x)) 0 in
      binary_round_aux prec emax false m e l
  | Zneg n =>
      let '(m, e, l) := SFdiv_core_binary prec emax (Zpos n) 0 (Zpos (Qden x)) 0 in
      binary_round_aux prec emax true m e l
  end.

(** The value of a double that is finite. *)
Definition value (d : spec_float) : option Q :=
  match d with
  | S754_zero _ => Some 0%Q
  | S754_finite s m e =>
      Some ((if s then inject_Z (Zneg m) else inject_Z (Zpos m)) * Qpower 2 e)%Q
  | S754_infinity _ | S754_nan => None
  end.

(** [Math.round(x * 100)], the product taken on doubles; [None] when the
    result is not finite ([JSON.stringify] writes [null] for it). *)
Definition round_percent (x : Q) : option Z :=
  option_map round (value (SFmul prec emax (toDouble x) (toDouble 100))).

End JS.

(** ** lib/token-monitor.ts *)

Module TokenMonitor.

(** The own properties of the [MODEL_LIMITS] object literal. *)
Definition MODEL_LIMITS : gmap string Z :=
  <["claude-sonnet-4-20250514" := 180000]>
  (<["claude-opus-4-5-20251101" := 180000]>
  (<["claude-3-5-sonnet-20241022" := 180000]>
  (<["default" := 150000]> ∅))).

Definition CHECKPOINT_THRESHOLD : Q := 0.70.
Definition WARNING_THRESHOLD : Q := 0.85.

Inductive Role := user | assistant.

Definition Role_to_string (r : Role) : string :=
  match r with
  | user => "user"
  | assistant => "assistant"
  end.

Module TokenUsage.
Record t := mk {
  inputTokens : Z;
  outputTokens : Z;
  totalTokens : Z;
  percentUsed : JS.number;
  model : string
}.
End TokenUsage.

Module Message.
Record t := mk {
  id : string;
  role : Role;
  content : string;
  timestamp : string;
  tokens : option Z
}.
End Message.

Inductive SessionStatus := st_active | st_warning | st_critical.

Inductive CheckpointStatus := cs_active | cs_completed | cs_abandoned.

Module SessionCheckpoint.
Record t := mk {
  id : string;
  sessionId : string;
  timestamp : string;
  taskDescription : string;
  completedSteps : list string;
  currentStep : string;
  nextSteps : list string;
  messages : list Message.t;
  tokenUsage : TokenUsage.t;
  contextVariables : JS.Json;
  status : CheckpointStatus;
  continuationPrompt : string
}.
End SessionCheckpoint.

Module SessionState.
Record t := mk {
  sessionId : string;
  messages : list Message.t;
  tokenUsage : TokenUsage.t;
  checkpoints : list SessionCheckpoint.t;
  toolCallCount : Z;
  lastCheckpoint : option string;
  status : SessionStatus
}.
End SessionState.

(** [MODEL_LIMITS[model] || MODEL_LIMITS.default] *)
Definition modelLimit (model : string) : JS.Property :=
  JS.or_number (JS.get MODEL_LIMITS model) (MODEL_LIMITS !!! "default").

Definition estimateTokens (text : string) : Z :=
  JS.ceil (inject_Z (Z.of_nat (String.length text)) / 4).

(** [msg.tokens || estimateTokens(msg.content)] *)
Definition messageTokens (msg : Message.t) : Z :=
  JS.or_else (Message.tokens msg) (estimateTokens (Message.content msg)).

(** One run of the [forEach] body on the counters
    [(inputTokens, outputTokens)]. *)
Definition countMessage (acc : Z * Z) (msg : Message.t) : Z * Z :=
  let tokens := messageTokens msg in
  match Message.role msg with
  | user => (fst acc + tokens, snd acc)
  | assistant => (fst acc, snd acc + tokens)
  end.

Definition calculateTokenUsage (messages : list Message.t) (model : string)
  : TokenUsage.t :=
  let limit := modelLimit model in
  let counters := fold_left countMessage messages (0, 0) in
  let inputTokens := fst counters in
  let outputTokens := snd counters in
  let totalTokens := inputTokens + outputTokens in
  let percentUsed := JS.div_by totalTokens limit in
  TokenUsage.mk inputTokens outputTokens totalTokens percentUsed model.

Definition needsCheckpoint (tokenUsage : TokenUsage.t) : bool :=
  JS.number_ge (TokenUsage.percentUsed tokenUsage) CHECKPOINT_THRESHOLD.

Definition isCritical (tokenUsage : TokenUsage.t) : bool :=
  JS.number_ge (TokenUsage.percentUsed tokenUsage) WARNING_THRESHOLD.

Definition getSessionStatus (tokenUsage : TokenUsage.t) : SessionStatus :=
  if JS.number_ge (TokenUsage.percentUsed tokenUsage) WARNING_THRESHOLD then st_critical
  else if JS.number_ge (TokenUsage.percentUsed tokenUsage) CHECKPOINT_THRESHOLD
  then st_warning
  else st_active.

(** [createSession(model)], with the fresh identifier passed in. *)
Definition createSession (uuid : string) (model : string) : SessionState.t :=
  SessionState.mk uuid [] (TokenUsage.mk 0 0 0 (JS.num 0) model) [] 0 None st_active.

Section Prompt.

(** [JSON.stringify(v, null, 2)]; the prompt only embeds its result. *)
Variable JSON_stringify : JS.Json -> string.

(** The arrow function mapped over the recent messages. *)
Definition renderMessage (m : Message.t) : string :=
  JS.toUpperCase (Role_to_string (Message.role m)) +:+ ": "
    +:+ JS.slice0 200 (Message.content m) +:+ "...".

(** The last line of the template. *)
Definition instructionLine (currentStep : string) : string :=
  "**INSTRUCTION:** Continue from " +:+ JS.dquote +:+ currentStep +:+ JS.dquote
    +:+ " immediately. No confirmation needed.".

Definition generateContinuationPrompt (checkpoint : SessionCheckpoint.t) : string :=
  let recentMessages := JS.slice_last 5 (SessionCheckpoint.messages checkpoint) in
  let messagesSummary := JS.join JS.nl (map renderMessage recentMessages) in
  "## SESSION RESUME - " +:+ SessionCheckpoint.id checkpoint +:+ JS.nl
  +:+ JS.nl
  +:+ "**Task:** " +:+ SessionCheckpoint.taskDescription checkpoint +:+ JS.nl
  +:+ JS.nl
  +:+ "### Progress" +:+ JS.nl
  +:+ "**Completed:**" +:+ JS.nl
  +:+ JS.join JS.nl
        (map (fun s => "- ✅ " +:+ s) (SessionCheckpoint.completedSteps checkpoint))
  +:+ JS.nl
  +:+ JS.nl
  +:+ "**Current:** " +:+ SessionCheckpoint.currentStep checkpoint +:+ JS.nl
  +:+ JS.nl
  +:+ "**Next Steps:**" +:+ JS.nl
  +:+ JS.join JS.nl
        (map (fun s => "- ⏳ " +:+ s) (SessionCheckpoint.nextSteps checkpoint))
  +:+ JS.nl
  +:+ JS.nl
  +:+ "### Recent Context" +:+ JS.nl
  +:+ messagesSummary +:+ JS.nl
  +:+ JS.nl
  +:+ "### Variables" +:+ JS.nl
  +:+ JSON_stringify (SessionCheckpoint.contextVariables checkpoint) +:+ JS.nl
  +:+ JS.nl
  +:+ instructionLine (SessionCheckpoint.currentStep checkpoint).

(** [createCheckpoint], with the fresh identifier and the current time
    passed in. *)
Definition createCheckpoint (uuid now : string) (session : SessionState.t)
    (taskDescription : string) (completedSteps : list string)
    (currentStep : string) (nextSteps : list string)
    (contextVariables : JS.Json) : SessionCheckpoint.t :=
  let checkpoint :=
    SessionCheckpoint.mk uuid (SessionState.sessionId session) now
      taskDescription completedSteps currentStep nextSteps
      (SessionState.messages session) (SessionState.tokenUsage session)
      contextVariables cs_active EmptyString in
  SessionCheckpoint.mk uuid (SessionState.sessionId session) now
    taskDescription completedSteps currentStep nextSteps
    (SessionState.messages session) (SessionState.tokenUsage session)
    contextVariables cs_active (generateContinuationPrompt checkpoint).

End Prompt.

Module ProgressSegments.
Record t := mk {
  safe : Q;
  warning : Q;
  critical : Q
}.
End ProgressSegments.

(** Get progress bar segments for UI *)
Definition getProgressSegments (percentUsed : Q) : ProgressSegments.t :=
  let safe := (JS.min percentUsed CHECKPOINT_THRESHOLD / CHECKPOINT_THRESHOLD * 100)%Q in
  let warning :=
    if JS.gt percentUsed CHECKPOINT_THRESHOLD
    then (JS.min ((percentUsed - CHECKPOINT_THRESHOLD)
                  / (WARNING_THRESHOLD - CHECKPOINT_THRESHOLD)) 1 * 100)%Q
    else 0%Q in
  let critical :=
    if JS.gt percentUsed WARNING_THRESHOLD
    then (JS.min ((percentUsed - WARNING_THRESHOLD) / (1 - WARNING_THRESHOLD)) 1 * 100)%Q
    else 0%Q in
  ProgressSegments.mk safe warning critical.

End TokenMonitor.

Import TokenMonitor.

(** ** app/page.tsx: declarations above the component

    The [Message] interface of the page is the one of the library and is
    shared with it; [TokenUsage] has no [model] field here.  The interface
    [Checkpoint] types the state [activeCheckpoint]; the value stored there is
    the object GET answers with, see [LifeOSChat.State]. *)

Module Page.

Module TokenUsage.
Record t := mk {
  inputTokens : Z;
  outputTokens : Z;
  totalTokens : Z;
  percentUsed : Q
}.
End TokenUsage.

Definition MODEL_LIMIT : Z := 180000.
Definition CHECKPOINT_THRESHOLD : Q := 0.70.
Definition WARNING_THRESHOLD : Q := 0.85.

End Page.

(** ** app/api/checkpoint/route.ts over supabase/migrations/001_session_checkpoints.sql

    The table is a list of rows in insertion order.  The constraints of the
    migration that a typed request can violate are modelled: the primary key
    on [id] and the CHECK on [status]; the BEFORE UPDATE trigger stamps
    [updated_at].  A database that cannot be reached answers every statement
    with an error and changes nothing. *)

Module CheckpointRoute.

(** The JSON body of a POST request, as the handler reads it. *)
Module Body.
Record t := mk {
  id : string;
  sessionId : string;
  timestamp : string;
  taskDescription : string;
  completedSteps : list string;
  currentStep : string;
  nextSteps : list string;
  messages : list Message.t;
  tokenUsage : Page.TokenUsage.t;
  contextVariables : JS.Json;
  continuationPrompt : string;
  status : string
}.
End Body.

Module Row.
Record t := mk {
  id : string;
  session_id : string;
  task_description : string;
  completed_steps : list string;
  current_step : string;
  next_steps : list string;
  messages : list Message.t;
  token_usage : Page.TokenUsage.t;
  context_variables : JS.Json;
  continuation_prompt : string;
  status : string;
  created_at : string;
  updated_at : string
}.
End Row.

(** The value of a member of the object a row is sent as. *)
Inductive Member :=
| m_string (s : string)
| m_strings (l : list string)
| m_messages (l : list Message.t)
| m_usage (u : Page.TokenUsage.t)
| m_json (j : JS.Json).

(** [Response.json(data)] for a row selected with [select('*')]: one key per
    column of the table, under the name of the column. *)
Definition Row_json (r : Row.t) : list (string * Member) :=
  [("id", m_string (Row.id r));
   ("session_id", m_string (Row.session_id r));
   ("task_description", m_string (Row.task_description r));
   ("completed_steps", m_strings (Row.completed_steps r));
   ("current_step", m_string (Row.current_step r));
   ("next_steps", m_strings (Row.next_steps r));
   ("messages", m_messages (Row.messages r));
   ("token_usage", m_usage (Row.token_usage r));
   ("context_variables", m_json (Row.context_variables r));
   ("continuation_prompt", m_string (Row.continuation_prompt r));
   ("status", m_string (Row.status r));
   ("created_at", m_string (Row.created_at r));
   ("updated_at", m_string (Row.updated_at r))].

(** [object[key]] on such an object; [None] is [undefined]. *)
Fixpoint member (key : string) (object : list (string * Member)) : option Member :=
  match object with
  | [] => None
  | (k, v) :: rest => if String.eqb k key then Some v else member key rest
  end.

Module Activity.
Record t := mk {
  activity_type : string;
  platform : string;
  domain : string;
  start_time : string;
  checkpoint_id : string;
  task : string;
  token_percent : option Z;
  timezone : string
}.
End Activity.

Module Supabase.
Record t := mk {
  session_checkpoints : list Row.t;
  activities : list Activity.t;
  reachable : bool;
  NOW : string
}.
End Supabase.

Inductive Response :=
| Ok (data : Row.t)
| Failed (error : string).

Definition Response_status (r : Response) : Z :=
  match r with
  | Ok _ => 200
  | Failed _ => 500
  end.

(** CHECK (status IN ('active', 'completed', 'abandoned', 'resumed', 'superseded')) *)
Definition status_check (status : string) : bool :=
  existsb (String.eqb status)
    ["active"; "completed"; "abandoned"; "resumed"; "superseded"].

Definition has_id (id : string) (rows : list Row.t) : bool :=
  existsb (fun r => String.eqb (Row.id r) id) rows.

(** One row after [UPDATE ... SET status = ...], trigger included. *)
Definition set_status (status now : string) (r : Row.t) : Row.t :=
  Row.mk (Row.id r) (Row.session_id r) (Row.task_description r)
    (Row.completed_steps r) (Row.current_step r) (Row.next_steps r)
    (Row.messages r) (Row.token_usage r) (Row.context_variables r)
    (Row.continuation_prompt r) status (Row.created_at r) now.

(** [.update({ status }).<filters>]: the new table, or [None] on error. *)
Definition update_status (matches : Row.t -> bool) (status : string)
    (db : Supabase.t) : option Supabase.t :=
  if (Supabase.reachable db && status_check status)%bool then
    Some (Supabase.mk
            (map (fun r => if matches r then set_status status (Supabase.NOW db) r else r)
                 (Supabase.session_checkpoints db))
            (Supabase.activities db) (Supabase.reachable db) (Supabase.NOW db))
  else None.

(** [.insert(row).select().single()]: the stored row, or [None] on error. *)
Definition insert_row (row : Row.t) (db : Supabase.t) : option Row.t * Supabase.t :=
  if (Supabase.reachable db && status_check (Row.status row)
      && negb (has_id (Row.id row) (Supabase.session_checkpoints db)))%bool then
    (Some row,
     Supabase.mk (Supabase.session_checkpoints db ++ [row])
       (Supabase.activities db) (Supabase.reachable db) (Supabase.NOW db))
  else (None, db).

(** [.from('activities').insert(a)]; the handler ignores its result. *)
Definition insert_activity (a : Activity.t) (db : Supabase.t) : Supabase.t :=
  if Supabase.reachable db then
    Supabase.mk (Supabase.session_checkpoints db) (Supabase.activities db ++ [a])
      (Supabase.reachable db) (Supabase.NOW db)
  else db.

Definition POST (checkpoint : Body.t) (db : Supabase.t) : Response * Supabase.t :=
  (* Mark any existing active checkpoints as superseded; the result of the
     statement is not inspected *)
  let db1 :=
    default db
      (update_status
         (fun r => (String.eqb (Row.status r) "active"
                    && String.eqb (Row.session_id r) (Body.sessionId checkpoint))%bool)
         "superseded" db) in
  (* Insert new checkpoint *)
  match insert_row
          (Row.mk (Body.id checkpoint) (Body.sessionId checkpoint)
             (Body.taskDescription checkpoint) (Body.completedSteps checkpoint)
             (Body.currentStep checkpoint) (Body.nextSteps checkpoint)
             (Body.messages checkpoint) (Body.tokenUsage checkpoint)
             (Body.contextVariables checkpoint) (Body.continuationPrompt checkpoint)
             "active" (Body.timestamp checkpoint) (Supabase.NOW db1))
          db1 with
  | (None, db2) => (Failed "Failed to save checkpoint", db2)
  | (Some data, db2) =>
      (* Also log to activities table *)
      let db3 :=
        insert_activity
          (Activity.mk "session_checkpoint" "life_os_mobile" "BUSINESS"
             (Body.timestamp checkpoint) (Body.id checkpoint)
             (Body.taskDescription checkpoint)
             (JS.round_percent (Page.TokenUsage.percentUsed (Body.tokenUsage checkpoint)))
             "America/New_York")
          db2 in
      (Ok data, db3)
  end.

Definition PATCH (id status : string) (db : Supabase.t) : Response * Supabase.t :=
  match update_status (fun r => String.eqb (Row.id r) id) status db with
  | None => (Failed "Failed to update checkpoint", db)
  | Some db1 =>
      match List.filter (fun r => String.eqb (Row.id r) id)
              (Supabase.session_checkpoints db1) with
      | [data] => (Ok data, db1)
      | _ => (Failed "Failed to update checkpoint", db1)
      end
  end.

(** The answers of GET: one row or [null], a list of rows, or status 500. *)
Inductive GetResponse :=
| GetRow (data : option Row.t)
| GetRows (data : list Row.t)
| GetFailed (error : string).

Section Get.

(** [.order('created_at', { ascending: false })]: the database orders the
    rows it is given; which order that is stays with the database. *)
Variable order_desc : list Row.t -> list Row.t.

(** [.single()] on the rows a query selects. *)
Definition single (rows : list Row.t) : option Row.t :=
  match rows with
  | [data] => Some data
  | _ => None
  end.

Definition GET (checkpointId : option string) (activeOnly : bool) (db : Supabase.t)
  : GetResponse :=
  if JS.truthy_str checkpointId then
    (* Load specific checkpoint *)
    if Supabase.reachable db then
      match single (List.filter
                      (fun r => String.eqb (Row.id r) (JS.or_else_str checkpointId EmptyString))
                      (Supabase.session_checkpoints db)) with
      | Some data => GetRow (Some data)
      | None => GetFailed "Failed to load checkpoint"
      end
    else GetFailed "Failed to load checkpoint"
  else if activeOnly then
    (* Load most recent active checkpoint; no row at all is not an error *)
    if Supabase.reachable db then
      GetRow (single (take 1 (order_desc
                                (List.filter (fun r => String.eqb (Row.status r) "active")
                                   (Supabase.session_checkpoints db)))))
    else GetFailed "Failed to load checkpoint"
  else
    (* Load all checkpoints (most recent first) *)
    if Supabase.reachable db then
      GetRows (take 20 (order_desc (Supabase.session_checkpoints db)))
    else GetFailed "Failed to load checkpoint".

End Get.

End CheckpointRoute.

(** ** app/api/chat/route.ts

    The provider's answer is a sequence of events that may end in an
    exception; the route turns it into the events it writes to the response
    stream. *)

Module ChatRoute.

(** The events of the provider the loop looks at. *)
Inductive AnthropicEvent :=
| content_block_delta (text : option string)
| message_start (input_tokens : option Z)
| message_delta (output_tokens : option Z)
| other_event.

(** What a failing call or a failing stream throws. *)
Inductive Thrown :=
| ErrorObject (message : string)
| OtherValue.

Module AnthropicStream.
Record t := mk {
  events : list AnthropicEvent;
  failure : option Thrown
}.
End AnthropicStream.

(** The objects written as [data: <json>] lines. *)
Inductive ServerEvent :=
| sse_text (content : string)
| sse_done (inputTokens outputTokens totalTokens : Z)
| sse_error (message : string).

Module Loop.
Record t := mk {
  emitted : list ServerEvent;
  fullResponse : string;
  inputTokens : Z;
  outputTokens : Z
}.
End Loop.

(** One run of the [for await] body. *)
Definition onEvent (st : Loop.t) (event : AnthropicEvent) : Loop.t :=
  match event with
  | content_block_delta (Some text) =>
      Loop.mk (Loop.emitted st ++ [sse_text text]) (Loop.fullResponse st +:+ text)
        (Loop.inputTokens st) (Loop.outputTokens st)
  | content_block_delta None => st
  | message_start input_tokens =>
      Loop.mk (Loop.emitted st) (Loop.fullResponse st)
        (JS.or_else input_tokens 0) (Loop.outputTokens st)
  | message_delta output_tokens =>
      Loop.mk (Loop.emitted st) (Loop.fullResponse st)
        (Loop.inputTokens st) (JS.or_else output_tokens 0)
  | other_event => st
  end.

(** [error instanceof Error ? error.message : 'Unknown error'] *)
Definition errorMessage (error : Thrown) : string :=
  match error with
  | ErrorObject message => message
  | OtherValue => "Unknown error"
  end.

(** What [start(controller)] enqueues before it closes the stream. *)
Definition start (response : AnthropicStream.t) : list ServerEvent :=
  let st :=
    fold_left onEvent (AnthropicStream.events response)
      (Loop.mk [] EmptyString 0 0) in
  match AnthropicStream.failure response with
  | None =>
      (* Send final token count *)
      Loop.emitted st
      ++ [sse_done (Loop.inputTokens st) (Loop.outputTokens st)
            (Loop.inputTokens st + Loop.outputTokens st)]
  | Some error => Loop.emitted st ++ [sse_error (errorMessage error)]
  end.

End ChatRoute.

(** ** app/page.tsx: the component [LifeOSChat]

    The React state is the record [State.t]; a handler is a function from the
    state (and the world it talks to) to the next state.  A [fetch] rejects
    when the network is down and resolves with the response of the route
    otherwise, whatever its status code.  Fresh identifiers and the clock come
    from the environment.

    [activeCheckpoint] is declared as [Checkpoint | null]; the only value ever
    stored in it is the object parsed from the answer of GET, that is, a row
    of the table with the columns as keys, and this is what the state holds
    here.  What the page reads from it by a name of the [Checkpoint]
    interface is there only if the row has a key of that name. *)

Module LifeOSChat.

Import CheckpointRoute.

Module State.
Record t := mk {
  messages : list Message.t;
  input : string;
  isLoading : bool;
  sessionId : string;
  tokenUsage : Page.TokenUsage.t;
  showCheckpointModal : bool;
  activeCheckpoint : option Row.t;
  checkpointTask : string;
  showResumePrompt : bool
}.
End State.

Module Env.
Record t := mk {
  supabase : Supabase.t;
  online : bool;
  uuids : nat -> string;
  uuids_drawn : nat;
  now : string
}.
End Env.

(** The state setters, in their functional form. *)

Definition setMessages (f : list Message.t -> list Message.t) (s : State.t) : State.t :=
  State.mk (f (State.messages s)) (State.input s) (State.isLoading s)
    (State.sessionId s) (State.tokenUsage s) (State.showCheckpointModal s)
    (State.activeCheckpoint s) (State.checkpointTask s) (State.showResumePrompt s).

Definition setInput (v : string) (s : State.t) : State.t :=
  State.mk (State.messages s) v (State.isLoading s)
    (State.sessionId s) (State.tokenUsage s) (State.showCheckpointModal s)
    (State.activeCheckpoint s) (State.checkpointTask s) (State.showResumePrompt s).

Definition setIsLoading (v : bool) (s : State.t) : State.t :=
  State.mk (State.messages s) (State.input s) v
    (State.sessionId s) (State.tokenUsage s) (State.showCheckpointModal s)
    (State.activeCheckpoint s) (State.checkpointTask s) (State.showResumePrompt s).

Definition setSessionId (v : string) (s : State.t) : State.t :=
  State.mk (State.messages s) (State.input s) (State.isLoading s)
    v (State.tokenUsage s) (State.showCheckpointModal s)
    (State.activeCheckpoint s) (State.checkpointTask s) (State.showResumePrompt s).

Definition setTokenUsage (f : Page.TokenUsage.t -> Page.TokenUsage.t) (s : State.t)
  : State.t :=
  State.mk (State.messages s) (State.input s) (State.isLoading s)
    (State.sessionId s) (f (State.tokenUsage s)) (State.showCheckpointModal s)
    (State.activeCheckpoint s) (State.checkpointTask s) (State.showResumePrompt s).

Definition setShowCheckpointModal (v : bool) (s : State.t) : State.t :=
  State.mk (State.messages s) (State.input s) (State.isLoading s)
    (State.sessionId s) (State.tokenUsage s) v
    (State.activeCheckpoint s) (State.checkpointTask s) (State.showResumePrompt s).

Definition setActiveCheckpoint (v : option Row.t) (s : State.t) : State.t :=
  State.mk (State.messages s) (State.input s) (State.isLoading s)
    (State.sessionId s) (State.tokenUsage s) (State.showCheckpointModal s)
    v (State.checkpointTask s) (State.showResumePrompt s).

Definition setCheckpointTask (v : string) (s : State.t) : State.t :=
  State.mk (State.messages s) (State.input s) (State.isLoading s)
    (State.sessionId s) (State.tokenUsage s) (State.showCheckpointModal s)
    (State.activeCheckpoint s) v (State.showResumePrompt s).

Definition setShowResumePrompt (v : bool) (s : State.t) : State.t :=
  State.mk (State.messages s) (State.input s) (State.isLoading s)
    (State.sessionId s) (State.tokenUsage s) (State.showCheckpointModal s)
    (State.activeCheckpoint s) (State.checkpointTask s) v.

(** The environment *)

Definition uuidv4 (e : Env.t) : string * Env.t :=
  (Env.uuids e (Env.uuids_drawn e),
   Env.mk (Env.supabase e) (Env.online e) (Env.uuids e) (S (Env.uuids_drawn e))
     (Env.now e)).

Definition with_supabase (db : Supabase.t) (e : Env.t) : Env.t :=
  Env.mk db (Env.online e) (Env.uuids e) (Env.uuids_drawn e) (Env.now e).

Inductive Fetched :=
| rejected
| resolved (response : Response).

(** [fetch('/api/checkpoint', { method: 'POST', body })] *)
Definition fetch_POST (body : Body.t) (e : Env.t) : Fetched * Env.t :=
  if Env.online e then
    let (response, db) := POST body (Env.supabase e) in
    (resolved response, with_supabase db e)
  else (rejected, e).

(** [fetch('/api/checkpoint', { method: 'PATCH', body: { id, status } })] *)
Definition fetch_PATCH (id status : string) (e : Env.t) : Fetched * Env.t :=
  if Env.online e then
    let (response, db) := PATCH id status (Env.supabase e) in
    (resolved response, with_supabase db e)
  else (rejected, e).

(** The initial state of the component. *)
Definition zeroUsage : Page.TokenUsage.t := Page.TokenUsage.mk 0 0 0 0.

Definition initialState : State.t :=
  State.mk [] EmptyString false EmptyString zeroUsage false None EmptyString false.

(** Token estimation *)
Definition estimateTokens (text : string) : Z :=
  JS.ceil (inject_Z (Z.of_nat (String.length text)) / 4).

(** The updater passed to [setTokenUsage] by [updateTokenUsage]. *)
Definition updateTokenUsage (newInputTokens newOutputTokens : Z)
    (prev : Page.TokenUsage.t) : Page.TokenUsage.t :=
  let totalTokens :=
    Page.TokenUsage.totalTokens prev + newInputTokens + newOutputTokens in
  Page.TokenUsage.mk
    (Page.TokenUsage.inputTokens prev + newInputTokens)
    (Page.TokenUsage.outputTokens prev + newOutputTokens)
    totalTokens
    (JS.div totalTokens Page.MODEL_LIMIT).

(** Generate continuation prompt *)
Definition renderMessage (m : Message.t) : string :=
  JS.toUpperCase (Role_to_string (Message.role m)) +:+ ": "
    +:+ JS.slice0 150 (Message.content m) +:+ "...".

Definition instructionLine : string :=
  "**INSTRUCTION:** Continue the conversation from where we left off. "
  +:+ "No need to reintroduce yourself or ask what we were doing - "
  +:+ "just pick up naturally.".

Definition generateContinuationPrompt (s : State.t) : string :=
  let recentMessages := JS.slice_last 6 (State.messages s) in
  let summary := JS.join JS.nl (map renderMessage recentMessages) in
  "## SESSION RESUME" +:+ JS.nl
  +:+ JS.nl
  +:+ "**Task:** "
  +:+ JS.or_else_str (Some (State.checkpointTask s)) "Continuing previous conversation"
  +:+ JS.nl
  +:+ JS.nl
  +:+ "### Recent Context:" +:+ JS.nl
  +:+ summary +:+ JS.nl
  +:+ JS.nl
  +:+ instructionLine.

(** The synchronous part of [handleSend], up to the request to /api/chat.
    [closure] is the state of the render the handler was created in, [s]
    the state the queued updates apply to. *)
Definition handleSend_begin (closure : State.t) (overrideContent : option string)
    (s : State.t) (e : Env.t) : State.t * Env.t :=
  let content := JS.or_else_str overrideContent (State.input closure) in
  if (JS.blank content || State.isLoading closure)%bool then (s, e)
  else
    let (uid, e1) := uuidv4 e in
    let userMessage :=
      Message.mk uid user content (Env.now e1) (Some (estimateTokens content)) in
    let s1 :=
      if negb (JS.truthy_str overrideContent)
      then setInput EmptyString (setMessages (fun prev => prev ++ [userMessage]) s)
      else s in
    let s2 := setIsLoading true s1 in
    let (aid, e2) := uuidv4 e1 in
    let assistantMessage :=
      Message.mk aid assistant EmptyString (Env.now e2) None in
    (setMessages (fun prev => prev ++ [assistantMessage]) s2, e2).

(** The events of the response stream of /api/chat, once parsed. *)
Inductive StreamEvent :=
| ev_text (content : string)
| ev_done (inputTokens outputTokens : Z)
| ev_error (message : string).

Definition mapAssistant (assistantId : string) (f : Message.t -> Message.t)
    (prev : list Message.t) : list Message.t :=
  map (fun m => if String.eqb (Message.id m) assistantId then f m else m) prev.

Definition withContent (c : string) (m : Message.t) : Message.t :=
  Message.mk (Message.id m) (Message.role m) c (Message.timestamp m) (Message.tokens m).

Definition withTokens (n : Z) (m : Message.t) : Message.t :=
  Message.mk (Message.id m) (Message.role m) (Message.content m) (Message.timestamp m)
    (Some n).

(** One event of the read loop on [(fullContent, state)]. *)
Definition handleEvent (assistantId : string) (acc : string * State.t)
    (ev : StreamEvent) : string * State.t :=
  let (fullContent, s) := acc in
  match ev with
  | ev_text content =>
      let fullContent' := fullContent +:+ content in
      (fullContent', setMessages (mapAssistant assistantId (withContent fullContent')) s)
  | ev_done inputTokens outputTokens =>
      (fullContent,
       setMessages (mapAssistant assistantId (withTokens outputTokens))
         (setTokenUsage (updateTokenUsage inputTokens outputTokens) s))
  | ev_error message =>
      (fullContent,
       setMessages (mapAssistant assistantId (withContent ("Error: " +:+ message))) s)
  end.

(** The rest of [handleSend]: the stream is read to its end ([Some events]),
    or the request fails ([None]) and the catch block reports it. *)
Definition handleSend_stream (assistantId : string) (stream : option (list StreamEvent))
    (s : State.t) : State.t :=
  match stream with
  | Some events =>
      setIsLoading false (snd (fold_left (handleEvent assistantId) events (EmptyString, s)))
  | None =>
      setIsLoading false
        (setMessages
           (mapAssistant assistantId
              (withContent "Connection error. Check your internet and try again.")) s)
  end.

(** What [handleResume] does, step by step.  The handler is written against
    the [Checkpoint] interface; the values it passes on are whatever the held
    object has under the names it reads, [None] being [undefined]. *)
Inductive ResumeStep :=
| r_setMessages (value : option Member)
| r_setTokenUsage (value : option Member)
| r_setSessionId (value : option Member)
| r_setShowResumePrompt (value : bool)
| r_fetch_PATCH (id status : string)
| r_appendMessage (resumeMessage_id : string) (role : Role) (content : option Member)
    (timestamp : string)
| r_handleSend (overrideContent : option Member).

(** Resume from checkpoint.  The identifier is a key of the row under the
    name the handler reads.  A rejected request leaves the handler before the
    resume message is built. *)
Definition handleResume (s : State.t) (e : Env.t) : list ResumeStep * Env.t :=
  match State.activeCheckpoint s with
  | None => ([], e)
  | Some activeCheckpoint =>
      let object := Row_json activeCheckpoint in
      let rehydrate :=
        [r_setMessages (member "messages" object);
         r_setTokenUsage (member "tokenUsage" object);
         r_setSessionId (member "sessionId" object);
         r_setShowResumePrompt false;
         (* Mark checkpoint as resumed and send continuation *)
         r_fetch_PATCH (Row.id activeCheckpoint) "resumed"] in
      match fetch_PATCH (Row.id activeCheckpoint) "resumed" e with
      | (rejected, e1) => (rehydrate, e1)
      | (resolved _, e1) =>
          (* Add system message about resuming *)
          let (uid, e2) := uuidv4 e1 in
          (rehydrate
           ++ [r_appendMessage uid user (member "continuationPrompt" object)
                 (Env.now e2);
               r_handleSend (member "continuationPrompt" object)],
           e2)
      end
  end.

(** Start fresh.  The request is not awaited. *)
Definition handleStartFresh (s : State.t) (e : Env.t) : State.t * Env.t :=
  let e1 :=
    match State.activeCheckpoint s with
    | Some activeCheckpoint =>
        snd (fetch_PATCH (Row.id activeCheckpoint) "abandoned" e)
    | None => e
    end in
  (setActiveCheckpoint None (setShowResumePrompt false s), e1).

(** The resume dialog of the returned markup: hidden, shown, or the
    TypeError of [activeCheckpoint.tokenUsage.percentUsed] when
    [activeCheckpoint.tokenUsage] is [undefined] or [null]. *)
Inductive ResumePrompt :=
| rp_hidden
| rp_shown
| rp_TypeError.

Definition resumePrompt (s : State.t) : ResumePrompt :=
  if State.showResumePrompt s then
    match State.activeCheckpoint s with
    | None => rp_hidden
    | Some activeCheckpoint =>
        match member "tokenUsage" (Row_json activeCheckpoint) with
        | None | Some (m_json JS.JNull) => rp_TypeError
        | Some _ => rp_shown
        end
    end
  else rp_hidden.

Section Init.

Variable order_desc : list Row.t -> list Row.t.

(** [fetch('/api/checkpoint?active=true')] and [res.json()]; [None] when the
    request is rejected. *)
Definition fetch_GET_active (e : Env.t) : option GetResponse :=
  if Env.online e then Some (GET order_desc None true (Env.supabase e)) else None.

(** Initialize session *)
Definition initSession (s : State.t) (e : Env.t) : State.t * Env.t :=
  let s1 :=
    (* Check for active checkpoint *)
    match fetch_GET_active e with
    | Some (GetRow (Some checkpoint)) =>
        match member "status" (Row_json checkpoint) with
        | Some (m_string status) =>
            if String.eqb status "active"
            then setShowResumePrompt true (setActiveCheckpoint (Some checkpoint) s)
            else s
        | _ => s
        end
    | Some (GetRow None) | Some (GetRows _) | Some (GetFailed _) => s
    | None =>
        (* console.log('No active checkpoint') *)
        s
    end in
  let (sid, e1) := uuidv4 e in
  (setSessionId sid s1, e1).

End Init.

Definition isAssistant (m : Message.t) : bool :=
  match Message.role m with
  | assistant => true
  | user => false
  end.

(** Save checkpoint *)
Definition handleSaveCheckpoint (s : State.t) (e : Env.t) : State.t * Env.t :=
  let (uid, e1) := uuidv4 e in
  let checkpoint :=
    Body.mk uid (State.sessionId s) (Env.now e1)
      (JS.or_else_str (Some (State.checkpointTask s)) "Ongoing conversation")
      (map (fun m => JS.slice0 100 (Message.content m))
         (JS.slice_last 3 (List.filter isAssistant (State.messages s))))
      "Awaiting continuation"
      ["Continue from checkpoint"]
      (State.messages s) (State.tokenUsage s) (JS.JObj [])
      (generateContinuationPrompt s) "active" in
  match fetch_POST checkpoint e1 with
  | (resolved _, e2) =>
      let s1 := setCheckpointTask EmptyString (setShowCheckpointModal false s) in
      (* Reset for new session *)
      let s2 := setTokenUsage (fun _ => zeroUsage) (setMessages (fun _ => []) s1) in
      let (sid, e3) := uuidv4 e2 in
      (setSessionId sid s2, e3)
  | (rejected, e2) =>
      (* console.error('Failed to save checkpoint:', error) *)
      (s, e2)
  end.

(** The object the read loop parses from a line the chat route wrote, the
    line reaching the page in one piece. *)
Definition parsed (data : ChatRoute.ServerEvent) : StreamEvent :=
  match data with
  | ChatRoute.sse_text content => ev_text content
  | ChatRoute.sse_done inputTokens outputTokens _ => ev_done inputTokens outputTokens
  | ChatRoute.sse_error message => ev_error message
  end.

(** Send message: one exchange from the click to the end of the stream. *)
Definition handleSend (closure : State.t) (overrideContent : option string)
    (stream : option (list StreamEvent)) (s : State.t) (e : Env.t) : State.t * Env.t :=
  let content := JS.or_else_str overrideContent (State.input closure) in
  if (JS.blank content || State.isLoading closure)%bool then (s, e)
  else
    let (s1, e1) := handleSend_begin closure overrideContent s e in
    (handleSend_stream (Env.uuids e (S (Env.uuids_drawn e))) stream s1, e1).

(** Check if checkpoint needed: the effect run after a change of
    [percentUsed] or of [showCheckpointModal]. *)
Definition checkpointEffect (s : State.t) : State.t :=
  if (JS.ge (Page.TokenUsage.percentUsed (State.tokenUsage s)) Page.CHECKPOINT_THRESHOLD
      && negb (State.showCheckpointModal s))%bool
  then
    if JS.ge (Page.TokenUsage.percentUsed (State.tokenUsage s)) Page.WARNING_THRESHOLD
    then setShowCheckpointModal true s
    else s
  else s.

(** Get status color *)
Definition getStatusColor (s : State.t) : string :=
  if JS.ge (Page.TokenUsage.percentUsed (State.tokenUsage s)) Page.WARNING_THRESHOLD
  then "bg-red-500"
  else if JS.ge (Page.TokenUsage.percentUsed (State.tokenUsage s)) Page.CHECKPOINT_THRESHOLD
  then "bg-yellow-500"
  else "bg-green-500".

Definition getStatusClass (s : State.t) : string :=
  if JS.ge (Page.TokenUsage.percentUsed (State.tokenUsage s)) Page.WARNING_THRESHOLD
  then "token-critical"
  else if JS.ge (Page.TokenUsage.percentUsed (State.tokenUsage s)) Page.CHECKPOINT_THRESHOLD
  then "token-warning"
  else EmptyString.

(** The condition under which the header shows the save button. *)
Definition saveButtonShown (s : State.t) : bool :=
  JS.ge (Page.TokenUsage.percentUsed (State.tokenUsage s)) Page.CHECKPOINT_THRESHOLD.

(** The width of the progress bar, in percent. *)
Definition barWidth (s : State.t) : Q :=
  JS.min (Page.TokenUsage.percentUsed (State.tokenUsage s) * 100) 100.

End LifeOSChat.

(** ** Notions of the specification *)

Module Spec.

Import CheckpointRoute LifeOSChat.

(** The model identifiers the limit table knows. *)
Definition knownModels : list string :=
  ["claude-sonnet-4-20250514"; "claude-opus-4-5-20251101"; "claude-3-5-sonnet-20241022"].

(** Following the specification's words: the deltas of a message list are
    accumulated turn by turn with the incremental update, starting from the
    zeroed usage of a fresh session.  The delta of a turn is the count the
    turn carries in [tokens], on the input side for a user turn and on the
    output side for an assistant turn; a turn that carries no count brings
    no update. *)
Definition accumulateTurn (usage : Page.TokenUsage.t) (msg : Message.t)
  : Page.TokenUsage.t :=
  match Message.tokens msg with
  | None => usage
  | Some tokens =>
      match Message.role msg with
      | user => updateTokenUsage tokens 0 usage
      | assistant => updateTokenUsage 0 tokens usage
      end
  end.

(** A turn that carries a count, and the count is not 0. *)
Definition carriesCount (msg : Message.t) : Prop :=
  match Message.tokens msg with
  | Some tokens => tokens <> 0
  | None => False
  end.

(** The three counters of the two usage records are the same. *)
Definition sameCounters (a : Page.TokenUsage.t) (b : TokenUsage.t) : Prop :=
  Page.TokenUsage.inputTokens a = TokenUsage.inputTokens b /\
  Page.TokenUsage.outputTokens a = TokenUsage.outputTokens b /\
  Page.TokenUsage.totalTokens a = TokenUsage.totalTokens b.

Definition accumulateDeltas (messages : list Message.t) : Page.TokenUsage.t :=
  fold_left accumulateTurn messages zeroUsage.

(** The four fields the two usage records share are the same. *)
Definition sameUsage (a : Page.TokenUsage.t) (b : TokenUsage.t) : Prop :=
  Page.TokenUsage.inputTokens a = TokenUsage.inputTokens b /\
  Page.TokenUsage.outputTokens a = TokenUsage.outputTokens b /\
  Page.TokenUsage.totalTokens a = TokenUsage.totalTokens b /\
  JS.num (Page.TokenUsage.percentUsed a) = TokenUsage.percentUsed b.

(** The usage values the component can hold: the zeroed usage of a fresh
    or reset session, and every incremental update of such a value. *)
Inductive Tracked : Page.TokenUsage.t -> Prop :=
| Tracked_zero : Tracked zeroUsage
| Tracked_update (newInputTokens newOutputTokens : Z) (prev : Page.TokenUsage.t) :
    Tracked prev -> Tracked (updateTokenUsage newInputTokens newOutputTokens prev).

(** A usage record of the page is consistent when its total is the sum of
    its two sides and its ratio is the total over the fixed limit. *)
Definition consistent (u : Page.TokenUsage.t) : Prop :=
  Page.TokenUsage.totalTokens u
    = Page.TokenUsage.inputTokens u + Page.TokenUsage.outputTokens u /\
  Page.TokenUsage.percentUsed u
    = JS.div (Page.TokenUsage.totalTokens u) Page.MODEL_LIMIT.

(** active < warning < critical *)
Definition statusRank (s : SessionStatus) : Z :=
  match s with
  | st_active => 0
  | st_warning => 1
  | st_critical => 2
  end.

(** A usage record with a given [percentUsed]. *)
Definition usageAt (p : Q) : TokenUsage.t :=
  TokenUsage.mk 0 0 0 (JS.num p) EmptyString.

(** A checkpoint with other messages, and a page state with other messages. *)
Definition withMessages (messages : list Message.t) (c : SessionCheckpoint.t)
  : SessionCheckpoint.t :=
  SessionCheckpoint.mk (SessionCheckpoint.id c) (SessionCheckpoint.sessionId c)
    (SessionCheckpoint.timestamp c) (SessionCheckpoint.taskDescription c)
    (SessionCheckpoint.completedSteps c) (SessionCheckpoint.currentStep c)
    (SessionCheckpoint.nextSteps c) messages (SessionCheckpoint.tokenUsage c)
    (SessionCheckpoint.contextVariables c) (SessionCheckpoint.status c)
    (SessionCheckpoint.continuationPrompt c).

Definition holdingMessages (messages : list Message.t) (s : State.t) : State.t :=
  setMessages (fun _ => messages) s.

(** The rows of a session whose status is active. *)
Definition activeFor (sessionId : string) (rows : list Row.t) : list Row.t :=
  List.filter
    (fun r => (String.eqb (Row.status r) "active"
               && String.eqb (Row.session_id r) sessionId)%bool)
    rows.

(** The statuses stored under an identifier. *)
Definition statusOf (id : string) (rows : list Row.t) : list string :=
  map Row.status (List.filter (fun r => String.eqb (Row.id r) id) rows).

(** What the first statement of POST does to one row. *)
Definition demote (sessionId now : string) (r : Row.t) : Row.t :=
  if (String.eqb (Row.status r) "active"
      && String.eqb (Row.session_id r) sessionId)%bool
  then set_status "superseded" now r
  else r.

(** A sequence of inserts, each of which is stored. *)
Fixpoint insertAll (checkpoints : list Body.t) (db : Supabase.t) : option Supabase.t :=
  match checkpoints with
  | [] => Some db
  | c :: rest =>
      match POST c db with
      | (Ok _, db1) => insertAll rest db1
      | (Failed _, _) => None
      end
  end.

(** What the statement of PATCH does to one row. *)
Definition restamp (id status now : string) (r : Row.t) : Row.t :=
  if String.eqb (Row.id r) id then set_status status now r else r.

(** Following the specification's words: a message is rendered as its
    role, then its content cut to a prefix of [width] characters, with an
    ellipsis marker when the content was cut. *)
Definition renderTruncated (width : nat) (m : Message.t) : string :=
  JS.toUpperCase (Role_to_string (Message.role m)) +:+ ": "
    +:+ (if (width <? String.length (Message.content m))%nat
         then JS.slice0 width (Message.content m) +:+ "..."
         else Message.content m).

(** The row POST inserts for a request body, and the activity it logs. *)
Definition storedRow (c : Body.t) (now : string) : Row.t :=
  Row.mk (Body.id c) (Body.sessionId c) (Body.taskDescription c) (Body.completedSteps c)
    (Body.currentStep c) (Body.nextSteps c) (Body.messages c) (Body.tokenUsage c)
    (Body.contextVariables c) (Body.continuationPrompt c) "active" (Body.timestamp c) now.

Definition loggedActivity (c : Body.t) : Activity.t :=
  Activity.mk "session_checkpoint" "life_os_mobile" "BUSINESS" (Body.timestamp c)
    (Body.id c) (Body.taskDescription c)
    (JS.round_percent (Page.TokenUsage.percentUsed (Body.tokenUsage c)))
    "America/New_York".

(** The columns of a row that no status update touches. *)
Definition sameData (r r' : Row.t) : Prop :=
  Row.id r' = Row.id r /\
  Row.session_id r' = Row.session_id r /\
  Row.task_description r' = Row.task_description r /\
  Row.messages r' = Row.messages r /\
  Row.token_usage r' = Row.token_usage r /\
  Row.continuation_prompt r' = Row.continuation_prompt r /\
  Row.created_at r' = Row.created_at r.

(** A message whose count, when it has one, is not negative. *)
Definition countNonNegative (m : Message.t) : Prop :=
  match Message.tokens m with
  | Some t => 0 <= t
  | None => True
  end.

(** The identifiers of the stored rows, in table order. *)
Definition rowIds (rows : list Row.t) : list string := map Row.id rows.

(** The text a sequence of stream events carries. *)
Fixpoint streamText (events : list StreamEvent) : string :=
  match events with
  | [] => EmptyString
  | ev_text content :: rest => content +:+ streamText rest
  | _ :: rest => streamText rest
  end.

(** The text deltas of a sequence of provider events, and their text. *)
Fixpoint providerDeltas (events : list ChatRoute.AnthropicEvent) : list string :=
  match events with
  | [] => []
  | ChatRoute.content_block_delta (Some text) :: rest => text :: providerDeltas rest
  | _ :: rest => providerDeltas rest
  end.

Definition providerText (events : list ChatRoute.AnthropicEvent) : string :=
  fold_right String.append EmptyString (providerDeltas events).

(** The counts the provider reported last, 0 when it reported none. *)
Definition reportedInput (events : list ChatRoute.AnthropicEvent) : Z :=
  fold_left
    (fun n ev =>
       match ev with
       | ChatRoute.message_start input_tokens => JS.or_else input_tokens 0
       | _ => n
       end)
    events 0.

Definition reportedOutput (events : list ChatRoute.AnthropicEvent) : Z :=
  fold_left
    (fun n ev =>
       match ev with
       | ChatRoute.message_delta output_tokens => JS.or_else output_tokens 0
       | _ => n
       end)
    events 0.

(** The usage reports of a sequence of stream events, applied in order. *)
Fixpoint streamUsage (events : list StreamEvent) (u : Page.TokenUsage.t)
  : Page.TokenUsage.t :=
  match events with
  | [] => u
  | ev_done inputTokens outputTokens :: rest =>
      streamUsage rest (updateTokenUsage inputTokens outputTokens u)
  | _ :: rest => streamUsage rest u
  end.

(** What the read loop has made of one message once the events are
    consumed, [fullContent] being the text received before them. *)
Fixpoint finalMessage (events : list StreamEvent) (fullContent : string)
    (m : Message.t) : Message.t :=
  match events with
  | [] => m
  | ev_text content :: rest =>
      finalMessage rest (fullContent +:+ content) (withContent (fullContent +:+ content) m)
  | ev_done _ outputTokens :: rest =>
      finalMessage rest fullContent (withTokens outputTokens m)
  | ev_error message :: rest =>
      finalMessage rest fullContent (withContent ("Error: " +:+ message) m)
  end.

(** The output count of the last usage report, if there is one. *)
Fixpoint lastReport (events : list StreamEvent) (tokens : option Z) : option Z :=
  match events with
  | [] => tokens
  | ev_done _ outputTokens :: rest => lastReport rest (Some outputTokens)
  | _ :: rest => lastReport rest tokens
  end.

Definition isText (ev : StreamEvent) : bool :=
  match ev with
  | ev_text _ => true
  | _ => false
  end.

Definition isError (ev : StreamEvent) : bool :=
  match ev with
  | ev_error _ => true
  | _ => false
  end.

Definition isDone (ev : StreamEvent) : bool :=
  match ev with
  | ev_done _ _ => true
  | _ => false
  end.

End Spec.

(** ** Sample values *)

Module Sample.

Import CheckpointRoute LifeOSChat.

Definition question : Message.t :=
  Message.mk "m-1" user "Why is the invoice total wrong?" "2025-01-01T10:00:00Z" (Some 8).

Definition answer : Message.t :=
  Message.mk "m-2" assistant "The tax is applied twice." "2025-01-01T10:00:05Z" (Some 7).

Definition short : Message.t :=
  Message.mk "m-3" user "hi" "2025-01-01T10:01:00Z" None.

Definition usage : Page.TokenUsage.t :=
  Page.TokenUsage.mk 153000 900 153900 (JS.div 153900 Page.MODEL_LIMIT).

Definition uuids (n : nat) : string :=
  match n with
  | O => "uuid-0"
  | 1%nat => "uuid-1"
  | 2%nat => "uuid-2"
  | _ => "uuid-n"
  end.

Definition emptyDb (reachable : bool) : Supabase.t :=
  Supabase.mk [] [] reachable "2025-01-01T10:02:00Z".

Definition env (db : Supabase.t) (online : bool) : Env.t :=
  Env.mk db online uuids 0 "2025-01-01T10:02:00Z".

Definition session : State.t :=
  State.mk [question; answer] "draft" false "session-1" usage true None
    "Fix billing bug" false.

Definition body (id sessionId : string) : Body.t :=
  Body.mk id sessionId "2025-01-01T10:02:00Z" "Fix billing bug" []
    "Debugging invoice calc" ["Write test"; "Deploy"] [question; answer] usage
    (JS.JObj []) "## SESSION RESUME" "active".

Definition storedCheckpoint : Row.t :=
  Row.mk "cp-1" "session-1" "Fix billing bug" []
    "Debugging invoice calc" ["Write test"; "Deploy"] [question; answer] usage
    (JS.JObj []) "## SESSION RESUME" "active" "2025-01-01T10:02:00Z"
    "2025-01-01T10:02:00Z".

End Sample.

(** * Properties *)

Import Spec.

(** ** Arithmetic of the estimator *)

Section Estimator.

Lemma ceil_quarter (n : Z) : JS.ceil (inject_Z n / 4) = (n + 3) / 4.
Proof.
  unfold JS.ceil, Qceiling, Qfloor, Qdiv, Qmult, Qinv, Qopp, inject_Z; simpl.
  rewrite Z.mul_1_r.
  Z.div_mod_to_equations. lia.
Qed.

Lemma estimateTokens_div (t : string) :
  estimateTokens t = (Z.of_nat (String.length t) + 3) / 4.
Proof. apply ceil_quarter. Qed.

Lemma estimateTokens_bounds (t : string) :
  4 * (estimateTokens t - 1) < Z.of_nat (String.length t) <= 4 * estimateTokens t.
Proof.
  rewrite estimateTokens_div.
  Z.div_mod_to_equations. lia.
Qed.

Lemma estimateTokens_nonneg (t : string) : 0 <= estimateTokens t.
Proof. pose proof (estimateTokens_bounds t). lia. Qed.

End Estimator.

(** C8.  For every text the estimate is the ceiling of a quarter of its
    length: it is the least integer [k] with [length <= 4 * k], it equals
    [(length + 3) / 4], the page's estimator is the same function, the empty
    text is estimated at 0, and two texts of the same length have the same
    estimate (the function takes nothing but the text). *)
Theorem estimateTokens_is_ceiling :
  (forall t : string,
      4 * (estimateTokens t - 1) < Z.of_nat (String.length t) <= 4 * estimateTokens t /\
      estimateTokens t = (Z.of_nat (String.length t) + 3) / 4 /\
      LifeOSChat.estimateTokens t = estimateTokens t) /\
  estimateTokens EmptyString = 0 /\
  (forall t1 t2 : string,
      String.length t1 = String.length t2 -> estimateTokens t1 = estimateTokens t2).
Proof.
  split; [| split].
  - intros t. split; [apply estimateTokens_bounds |].
    split; [apply estimateTokens_div | reflexivity].
  - reflexivity.
  - intros t1 t2 H. unfold estimateTokens. now rewrite H.
Qed.

Lemma estimateTokens_is_ceiling_witness :
  String.length "abcde" = String.length "12345" /\
  estimateTokens "abcde" = estimateTokens "12345" /\
  estimateTokens "abcde" = 2.
Proof.
  split; [reflexivity |].
  split; [| reflexivity].
  apply (proj2 (proj2 estimateTokens_is_ceiling) "abcde" "12345").
  reflexivity.
Defined.

(** ** The bulk path: [calculateTokenUsage] *)

Section BulkCount.

Lemma or_else_nonzero (v y : Z) : v <> 0 -> JS.or_else (Some v) y = v.
Proof.
  intros Hv. unfold JS.or_else.
  destruct (Z.eqb_spec v 0) as [E | _]; [contradiction | reflexivity].
Qed.

(** The counters only ever move by what the messages add. *)
Lemma countMessage_shift (l : list Message.t) :
  forall a b : Z,
    fold_left countMessage l (a, b) =
    (a + fst (fold_left countMessage l (0, 0)),
     b + snd (fold_left countMessage l (0, 0))).
Proof.
  induction l as [| m l IH]; intros a b; simpl.
  - f_equal; lia.
  - unfold countMessage at 2 4 6. simpl.
    destruct (Message.role m); simpl;
      rewrite (IH _ _); symmetry; rewrite (IH _ _); simpl; f_equal; lia.
Qed.

Lemma countMessage_insert (before after : list Message.t) (msg : Message.t) :
  fold_left countMessage (before ++ msg :: after) (0, 0) =
  match Message.role msg with
  | user =>
      (fst (fold_left countMessage (before ++ after) (0, 0)) + messageTokens msg,
       snd (fold_left countMessage (before ++ after) (0, 0)))
  | assistant =>
      (fst (fold_left countMessage (before ++ after) (0, 0)),
       snd (fold_left countMessage (before ++ after) (0, 0)) + messageTokens msg)
  end.
Proof.
  rewrite !fold_left_app. simpl.
  destruct (fold_left countMessage before (0, 0)) as [a b].
  unfold countMessage at 2. simpl.
  destruct (Message.role msg); simpl;
    rewrite (countMessage_shift after); symmetry;
    rewrite (countMessage_shift after); simpl; f_equal; lia.
Qed.

Lemma existsb_eqb_In (k : string) (l : list string) :
  existsb (String.eqb k) l = true <-> In k l.
Proof.
  rewrite existsb_exists. split.
  - intros (x & Hx & E). apply String.eqb_eq in E. now subst.
  - intros H. exists k. split; [exact H | apply String.eqb_refl].
Qed.

Lemma modelLimit_known (mdl : string) :
  In mdl knownModels -> modelLimit mdl = JS.own 180000.
Proof.
  simpl. intros [<- | [<- | [<- | []]]]; reflexivity.
Qed.

Lemma modelLimit_inherited (mdl : string) :
  In mdl JS.Object_prototype -> modelLimit mdl = JS.inherited.
Proof.
  unfold JS.Object_prototype. simpl.
  intros H. repeat (destruct H as [<- | H]; [reflexivity |]). destruct H.
Qed.

Lemma modelLimit_unknown (mdl : string) :
  ~ In mdl knownModels -> ~ In mdl JS.Object_prototype ->
  modelLimit mdl = JS.own 150000.
Proof.
  simpl In at 1. intros Hn Hp.
  assert (Hex : existsb (String.eqb mdl) JS.Object_prototype = false).
  { apply not_true_iff_false. intros H. apply Hp. now apply existsb_eqb_In. }
  unfold modelLimit, JS.get, MODEL_LIMITS.
  rewrite !lookup_insert_ne by (intros E; apply Hn; rewrite E; tauto).
  destruct (decide ("default" = mdl)) as [<- | Hd].
  - reflexivity.
  - rewrite lookup_insert_ne by exact Hd. rewrite lookup_empty, Hex. reflexivity.
Qed.

Lemma inherited_not_known (mdl : string) :
  In mdl JS.Object_prototype -> ~ In mdl knownModels.
Proof.
  intros Hp Hk. pose proof (modelLimit_known mdl Hk) as E.
  rewrite (modelLimit_inherited mdl Hp) in E. discriminate E.
Qed.

Lemma number_ge_NaN (y : Q) : JS.number_ge JS.NaN y = false.
Proof. reflexivity. Qed.

Lemma div_is_quotient (a b : Z) : (JS.div a b == inject_Z a / inject_Z b)%Q.
Proof. apply Qred_correct. Qed.

End BulkCount.

(** C10.  In [calculateTokenUsage] a message whose [tokens] is 0 is counted
    by the estimate of its content, exactly like a message without [tokens],
    and a message whose [tokens] is positive is counted by that value; the
    amount goes to the input side for a user message and to the output side
    for an assistant message. *)
Theorem zero_count_falls_back_to_estimate :
  forall (before after : list Message.t) (msg : Message.t) (mdl : string),
    let without := calculateTokenUsage (before ++ after) mdl in
    let with_msg := calculateTokenUsage (before ++ msg :: after) mdl in
    (Message.tokens msg = Some 0 ->
     TokenUsage.totalTokens with_msg
     = TokenUsage.totalTokens without + estimateTokens (Message.content msg)) /\
    (Message.tokens msg = None ->
     TokenUsage.totalTokens with_msg
     = TokenUsage.totalTokens without + estimateTokens (Message.content msg)) /\
    (forall t : Z,
        Message.tokens msg = Some t -> 0 < t ->
        TokenUsage.totalTokens with_msg = TokenUsage.totalTokens without + t) /\
    TokenUsage.inputTokens with_msg
    = TokenUsage.inputTokens without
      + match Message.role msg with user => messageTokens msg | assistant => 0 end /\
    TokenUsage.outputTokens with_msg
    = TokenUsage.outputTokens without
      + match Message.role msg with user => 0 | assistant => messageTokens msg end.
Proof.
  intros before after msg mdl without with_msg.
  assert (Htotal : TokenUsage.totalTokens with_msg
                   = TokenUsage.totalTokens without + messageTokens msg).
  { unfold with_msg, without, calculateTokenUsage; simpl.
    rewrite countMessage_insert. destruct (Message.role msg); simpl; lia. }
  split; [| split; [| split; [| split]]].
  - intros H. rewrite Htotal. unfold messageTokens. now rewrite H.
  - intros H. rewrite Htotal. unfold messageTokens. now rewrite H.
  - intros t H Ht. rewrite Htotal. unfold messageTokens. rewrite H.
    f_equal. apply or_else_nonzero. lia.
  - unfold with_msg, without, calculateTokenUsage; simpl.
    rewrite countMessage_insert. destruct (Message.role msg); simpl; lia.
  - unfold with_msg, without, calculateTokenUsage; simpl.
    rewrite countMessage_insert. destruct (Message.role msg); simpl; lia.
Qed.

Lemma zero_count_falls_back_to_estimate_witness :
  Message.tokens (Message.mk "m2" assistant "12345678" "t2" (Some 0)) = Some 0 /\
  TokenUsage.totalTokens
    (calculateTokenUsage
       [Message.mk "m1" user "hello" "t1" (Some 12);
        Message.mk "m2" assistant "12345678" "t2" (Some 0)] "default")
  = 12 + estimateTokens "12345678" /\
  TokenUsage.totalTokens
    (calculateTokenUsage
       [Message.mk "m1" user "hello" "t1" (Some 12);
        Message.mk "m2" assistant "12345678" "t2" (Some 0)] "default")
  = 2 + 12.
Proof.
  destruct (zero_count_falls_back_to_estimate
              [Message.mk "m1" user "hello" "t1" (Some 12)] []
              (Message.mk "m2" assistant "12345678" "t2" (Some 0)) "default")
    as (Hzero & _ & _ & _ & _).
  destruct (zero_count_falls_back_to_estimate
              [] [Message.mk "m2" assistant "12345678" "t2" (Some 0)]
              (Message.mk "m1" user "hello" "t1" (Some 12)) "default")
    as (_ & _ & Hpos & _ & _).
  split; [reflexivity |].
  split.
  - exact (Hzero eq_refl).
  - exact (Hpos 12 eq_refl eq_refl).
Defined.

(** C7, evaluated where it fails.  For a model identifier that is the name
    of a member of [Object.prototype] the lookup in the limit table finds
    the inherited member, the fallback to the default limit is skipped and
    [percentUsed] is [NaN], so that the status stays active whatever the
    count; [constructor] with 170000 tokens is such an input.  For every
    other identifier [percentUsed] is [totalTokens] divided by the limit of
    the model: 180000 for the three known identifiers and 150000 for the
    rest. *)
Theorem percentUsed_is_NaN_for_inherited_name :
  (forall (messages : list Message.t) (mdl : string),
      In mdl JS.Object_prototype ->
      let usage := calculateTokenUsage messages mdl in
      ~ In mdl knownModels /\
      modelLimit mdl = JS.inherited /\
      TokenUsage.percentUsed usage = JS.NaN /\
      getSessionStatus usage = st_active /\
      needsCheckpoint usage = false) /\
  (forall (messages : list Message.t) (mdl : string),
      ~ In mdl JS.Object_prototype ->
      let usage := calculateTokenUsage messages mdl in
      (In mdl knownModels ->
       modelLimit mdl = JS.own 180000 /\
       TokenUsage.percentUsed usage = JS.num (JS.div (TokenUsage.totalTokens usage) 180000) /\
       (JS.div (TokenUsage.totalTokens usage) 180000
        == inject_Z (TokenUsage.totalTokens usage) / 180000)%Q) /\
      (~ In mdl knownModels ->
       modelLimit mdl = JS.own 150000 /\
       TokenUsage.percentUsed usage = JS.num (JS.div (TokenUsage.totalTokens usage) 150000) /\
       (JS.div (TokenUsage.totalTokens usage) 150000
        == inject_Z (TokenUsage.totalTokens usage) / 150000)%Q)) /\
  TokenUsage.totalTokens
    (calculateTokenUsage [Message.mk "m1" user "hi" "t1" (Some 170000)] "constructor")
  = 170000 /\
  TokenUsage.percentUsed
    (calculateTokenUsage [Message.mk "m1" user "hi" "t1" (Some 170000)] "constructor")
  = JS.NaN.
Proof.
  split; [| split; [| split; reflexivity]].
  - intros messages mdl Hp usage.
    pose proof (modelLimit_inherited mdl Hp) as E.
    assert (Hnan : TokenUsage.percentUsed usage = JS.NaN).
    { unfold usage, calculateTokenUsage; simpl. now rewrite E. }
    split; [now apply inherited_not_known |]. split; [exact E |].
    split; [exact Hnan |].
    unfold getSessionStatus, needsCheckpoint. rewrite Hnan. split; reflexivity.
  - intros messages mdl Hp usage. split; intros H.
    + pose proof (modelLimit_known mdl H) as E.
      unfold usage, calculateTokenUsage; simpl. rewrite E.
      split; [reflexivity |]. split; [reflexivity | apply div_is_quotient].
    + pose proof (modelLimit_unknown mdl H Hp) as E.
      unfold usage, calculateTokenUsage; simpl. rewrite E.
      split; [reflexivity |]. split; [reflexivity | apply div_is_quotient].
Qed.

Lemma percentUsed_is_NaN_for_inherited_name_witness :
  In "toString" JS.Object_prototype /\
  TokenUsage.percentUsed
    (calculateTokenUsage [Message.mk "m1" user "hi" "t1" (Some 90000)] "toString")
  = JS.NaN /\
  ~ In "some-other-model" JS.Object_prototype /\
  TokenUsage.percentUsed
    (calculateTokenUsage [Message.mk "m1" user "hi" "t1" (Some 90000)] "some-other-model")
  = JS.num (3 # 5).
Proof.
  assert (Hp : In "toString" JS.Object_prototype) by (simpl; tauto).
  assert (Hn : ~ In "some-other-model" JS.Object_prototype).
  { simpl. intros H. repeat (destruct H as [E | H]; [discriminate E |]). exact H. }
  assert (Hk : ~ In "some-other-model" knownModels).
  { simpl. intros [E | [E | [E | []]]]; discriminate E. }
  destruct percentUsed_is_NaN_for_inherited_name as (Hbad & Hgood & _).
  split; [exact Hp |].
  split.
  - exact (proj1 (proj2 (proj2 (Hbad [Message.mk "m1" user "hi" "t1" (Some 90000)]
                                  "toString" Hp)))).
  - split; [exact Hn |].
    destruct (proj2 (Hgood [Message.mk "m1" user "hi" "t1" (Some 90000)]
                       "some-other-model" Hn) Hk) as (_ & -> & _).
    reflexivity.
Defined.

(** ** The threshold evaluator *)

Section Thresholds.

Lemma ge_iff (x y : Q) : JS.ge x y = true <-> (y <= x)%Q.
Proof. unfold JS.ge. apply Qle_bool_iff. Qed.

Lemma ge_false_iff (x y : Q) : JS.ge x y = false <-> (x < y)%Q.
Proof.
  rewrite <- not_true_iff_false, ge_iff. split.
  - apply Qnot_le_lt.
  - apply Qlt_not_le.
Qed.

Lemma thresholds_ordered : (CHECKPOINT_THRESHOLD < WARNING_THRESHOLD)%Q.
Proof. reflexivity. Qed.

Lemma number_ge_num (p y : Q) : JS.number_ge (JS.num p) y = JS.ge p y.
Proof. reflexivity. Qed.

Lemma critical_implies_checkpoint (u : TokenUsage.t) :
  isCritical u = true -> needsCheckpoint u = true.
Proof.
  unfold isCritical, needsCheckpoint.
  destruct (TokenUsage.percentUsed u) as [p |]; simpl; [| discriminate].
  rewrite !ge_iff. intros H.
  apply Qle_trans with WARNING_THRESHOLD; [| exact H].
  apply Qlt_le_weak, thresholds_ordered.
Qed.

Lemma getSessionStatus_cases (u : TokenUsage.t) :
  getSessionStatus u =
  if isCritical u then st_critical
  else if needsCheckpoint u then st_warning else st_active.
Proof. reflexivity. Qed.

Lemma getSessionStatus_mono (u v : TokenUsage.t) (p q : Q) :
  TokenUsage.percentUsed u = JS.num p ->
  TokenUsage.percentUsed v = JS.num q ->
  (p <= q)%Q ->
  statusRank (getSessionStatus u) <= statusRank (getSessionStatus v).
Proof.
  intros Hu Hv Hle. unfold getSessionStatus. rewrite Hu, Hv, !number_ge_num.
  destruct (JS.ge q WARNING_THRESHOLD) eqn:Ecv.
  - destruct (JS.ge p WARNING_THRESHOLD), (JS.ge p CHECKPOINT_THRESHOLD); simpl; lia.
  - apply ge_false_iff in Ecv.
    assert (Ecu : JS.ge p WARNING_THRESHOLD = false).
    { apply ge_false_iff. eapply Qle_lt_trans; [exact Hle | exact Ecv]. }
    rewrite Ecu.
    destruct (JS.ge q CHECKPOINT_THRESHOLD) eqn:Env.
    + destruct (JS.ge p CHECKPOINT_THRESHOLD); simpl; lia.
    + apply ge_false_iff in Env.
      assert (Enu : JS.ge p CHECKPOINT_THRESHOLD = false).
      { apply ge_false_iff. eapply Qle_lt_trans; [exact Hle | exact Env]. }
      rewrite Enu. simpl; lia.
Qed.

End Thresholds.

(** C2.  For every usage [u] whose [percentUsed] is the number [p]: the
    status is critical exactly when [p >= 0.85], warning exactly when
    [0.70 <= p < 0.85], and active otherwise; [needsCheckpoint] holds
    exactly from 0.70 and [isCritical] exactly from 0.85, both bounds
    included.  A [percentUsed] that is [NaN] passes no comparison: the status
    is active and neither test holds.  At 0.69, 0.70, 0.84, 0.85 and 0.86
    the statuses are active, warning, warning, critical and critical, and
    the status never moves back as [percentUsed] grows. *)
Theorem status_thresholds :
  (forall (u : TokenUsage.t) (p : Q),
      TokenUsage.percentUsed u = JS.num p ->
      (getSessionStatus u = st_critical <-> (0.85 <= p)%Q) /\
      (getSessionStatus u = st_warning <-> (0.70 <= p)%Q /\ (p < 0.85)%Q) /\
      (getSessionStatus u = st_active <-> (p < 0.70)%Q) /\
      (needsCheckpoint u = true <-> (0.70 <= p)%Q) /\
      (isCritical u = true <-> (0.85 <= p)%Q)) /\
  (forall u : TokenUsage.t,
      TokenUsage.percentUsed u = JS.NaN ->
      getSessionStatus u = st_active /\
      needsCheckpoint u = false /\
      isCritical u = false) /\
  map (fun p => getSessionStatus (usageAt p)) [0.69; 0.70; 0.84; 0.85; 0.86]%Q =
    [st_active; st_warning; st_warning; st_critical; st_critical] /\
  map (fun p => (needsCheckpoint (usageAt p), isCritical (usageAt p)))
      [0.69; 0.70; 0.84; 0.85; 0.86]%Q =
    [(false, false); (true, false); (true, false); (true, true); (true, true)] /\
  (forall (u v : TokenUsage.t) (p q : Q),
      TokenUsage.percentUsed u = JS.num p ->
      TokenUsage.percentUsed v = JS.num q ->
      (p <= q)%Q ->
      statusRank (getSessionStatus u) <= statusRank (getSessionStatus v)).
Proof.
  split; [| split; [| split; [reflexivity | split; [reflexivity |]]]].
  - intros u p Hp.
    pose proof (critical_implies_checkpoint u) as Himp.
    rewrite getSessionStatus_cases.
    assert (Hc : isCritical u = JS.ge p WARNING_THRESHOLD).
    { unfold isCritical. now rewrite Hp. }
    assert (Hn : needsCheckpoint u = JS.ge p CHECKPOINT_THRESHOLD).
    { unfold needsCheckpoint. now rewrite Hp. }
    change (0.85 <= p)%Q with (WARNING_THRESHOLD <= p)%Q.
    change (0.70 <= p)%Q with (CHECKPOINT_THRESHOLD <= p)%Q.
    change (p < 0.85)%Q with (p < WARNING_THRESHOLD)%Q.
    change (p < 0.70)%Q with (p < CHECKPOINT_THRESHOLD)%Q.
    rewrite <- (ge_iff p WARNING_THRESHOLD).
    rewrite <- (ge_iff p CHECKPOINT_THRESHOLD).
    rewrite <- (ge_false_iff p WARNING_THRESHOLD).
    rewrite <- (ge_false_iff p CHECKPOINT_THRESHOLD).
    rewrite <- Hc, <- Hn.
    destruct (isCritical u) eqn:Ec, (needsCheckpoint u) eqn:En;
      try (specialize (Himp eq_refl); discriminate Himp);
      repeat split; intros; try discriminate; try reflexivity;
      repeat match goal with H : _ /\ _ |- _ => destruct H end; discriminate.
  - intros u Hp. unfold getSessionStatus, needsCheckpoint, isCritical.
    rewrite Hp. repeat split.
  - apply getSessionStatus_mono.
Qed.

Lemma status_thresholds_witness :
  TokenUsage.percentUsed (usageAt 0.70) = JS.num 0.70 /\
  (0.70 <= 0.85)%Q /\
  statusRank (getSessionStatus (usageAt 0.70))
    <= statusRank (getSessionStatus (usageAt 0.85)) /\
  getSessionStatus (usageAt 0.85) = st_critical /\
  needsCheckpoint (usageAt 0.70) = true.
Proof.
  assert (H : (0.70 <= 0.85)%Q) by (unfold Qle; simpl; lia).
  split; [reflexivity |]. split; [exact H |].
  split;
    [exact (proj2 (proj2 (proj2 (proj2 status_thresholds)))
              (usageAt 0.70) (usageAt 0.85) 0.70%Q 0.85%Q eq_refl eq_refl H) |].
  destruct (proj1 status_thresholds (usageAt 0.85) 0.85%Q eq_refl) as (Hc & _ & _ & _ & _).
  destruct (proj1 status_thresholds (usageAt 0.70) 0.70%Q eq_refl) as (_ & _ & _ & Hn & _).
  split.
  - apply Hc. unfold Qle. simpl. lia.
  - apply Hn. unfold Qle. simpl. lia.
Defined.

(** ** The incremental path: [updateTokenUsage] *)

Section Incremental.

Import LifeOSChat.

Lemma zeroUsage_consistent : consistent zeroUsage.
Proof. split; reflexivity. Qed.

Lemma updateTokenUsage_total (i o : Z) (prev : Page.TokenUsage.t) :
  Page.TokenUsage.totalTokens prev
    = Page.TokenUsage.inputTokens prev + Page.TokenUsage.outputTokens prev ->
  Page.TokenUsage.totalTokens (updateTokenUsage i o prev)
    = Page.TokenUsage.inputTokens (updateTokenUsage i o prev)
      + Page.TokenUsage.outputTokens (updateTokenUsage i o prev).
Proof. simpl. lia. Qed.

Lemma updateTokenUsage_consistent (i o : Z) (prev : Page.TokenUsage.t) :
  consistent prev -> consistent (updateTokenUsage i o prev).
Proof.
  intros [Ht _]. split; [now apply updateTokenUsage_total | reflexivity].
Qed.

Lemma accumulateTurn_consistent (u : Page.TokenUsage.t) (m : Message.t) :
  consistent u -> consistent (accumulateTurn u m).
Proof.
  intros H. unfold accumulateTurn.
  destruct (Message.tokens m); [| exact H].
  destruct (Message.role m); now apply updateTokenUsage_consistent.
Qed.

(** A count that is carried and not 0 is the count the bulk path takes. *)
Lemma carried_is_counted (m : Message.t) :
  carriesCount m ->
  exists t : Z, Message.tokens m = Some t /\ messageTokens m = t.
Proof.
  unfold carriesCount, messageTokens.
  destruct (Message.tokens m) as [t |]; [| intros []].
  intros Ht. exists t. split; [reflexivity | now apply or_else_nonzero].
Qed.

(** Both paths move the two sides in step. *)
Lemma accumulate_counters (l : list Message.t) :
  Forall carriesCount l ->
  forall u : Page.TokenUsage.t,
    consistent u ->
    let r := fold_left accumulateTurn l u in
    let c :=
      fold_left countMessage l
        (Page.TokenUsage.inputTokens u, Page.TokenUsage.outputTokens u) in
    consistent r /\
    Page.TokenUsage.inputTokens r = fst c /\
    Page.TokenUsage.outputTokens r = snd c.
Proof.
  induction 1 as [| m l Hm _ IH]; intros u Hu; simpl.
  - auto.
  - destruct (IH (accumulateTurn u m) (accumulateTurn_consistent u m Hu))
      as (Hc & Hi & Ho).
    split; [exact Hc |].
    rewrite Hi, Ho.
    destruct (carried_is_counted m Hm) as (t & Et & Ec).
    unfold accumulateTurn, countMessage. rewrite Et, Ec.
    destruct (Message.role m); simpl; rewrite ?Z.add_0_r; auto.
Qed.

(** The two limits give different ratios, except for an empty count. *)
Lemma ratios_differ (t : Z) : t <> 0 -> JS.div t 180000 <> JS.div t 150000.
Proof.
  intros Ht E.
  assert (H : (inject_Z t / 180000 == inject_Z t / 150000)%Q).
  { transitivity (JS.div t 180000); [symmetry; apply (div_is_quotient t 180000) |].
    rewrite E. apply (div_is_quotient t 150000). }
  assert (H0 : (inject_Z t == 0)%Q).
  { assert (Hx : (inject_Z t / 180000 * 900000 == inject_Z t / 150000 * 900000)%Q)
      by now rewrite H.
    assert (E1 : (inject_Z t / 180000 * 900000 == inject_Z t * 5)%Q) by field.
    assert (E2 : (inject_Z t / 150000 * 900000 == inject_Z t * 6)%Q) by field.
    rewrite E1, E2 in Hx. lra. }
  apply Ht. apply inject_Z_injective. exact H0.
Qed.

Lemma estimateTokens_pos (t : string) :
  t <> EmptyString -> 0 < TokenMonitor.estimateTokens t.
Proof.
  intros Hne. pose proof (estimateTokens_bounds t) as Hb.
  destruct t as [| c t]; [contradiction |]. simpl String.length in Hb. lia.
Qed.

End Incremental.

(** C4.  Every usage value the system produces has
    [totalTokens = inputTokens + outputTokens]: the result of
    [calculateTokenUsage] on any message list and model, the result of
    [updateTokenUsage] on a prior usage with that property and any deltas,
    and so every usage reached from the zeroed usage by updates. *)
Theorem totalTokens_is_sum :
  (forall (messages : list Message.t) (mdl : string),
      let u := calculateTokenUsage messages mdl in
      TokenUsage.totalTokens u = TokenUsage.inputTokens u + TokenUsage.outputTokens u) /\
  (forall (prev : Page.TokenUsage.t) (newInputTokens newOutputTokens : Z),
      Page.TokenUsage.totalTokens prev
        = Page.TokenUsage.inputTokens prev + Page.TokenUsage.outputTokens prev ->
      let u := LifeOSChat.updateTokenUsage newInputTokens newOutputTokens prev in
      Page.TokenUsage.totalTokens u
        = Page.TokenUsage.inputTokens u + Page.TokenUsage.outputTokens u) /\
  (forall u : Page.TokenUsage.t,
      Tracked u ->
      Page.TokenUsage.totalTokens u
        = Page.TokenUsage.inputTokens u + Page.TokenUsage.outputTokens u).
Proof.
  split; [| split].
  - intros messages mdl u. reflexivity.
  - intros prev i o H u. now apply updateTokenUsage_total.
  - intros u Hu. induction Hu as [| i o prev _ IH].
    + reflexivity.
    + now apply updateTokenUsage_total.
Qed.

Lemma totalTokens_is_sum_witness :
  let u :=
    LifeOSChat.updateTokenUsage 1200 350
      (LifeOSChat.updateTokenUsage 40 200 LifeOSChat.zeroUsage) in
  Tracked u /\
  Page.TokenUsage.totalTokens u = 1790 /\
  Page.TokenUsage.totalTokens u
    = Page.TokenUsage.inputTokens u + Page.TokenUsage.outputTokens u.
Proof.
  assert (H : Tracked
                (LifeOSChat.updateTokenUsage 1200 350
                   (LifeOSChat.updateTokenUsage 40 200 LifeOSChat.zeroUsage))).
  { apply Tracked_update, Tracked_update, Tracked_zero. }
  split; [exact H |].
  split; [reflexivity |].
  exact (proj2 (proj2 totalTokens_is_sum) _ H).
Defined.

(** C1, as stated: for every message list and every model the two paths give
    the same four fields.  It fails for a model outside the limit table,
    where the bulk path divides by 150000 and the incremental path by 180000;
    and it fails, for the counters already, for a turn that carries the count
    0: the bulk path takes the estimate of its content instead. *)
Lemma paths_disagree_on_model_and_on_zero_count :
  ~ sameUsage
      (accumulateDeltas [Message.mk "m1" user "abcd" "t1" (Some 1)])
      (calculateTokenUsage [Message.mk "m1" user "abcd" "t1" (Some 1)] "gpt-4") /\
  ~ sameUsage
      (accumulateDeltas [Message.mk "m2" assistant "abcd" "t2" (Some 0)])
      (calculateTokenUsage [Message.mk "m2" assistant "abcd" "t2" (Some 0)]
         "claude-sonnet-4-20250514") /\
  TokenUsage.outputTokens
    (calculateTokenUsage [Message.mk "m2" assistant "abcd" "t2" (Some 0)]
       "claude-sonnet-4-20250514") = 1 /\
  Page.TokenUsage.outputTokens
    (accumulateDeltas [Message.mk "m2" assistant "abcd" "t2" (Some 0)]) = 0.
Proof.
  split; [| split; [| split; reflexivity]].
  - intros (_ & _ & _ & H). vm_compute in H. discriminate H.
  - intros (_ & H & _). vm_compute in H. discriminate H.
Qed.

(** C1, amended.  For every message list in which each turn carries a count
    that is not 0, and every model, accumulating the carried counts turn by
    turn yields the same [inputTokens], [outputTokens] and [totalTokens] as
    the recomputation in one pass; [percentUsed] is the same as well for the
    three known models, whose limit is the 180000 the page divides by, and it
    differs for every other model unless the total is 0.  A turn whose count
    is 0 or absent and whose content is not empty is counted by the estimate
    of its content in the one pass and by nothing turn by turn, so that the
    counters differ. *)
Theorem paths_agree_on_carried_counts :
  (forall (messages : list Message.t) (mdl : string),
      Forall carriesCount messages ->
      let inc := accumulateDeltas messages in
      let bulk := calculateTokenUsage messages mdl in
      sameCounters inc bulk /\
      (In mdl knownModels -> sameUsage inc bulk) /\
      (~ In mdl knownModels -> TokenUsage.totalTokens bulk <> 0 -> ~ sameUsage inc bulk)) /\
  (forall (msg : Message.t) (mdl : string),
      ~ carriesCount msg ->
      Message.content msg <> EmptyString ->
      TokenUsage.totalTokens (calculateTokenUsage [msg] mdl)
      = estimateTokens (Message.content msg) /\
      Page.TokenUsage.totalTokens (accumulateDeltas [msg]) = 0 /\
      ~ sameCounters (accumulateDeltas [msg]) (calculateTokenUsage [msg] mdl)).
Proof.
  split.
  - intros messages mdl Hall inc bulk.
    destruct (accumulate_counters messages Hall LifeOSChat.zeroUsage zeroUsage_consistent)
      as ((Ht & Hp) & Hi & Ho).
    fold (accumulateDeltas messages) in Ht, Hp, Hi, Ho. fold inc in Ht, Hp, Hi, Ho.
    simpl in Hi, Ho.
    assert (Hin : Page.TokenUsage.inputTokens inc = TokenUsage.inputTokens bulk)
      by exact Hi.
    assert (Hout : Page.TokenUsage.outputTokens inc = TokenUsage.outputTokens bulk)
      by exact Ho.
    assert (Htot : Page.TokenUsage.totalTokens inc = TokenUsage.totalTokens bulk).
    { rewrite Ht, Hin, Hout. reflexivity. }
    split; [repeat split; assumption |]. split.
    + intros Hk. repeat split; try assumption.
      rewrite Hp, Htot. unfold bulk, calculateTokenUsage; simpl.
      now rewrite (modelLimit_known mdl Hk).
    + intros Hk Hne (_ & _ & _ & Hsame).
      rewrite Hp, Htot in Hsame.
      assert (Hbulk : TokenUsage.percentUsed bulk
                      = JS.div_by (TokenUsage.totalTokens bulk) (modelLimit mdl))
        by reflexivity.
      rewrite Hbulk in Hsame.
      destruct (In_dec string_dec mdl JS.Object_prototype) as [Hp' | Hp'].
      * rewrite (modelLimit_inherited mdl Hp') in Hsame. discriminate Hsame.
      * rewrite (modelLimit_unknown mdl Hk Hp') in Hsame. simpl in Hsame.
        injection Hsame as Hsame. now apply (ratios_differ _ Hne).
  - intros msg mdl Hno Hne.
    pose proof (estimateTokens_pos _ Hne) as Hpos.
    assert (Hinc : accumulateDeltas [msg] = LifeOSChat.zeroUsage
                   \/ accumulateDeltas [msg]
                      = LifeOSChat.updateTokenUsage 0 0 LifeOSChat.zeroUsage).
    { unfold accumulateDeltas, accumulateTurn, carriesCount in *. simpl.
      destruct (Message.tokens msg) as [t |]; [| now left].
      assert (t = 0) as -> by (destruct (Z.eq_dec t 0); [assumption | contradiction]).
      right. now destruct (Message.role msg). }
    assert (Hmt : messageTokens msg = estimateTokens (Message.content msg)).
    { unfold messageTokens, carriesCount in *.
      destruct (Message.tokens msg) as [t |]; [| reflexivity].
      assert (t = 0) as -> by (destruct (Z.eq_dec t 0); [assumption | contradiction]).
      reflexivity. }
    assert (Hbulk : TokenUsage.totalTokens (calculateTokenUsage [msg] mdl)
                    = estimateTokens (Message.content msg)).
    { unfold calculateTokenUsage, countMessage; simpl. rewrite Hmt.
      destruct (Message.role msg); simpl; lia. }
    assert (Hzero : Page.TokenUsage.totalTokens (accumulateDeltas [msg]) = 0).
    { destruct Hinc as [-> | ->]; reflexivity. }
    split; [exact Hbulk |]. split; [exact Hzero |].
    intros (_ & _ & Htot). rewrite Hzero, Hbulk in Htot. lia.
Qed.

Lemma paths_agree_on_carried_counts_witness :
  Forall carriesCount
    [Message.mk "m1" user "abcd" "t1" (Some 1);
     Message.mk "m2" assistant "reply" "t2" (Some 200)] /\
  sameUsage
    (accumulateDeltas
       [Message.mk "m1" user "abcd" "t1" (Some 1);
        Message.mk "m2" assistant "reply" "t2" (Some 200)])
    (calculateTokenUsage
       [Message.mk "m1" user "abcd" "t1" (Some 1);
        Message.mk "m2" assistant "reply" "t2" (Some 200)]
       "claude-sonnet-4-20250514") /\
  ~ carriesCount (Message.mk "m3" assistant "abcd" "t3" (Some 0)) /\
  ~ sameCounters
      (accumulateDeltas [Message.mk "m3" assistant "abcd" "t3" (Some 0)])
      (calculateTokenUsage [Message.mk "m3" assistant "abcd" "t3" (Some 0)]
         "claude-sonnet-4-20250514").
Proof.
  assert (H : Forall carriesCount
                [Message.mk "m1" user "abcd" "t1" (Some 1);
                 Message.mk "m2" assistant "reply" "t2" (Some 200)]).
  { repeat constructor; unfold carriesCount; simpl; lia. }
  assert (H0 : ~ carriesCount (Message.mk "m3" assistant "abcd" "t3" (Some 0))).
  { unfold carriesCount. simpl. intros Hx. now apply Hx. }
  split; [exact H |].
  destruct (proj1 paths_agree_on_carried_counts _ "claude-sonnet-4-20250514" H)
    as (_ & Hs & _).
  split; [apply Hs; simpl; tauto |].
  split; [exact H0 |].
  apply (proj2 paths_agree_on_carried_counts
           (Message.mk "m3" assistant "abcd" "t3" (Some 0)) "claude-sonnet-4-20250514" H0).
  simpl. discriminate.
Defined.

(** ** The checkpoint store *)

Section Store.

Import CheckpointRoute.

Lemma demote_id (sid now : string) (r : Row.t) : Row.id (demote sid now r) = Row.id r.
Proof. unfold demote. destruct (_ && _)%bool; reflexivity. Qed.

Lemma restamp_id (id status now : string) (r : Row.t) :
  Row.id (restamp id status now r) = Row.id r.
Proof. unfold restamp. destruct (String.eqb _ _); reflexivity. Qed.

Lemma has_id_demote (sid now id : string) (rows : list Row.t) :
  has_id id (map (demote sid now) rows) = has_id id rows.
Proof.
  unfold has_id. induction rows as [| r rows IH]; simpl.
  - reflexivity.
  - now rewrite demote_id, IH.
Qed.

Lemma filter_id_demote (sid now id : string) (rows : list Row.t) :
  List.filter (fun r => String.eqb (Row.id r) id) (map (demote sid now) rows) =
  map (demote sid now) (List.filter (fun r => String.eqb (Row.id r) id) rows).
Proof.
  induction rows as [| r rows IH]; simpl.
  - reflexivity.
  - rewrite demote_id, IH. destruct (String.eqb (Row.id r) id); reflexivity.
Qed.

Lemma has_id_false_filter (id : string) (rows : list Row.t) :
  has_id id rows = false ->
  List.filter (fun r => String.eqb (Row.id r) id) rows = [].
Proof.
  unfold has_id. induction rows as [| r rows IH]; simpl.
  - reflexivity.
  - destruct (String.eqb (Row.id r) id); simpl; [discriminate | exact IH].
Qed.

(** After the demotion no row of the session is active. *)
Lemma activeFor_demote (sid now : string) (rows : list Row.t) :
  activeFor sid (map (demote sid now) rows) = [].
Proof.
  unfold activeFor. induction rows as [| r rows IH]; simpl.
  - reflexivity.
  - unfold demote at 1 2.
    destruct (String.eqb (Row.status r) "active"
              && String.eqb (Row.session_id r) sid)%bool eqn:E.
    + simpl. exact IH.
    + rewrite E. exact IH.
Qed.

(** A successful POST, read backwards. *)
Lemma POST_Ok_inv (c : Body.t) (db db' : Supabase.t) (r : Row.t) :
  POST c db = (Ok r, db') ->
  has_id (Body.id c) (Supabase.session_checkpoints db) = false /\
  Row.id r = Body.id c /\
  Row.session_id r = Body.sessionId c /\
  Row.status r = "active" /\
  Supabase.session_checkpoints db' =
    map (demote (Body.sessionId c) (Supabase.NOW db)) (Supabase.session_checkpoints db)
    ++ [r].
Proof.
  unfold POST, update_status, insert_row, insert_activity.
  destruct (Supabase.reachable db) eqn:Er; simpl.
  - change (fun r0 : Row.t =>
              if (String.eqb (Row.status r0) "active"
                  && String.eqb (Row.session_id r0) (Body.sessionId c))%bool
              then set_status "superseded" (Supabase.NOW db) r0
              else r0)
      with (demote (Body.sessionId c) (Supabase.NOW db)).
    rewrite has_id_demote.
    destruct (has_id (Body.id c) (Supabase.session_checkpoints db)) eqn:Eh; simpl.
    + discriminate.
    + intros H. injection H as <- <-. simpl. auto.
  - rewrite Er; simpl. discriminate.
Qed.

(** The rows of the other sessions keep their status. *)
Lemma activeFor_demote_other (sid sid' now : string) (rows : list Row.t) :
  sid' <> sid ->
  activeFor sid (map (demote sid' now) rows) = activeFor sid rows.
Proof.
  intros Hne. unfold activeFor. induction rows as [| r rows IH]; simpl.
  - reflexivity.
  - rewrite IH. unfold demote.
    destruct (String.eqb (Row.status r) "active") eqn:Ea; simpl; [| now rewrite Ea].
    destruct (String.eqb_spec (Row.session_id r) sid') as [Es | Es]; simpl.
    + destruct (String.eqb_spec (Row.session_id r) sid) as [Es' | _]; [congruence |].
      reflexivity.
    + rewrite Ea. reflexivity.
Qed.

Lemma POST_other_session (c : Body.t) (db db' : Supabase.t) (r : Row.t) (sid : string) :
  POST c db = (Ok r, db') ->
  Body.sessionId c <> sid ->
  activeFor sid (Supabase.session_checkpoints db')
  = activeFor sid (Supabase.session_checkpoints db).
Proof.
  intros H Hne.
  destruct (POST_Ok_inv c db db' r H) as (_ & _ & Hs & _ & Hrows).
  rewrite Hrows. unfold activeFor at 1. rewrite List.filter_app.
  fold (activeFor sid
          (map (demote (Body.sessionId c) (Supabase.NOW db))
             (Supabase.session_checkpoints db))).
  rewrite (activeFor_demote_other sid (Body.sessionId c)) by exact Hne.
  simpl. rewrite Hs.
  destruct (String.eqb_spec (Body.sessionId c) sid) as [E | _]; [contradiction |].
  rewrite andb_false_r. apply app_nil_r.
Qed.

Lemma POST_same_session (c : Body.t) (db db' : Supabase.t) (r : Row.t) :
  POST c db = (Ok r, db') ->
  activeFor (Body.sessionId c) (Supabase.session_checkpoints db') = [r].
Proof.
  intros H.
  destruct (POST_Ok_inv c db db' r H) as (_ & _ & Hs & Ha & Hrows).
  rewrite Hrows. unfold activeFor. rewrite List.filter_app.
  fold (activeFor (Body.sessionId c)
          (map (demote (Body.sessionId c) (Supabase.NOW db))
             (Supabase.session_checkpoints db))).
  rewrite activeFor_demote. simpl.
  rewrite Ha, Hs, !String.eqb_refl. reflexivity.
Qed.

Lemma insertAll_other_sessions (cs : list Body.t) (sid : string) :
  forall db db' : Supabase.t,
    insertAll cs db = Some db' ->
    Forall (fun c => Body.sessionId c <> sid) cs ->
    activeFor sid (Supabase.session_checkpoints db')
    = activeFor sid (Supabase.session_checkpoints db).
Proof.
  induction cs as [| c cs IH]; intros db db' H Hall; simpl in H.
  - now injection H as <-.
  - destruct (POST c db) as [[r |] db1] eqn:E; [| discriminate].
    inversion Hall as [| ? ? Hc Hrest]; subst.
    rewrite (IH db1 db' H Hrest). now apply (POST_other_session c db db1 r).
Qed.

Lemma insertAll_one_active (cs : list Body.t) :
  forall db db' : Supabase.t,
    insertAll cs db = Some db' ->
    forall c : Body.t,
      In c cs ->
      length (activeFor (Body.sessionId c) (Supabase.session_checkpoints db')) = 1%nat.
Proof.
  induction cs as [| c0 cs IH]; intros db db' H c Hin; simpl in H.
  - destruct Hin.
  - destruct (POST c0 db) as [[r |] db1] eqn:E; [| discriminate].
    destruct (decide (Exists (fun c' => Body.sessionId c' = Body.sessionId c) cs))
      as [Hex | Hno].
    + apply Exists_exists in Hex. destruct Hex as (c' & Hin' & Hs).
      apply list_elem_of_In in Hin'.
      rewrite <- Hs. now apply (IH db1 db' H c').
    + assert (Hall : Forall (fun c' => Body.sessionId c' <> Body.sessionId c) cs).
      { apply Forall_forall. intros c' Hin' Hs. apply Hno.
        apply Exists_exists. now exists c'. }
      destruct Hin as [<- | Hin].
      * rewrite (insertAll_other_sessions cs _ db1 db' H Hall).
        now rewrite (POST_same_session c0 db db1 r E).
      * exfalso. apply Hno. apply Exists_exists. exists c.
        split; [now apply list_elem_of_In | reflexivity].
Qed.

End Store.

(** C3.  A POST that stores its checkpoint has first turned every active row
    of the same session into a superseded one and then appended the new row
    with status active, so that the new row is the only active row of the
    session.  After any sequence of such inserts every session that got a
    checkpoint has exactly one active row; after two such inserts for one
    session the second row is the only active one and the first is stored
    as superseded. *)
Theorem insert_supersedes_active :
  (forall (c : CheckpointRoute.Body.t) (db db' : CheckpointRoute.Supabase.t)
          (r : CheckpointRoute.Row.t),
      CheckpointRoute.POST c db = (CheckpointRoute.Ok r, db') ->
      CheckpointRoute.Supabase.session_checkpoints db' =
        map (demote (CheckpointRoute.Body.sessionId c) (CheckpointRoute.Supabase.NOW db))
            (CheckpointRoute.Supabase.session_checkpoints db) ++ [r] /\
      CheckpointRoute.Row.id r = CheckpointRoute.Body.id c /\
      CheckpointRoute.Row.status r = "active" /\
      activeFor (CheckpointRoute.Body.sessionId c)
        (CheckpointRoute.Supabase.session_checkpoints db') = [r]) /\
  (forall (checkpoints : list CheckpointRoute.Body.t)
          (db db' : CheckpointRoute.Supabase.t),
      insertAll checkpoints db = Some db' ->
      forall c : CheckpointRoute.Body.t,
        In c checkpoints ->
        length (activeFor (CheckpointRoute.Body.sessionId c)
                  (CheckpointRoute.Supabase.session_checkpoints db')) = 1%nat) /\
  (forall (c1 c2 : CheckpointRoute.Body.t) (db db1 db2 : CheckpointRoute.Supabase.t)
          (r1 r2 : CheckpointRoute.Row.t),
      CheckpointRoute.Body.sessionId c1 = CheckpointRoute.Body.sessionId c2 ->
      CheckpointRoute.POST c1 db = (CheckpointRoute.Ok r1, db1) ->
      CheckpointRoute.POST c2 db1 = (CheckpointRoute.Ok r2, db2) ->
      activeFor (CheckpointRoute.Body.sessionId c2)
        (CheckpointRoute.Supabase.session_checkpoints db2) = [r2] /\
      length (activeFor (CheckpointRoute.Body.sessionId c2)
                (CheckpointRoute.Supabase.session_checkpoints db2)) = 1%nat /\
      CheckpointRoute.Row.id r2 = CheckpointRoute.Body.id c2 /\
      statusOf (CheckpointRoute.Body.id c1)
        (CheckpointRoute.Supabase.session_checkpoints db2) = ["superseded"]).
Proof.
  split; [| split].
  - intros c db db' r H.
    destruct (POST_Ok_inv c db db' r H) as (_ & Hi & _ & Ha & Hrows).
    repeat split; try assumption. now apply (POST_same_session c db db' r).
  - intros cs db db' H c Hin. now apply (insertAll_one_active cs db db').
  - intros c1 c2 db db1 db2 r1 r2 Hsid H1 H2.
    pose proof (POST_same_session c2 db1 db2 r2 H2) as Hact.
    destruct (POST_Ok_inv c1 db db1 r1 H1) as (Hfresh1 & Hi1 & Hs1 & Ha1 & Hrows1).
    destruct (POST_Ok_inv c2 db1 db2 r2 H2) as (Hfresh2 & Hi2 & Hs2 & Ha2 & Hrows2).
    split; [exact Hact |]. split; [now rewrite Hact |]. split; [exact Hi2 |].
    (* the rows stored under the first identifier, before the second insert *)
    assert (Hf1 :
      List.filter (fun r => String.eqb (CheckpointRoute.Row.id r) (CheckpointRoute.Body.id c1))
        (CheckpointRoute.Supabase.session_checkpoints db1) = [r1]).
    { rewrite Hrows1, List.filter_app, filter_id_demote.
      rewrite (has_id_false_filter _ _ Hfresh1). simpl.
      now rewrite Hi1, String.eqb_refl. }
    (* the two identifiers differ *)
    assert (Hne : String.eqb (CheckpointRoute.Body.id c2) (CheckpointRoute.Body.id c1) = false).
    { destruct (String.eqb_spec (CheckpointRoute.Body.id c2) (CheckpointRoute.Body.id c1))
        as [E | _]; [| reflexivity].
      rewrite E in Hfresh2.
      rewrite (has_id_false_filter _ _ Hfresh2) in Hf1. discriminate Hf1. }
    unfold statusOf.
    rewrite Hrows2, List.filter_app, filter_id_demote, Hf1. simpl.
    rewrite Hi2, Hne. simpl.
    unfold demote. rewrite Ha1, Hs1, Hsid, !String.eqb_refl. reflexivity.
Qed.

Lemma insert_supersedes_active_witness :
  statusOf "cp-1"
    (CheckpointRoute.Supabase.session_checkpoints
       (snd (CheckpointRoute.POST (Sample.body "cp-2" "session-1")
               (snd (CheckpointRoute.POST (Sample.body "cp-1" "session-1")
                       (Sample.emptyDb true)))))) = ["superseded"] /\
  length
    (activeFor "session-1"
       (CheckpointRoute.Supabase.session_checkpoints
          (snd (CheckpointRoute.POST (Sample.body "cp-2" "session-1")
                  (snd (CheckpointRoute.POST (Sample.body "cp-1" "session-1")
                          (Sample.emptyDb true))))))) = 1%nat /\
  (exists db' : CheckpointRoute.Supabase.t,
      insertAll
        [Sample.body "cp-1" "session-1"; Sample.body "cp-2" "session-2";
         Sample.body "cp-3" "session-1"] (Sample.emptyDb true) = Some db' /\
      length (activeFor "session-1" (CheckpointRoute.Supabase.session_checkpoints db'))
      = 1%nat).
Proof.
  eassert (E1 : CheckpointRoute.POST (Sample.body "cp-1" "session-1")
                  (Sample.emptyDb true) = (CheckpointRoute.Ok _, _))
    by (vm_compute; reflexivity).
  match type of E1 with
  | _ = (_, ?db1) =>
      eassert (E2 : CheckpointRoute.POST (Sample.body "cp-2" "session-1") db1
                    = (CheckpointRoute.Ok _, _))
        by (vm_compute; reflexivity)
  end.
  destruct (proj2 (proj2 insert_supersedes_active)
              (Sample.body "cp-1" "session-1") (Sample.body "cp-2" "session-1")
              _ _ _ _ _ eq_refl E1 E2)
    as (_ & Hlen & _ & Hst).
  split; [exact Hst |]. split; [exact Hlen |].
  eassert (E3 : insertAll
                  [Sample.body "cp-1" "session-1"; Sample.body "cp-2" "session-2";
                   Sample.body "cp-3" "session-1"] (Sample.emptyDb true) = Some _)
    by (vm_compute; reflexivity).
  eexists. split; [exact E3 |].
  apply (proj1 (proj2 insert_supersedes_active) _ _ _ E3 (Sample.body "cp-1" "session-1")).
  simpl. tauto.
Defined.

(** ** The session controller *)

Section Controller.

Import CheckpointRoute LifeOSChat.

Lemma POST_unreachable (c : Body.t) (db : Supabase.t) :
  Supabase.reachable db = false ->
  POST c db = (Failed "Failed to save checkpoint", db).
Proof.
  intros Hr. unfold POST, update_status, insert_row. rewrite Hr. simpl.
  rewrite Hr. reflexivity.
Qed.

(** A rejected request is caught and leaves the state as it was. *)
Lemma save_keeps_session_when_request_rejected (s : State.t) (e : Env.t) :
  Env.online e = false ->
  fst (handleSaveCheckpoint s e) = s /\
  Env.supabase (snd (handleSaveCheckpoint s e)) = Env.supabase e.
Proof.
  intros Ho. unfold handleSaveCheckpoint, fetch_POST, uuidv4. simpl.
  rewrite Ho. simpl. auto.
Qed.

Lemma statusOf_restamp (id status now : string) (rows : list Row.t) :
  statusOf id (map (restamp id status now) rows) =
  map (fun _ => status) (statusOf id rows).
Proof.
  unfold statusOf. induction rows as [| r rows IH]; simpl.
  - reflexivity.
  - rewrite restamp_id.
    destruct (String.eqb (Row.id r) id) eqn:E; simpl; [| exact IH].
    rewrite IH. unfold restamp. rewrite E. reflexivity.
Qed.

Lemma truthy_nonempty (v : string) : v <> EmptyString -> JS.truthy_str (Some v) = true.
Proof. destruct v; [contradiction | reflexivity]. Qed.

(** The members the page reads by the names of the [Checkpoint] interface,
    and the keys the row has them under. *)
Lemma row_members (C : Row.t) :
  member "id" (Row_json C) = Some (m_string (Row.id C)) /\
  member "status" (Row_json C) = Some (m_string (Row.status C)) /\
  member "messages" (Row_json C) = Some (m_messages (Row.messages C)) /\
  member "sessionId" (Row_json C) = None /\
  member "tokenUsage" (Row_json C) = None /\
  member "continuationPrompt" (Row_json C) = None /\
  member "taskDescription" (Row_json C) = None /\
  member "session_id" (Row_json C) = Some (m_string (Row.session_id C)) /\
  member "token_usage" (Row_json C) = Some (m_usage (Row.token_usage C)) /\
  member "continuation_prompt" (Row_json C) = Some (m_string (Row.continuation_prompt C)).
Proof. repeat split. Qed.

(** With an active row in a reachable store, GET answers with an active row
    of the store. *)
Lemma GET_active_row (order_desc : list Row.t -> list Row.t) (db : Supabase.t) :
  (forall rows, Permutation (order_desc rows) rows) ->
  Supabase.reachable db = true ->
  Exists (fun r => Row.status r = "active") (Supabase.session_checkpoints db) ->
  exists C : Row.t,
    GET order_desc None true db = GetRow (Some C) /\
    In C (Supabase.session_checkpoints db) /\
    Row.status C = "active".
Proof.
  intros Hperm Hr Hex. unfold GET. simpl. rewrite Hr.
  set (act := List.filter (fun r => String.eqb (Row.status r) "active")
                (Supabase.session_checkpoints db)).
  pose proof (Hperm act) as Hp.
  destruct (order_desc act) as [| x l] eqn:El.
  - apply Permutation_nil in Hp. exfalso.
    apply Exists_exists in Hex. destruct Hex as (r & Hin & Hs).
    apply list_elem_of_In in Hin.
    assert (Hr' : In r act).
    { unfold act. apply filter_In. split; [exact Hin | now apply String.eqb_eq]. }
    rewrite Hp in Hr'. destruct Hr'.
  - exists x. split; [reflexivity |].
    assert (Hx : In x act).
    { apply list_elem_of_In. rewrite <- Hp. apply list_elem_of_here. }
    unfold act in Hx. apply filter_In in Hx. destruct Hx as [Hin Hs].
    split; [exact Hin | now apply String.eqb_eq].
Qed.

(** Without an active row GET answers with [null]. *)
Lemma GET_active_none (order_desc : list Row.t -> list Row.t) (db : Supabase.t) :
  (forall rows, Permutation (order_desc rows) rows) ->
  Supabase.reachable db = true ->
  Forall (fun r => Row.status r <> "active") (Supabase.session_checkpoints db) ->
  GET order_desc None true db = GetRow None.
Proof.
  intros Hperm Hr Hall. unfold GET. simpl. rewrite Hr.
  assert (Hact : List.filter (fun r => String.eqb (Row.status r) "active")
                   (Supabase.session_checkpoints db) = []).
  { induction Hall as [| r rows Hne _ IH]; simpl; [reflexivity |].
    apply String.eqb_neq in Hne. now rewrite Hne. }
  rewrite Hact. pose proof (Hperm []) as Hp. symmetry in Hp.
  apply Permutation_nil in Hp. now rewrite Hp.
Qed.

End Controller.

(** C5, evaluated where it fails.  When the request reaches the route but the
    store cannot be written, the route answers with status 500, nothing is
    stored, and [handleSaveCheckpoint] resets the session all the same: the
    messages are dropped, the usage is zeroed and a new session identifier
    is drawn. *)
Theorem save_resets_session_although_write_failed :
  forall (s : LifeOSChat.State.t) (e : LifeOSChat.Env.t),
    LifeOSChat.Env.online e = true ->
    CheckpointRoute.Supabase.reachable (LifeOSChat.Env.supabase e) = false ->
    let s' := fst (LifeOSChat.handleSaveCheckpoint s e) in
    let e' := snd (LifeOSChat.handleSaveCheckpoint s e) in
    (forall c : CheckpointRoute.Body.t,
        CheckpointRoute.Response_status
          (fst (CheckpointRoute.POST c (LifeOSChat.Env.supabase e))) = 500) /\
    LifeOSChat.Env.supabase e' = LifeOSChat.Env.supabase e /\
    LifeOSChat.State.messages s' = [] /\
    LifeOSChat.State.tokenUsage s' = LifeOSChat.zeroUsage /\
    LifeOSChat.State.sessionId s'
      = LifeOSChat.Env.uuids e (S (LifeOSChat.Env.uuids_drawn e)).
Proof.
  intros s e Ho Hr s' e'.
  split.
  - intros c. now rewrite POST_unreachable.
  - unfold s', e', LifeOSChat.handleSaveCheckpoint, LifeOSChat.fetch_POST,
      LifeOSChat.uuidv4.
    simpl. rewrite Ho. rewrite POST_unreachable by exact Hr. simpl.
    destruct e; simpl. auto.
Qed.

Lemma save_resets_session_although_write_failed_witness :
  LifeOSChat.State.messages Sample.session = [Sample.question; Sample.answer] /\
  LifeOSChat.State.messages
    (fst (LifeOSChat.handleSaveCheckpoint Sample.session
            (Sample.env (Sample.emptyDb false) true))) = [] /\
  CheckpointRoute.Supabase.session_checkpoints
    (LifeOSChat.Env.supabase
       (snd (LifeOSChat.handleSaveCheckpoint Sample.session
               (Sample.env (Sample.emptyDb false) true)))) = [].
Proof.
  destruct (save_resets_session_although_write_failed Sample.session
              (Sample.env (Sample.emptyDb false) true) eq_refl eq_refl)
    as (_ & Hdb & Hm & _ & _).
  split; [reflexivity |].
  split; [exact Hm |].
  rewrite Hdb. reflexivity.
Defined.

(** C6, evaluated where it fails.  The page loads while the store holds an
    active checkpoint: [initSession] puts the object GET answers with, a row
    with the columns of the table as keys, into [activeCheckpoint] and asks
    for the resume dialog; rendering the dialog reads
    [activeCheckpoint.tokenUsage.percentUsed], and [tokenUsage] is no key of
    the row, so the rendering throws and the resume is never offered; no
    status update is issued.  The row has the session identifier, the usage
    and the continuation prompt under the names of its columns; under the
    names [handleResume] reads them by they are [undefined], so the handler
    would set an undefined usage and session identifier, append a resume
    message without content and call [handleSend] without a prompt; only the
    messages and the identifier of the checkpoint are read as intended. *)
Theorem stored_checkpoint_cannot_be_resumed :
  (forall (order_desc : list CheckpointRoute.Row.t -> list CheckpointRoute.Row.t)
          (s : LifeOSChat.State.t) (e : LifeOSChat.Env.t),
      (forall rows, Permutation (order_desc rows) rows) ->
      LifeOSChat.Env.online e = true ->
      CheckpointRoute.Supabase.reachable (LifeOSChat.Env.supabase e) = true ->
      Exists (fun r => CheckpointRoute.Row.status r = "active")
        (CheckpointRoute.Supabase.session_checkpoints (LifeOSChat.Env.supabase e)) ->
      let s' := fst (LifeOSChat.initSession order_desc s e) in
      let e' := snd (LifeOSChat.initSession order_desc s e) in
      exists C : CheckpointRoute.Row.t,
        In C (CheckpointRoute.Supabase.session_checkpoints (LifeOSChat.Env.supabase e)) /\
        CheckpointRoute.Row.status C = "active" /\
        LifeOSChat.State.activeCheckpoint s' = Some C /\
        LifeOSChat.State.showResumePrompt s' = true /\
        LifeOSChat.resumePrompt s' = LifeOSChat.rp_TypeError /\
        LifeOSChat.State.messages s' = LifeOSChat.State.messages s /\
        LifeOSChat.State.tokenUsage s' = LifeOSChat.State.tokenUsage s /\
        LifeOSChat.Env.supabase e' = LifeOSChat.Env.supabase e) /\
  (forall (s : LifeOSChat.State.t) (C : CheckpointRoute.Row.t),
      LifeOSChat.State.activeCheckpoint s = Some C ->
      LifeOSChat.State.showResumePrompt s = true ->
      LifeOSChat.resumePrompt s = LifeOSChat.rp_TypeError) /\
  (forall C : CheckpointRoute.Row.t,
      CheckpointRoute.member "sessionId" (CheckpointRoute.Row_json C) = None /\
      CheckpointRoute.member "tokenUsage" (CheckpointRoute.Row_json C) = None /\
      CheckpointRoute.member "continuationPrompt" (CheckpointRoute.Row_json C) = None /\
      CheckpointRoute.member "session_id" (CheckpointRoute.Row_json C)
      = Some (CheckpointRoute.m_string (CheckpointRoute.Row.session_id C)) /\
      CheckpointRoute.member "token_usage" (CheckpointRoute.Row_json C)
      = Some (CheckpointRoute.m_usage (CheckpointRoute.Row.token_usage C)) /\
      CheckpointRoute.member "continuation_prompt" (CheckpointRoute.Row_json C)
      = Some (CheckpointRoute.m_string (CheckpointRoute.Row.continuation_prompt C))) /\
  (forall (s : LifeOSChat.State.t) (e : LifeOSChat.Env.t) (C : CheckpointRoute.Row.t),
      LifeOSChat.State.activeCheckpoint s = Some C ->
      LifeOSChat.Env.online e = true ->
      fst (LifeOSChat.handleResume s e)
      = [LifeOSChat.r_setMessages
           (Some (CheckpointRoute.m_messages (CheckpointRoute.Row.messages C)));
         LifeOSChat.r_setTokenUsage None;
         LifeOSChat.r_setSessionId None;
         LifeOSChat.r_setShowResumePrompt false;
         LifeOSChat.r_fetch_PATCH (CheckpointRoute.Row.id C) "resumed";
         LifeOSChat.r_appendMessage
           (LifeOSChat.Env.uuids e (LifeOSChat.Env.uuids_drawn e)) user None
           (LifeOSChat.Env.now e);
         LifeOSChat.r_handleSend None]).
Proof.
  assert (Hdialog :
    forall (s : LifeOSChat.State.t) (C : CheckpointRoute.Row.t),
      LifeOSChat.State.activeCheckpoint s = Some C ->
      LifeOSChat.State.showResumePrompt s = true ->
      LifeOSChat.resumePrompt s = LifeOSChat.rp_TypeError).
  { intros s C Hc Hs. unfold LifeOSChat.resumePrompt. now rewrite Hs, Hc. }
  split; [| split; [exact Hdialog | split]].
  - intros order_desc s e Hperm Ho Hr Hex s' e'.
    destruct (GET_active_row order_desc (LifeOSChat.Env.supabase e) Hperm Hr Hex)
      as (C & Hget & Hin & Hst).
    assert (Hinit :
      LifeOSChat.initSession order_desc s e
      = (LifeOSChat.setSessionId (LifeOSChat.Env.uuids e (LifeOSChat.Env.uuids_drawn e))
           (LifeOSChat.setShowResumePrompt true
              (LifeOSChat.setActiveCheckpoint (Some C) s)),
         snd (LifeOSChat.uuidv4 e))).
    { unfold LifeOSChat.initSession, LifeOSChat.fetch_GET_active.
      rewrite Ho, Hget. simpl CheckpointRoute.member. rewrite Hst. reflexivity. }
    exists C. unfold s', e'. rewrite Hinit. simpl.
    repeat (split; [first [assumption | reflexivity] |]). reflexivity.
  - intros C. repeat split.
  - intros s e C Hc Ho. unfold LifeOSChat.handleResume, LifeOSChat.fetch_PATCH.
    rewrite Hc, Ho.
    destruct (CheckpointRoute.PATCH (CheckpointRoute.Row.id C) "resumed"
                (LifeOSChat.Env.supabase e)) as [response db1].
    reflexivity.
Qed.

Lemma stored_checkpoint_cannot_be_resumed_witness :
  let saved :=
    snd (LifeOSChat.handleSaveCheckpoint Sample.session
           (Sample.env (Sample.emptyDb true) true)) in
  let loaded := fst (LifeOSChat.initSession (fun rows => rows) LifeOSChat.initialState saved) in
  map CheckpointRoute.Row.status
    (CheckpointRoute.Supabase.session_checkpoints (LifeOSChat.Env.supabase saved))
  = ["active"] /\
  LifeOSChat.State.showResumePrompt loaded = true /\
  LifeOSChat.resumePrompt loaded = LifeOSChat.rp_TypeError /\
  map CheckpointRoute.Row.status
    (CheckpointRoute.Supabase.session_checkpoints
       (LifeOSChat.Env.supabase
          (snd (LifeOSChat.initSession (fun rows => rows) LifeOSChat.initialState saved))))
  = ["active"].
Proof.
  intros saved loaded.
  assert (Hperm : forall rows : list CheckpointRoute.Row.t,
             Permutation ((fun l => l) rows) rows) by (intros; reflexivity).
  assert (Hex : Exists (fun r => CheckpointRoute.Row.status r = "active")
                  (CheckpointRoute.Supabase.session_checkpoints
                     (LifeOSChat.Env.supabase saved))).
  { vm_compute. apply Exists_cons_hd. reflexivity. }
  destruct (proj1 stored_checkpoint_cannot_be_resumed (fun rows => rows)
              LifeOSChat.initialState saved Hperm eq_refl eq_refl Hex)
    as (C & _ & _ & _ & Hshow & Hthrow & _ & _ & Hdb).
  split; [reflexivity |]. split; [exact Hshow |]. split; [exact Hthrow |].
  rewrite Hdb. reflexivity.
Defined.

(** ** The continuation prompt *)

Section PromptText.

Lemma append_assoc (a b c : string) : (a +:+ b) +:+ c = a +:+ (b +:+ c).
Proof.
  induction a as [| x a IH]; [reflexivity |].
  change (String x ((a +:+ b) +:+ c) = String x (a +:+ (b +:+ c))).
  now rewrite IH.
Qed.

Lemma slice0_length (k : nat) (s : string) :
  String.length (JS.slice0 k s) = Nat.min k (String.length s).
Proof.
  unfold JS.slice0. revert k.
  induction s as [| c s IH]; intros [| k]; simpl; try reflexivity.
  now rewrite IH.
Qed.

Lemma slice0_prefix (k : nat) (s : string) :
  exists cut : string, s = JS.slice0 k s +:+ cut.
Proof.
  unfold JS.slice0. revert k.
  induction s as [| c s IH]; intros [| k]; simpl.
  - exists EmptyString. reflexivity.
  - exists EmptyString. reflexivity.
  - exists (String c s). reflexivity.
  - destruct (IH k) as [cut Hcut]. exists cut.
    change (String c s = String c (substring 0 k s +:+ cut)).
    now rewrite <- Hcut.
Qed.

Lemma slice_last_split {A : Type} (k : nat) (l : list A) :
  exists older : list A,
    l = older ++ JS.slice_last k l /\
    length (JS.slice_last k l) = Nat.min k (length l).
Proof.
  unfold JS.slice_last. exists (take (length l - k) l). split.
  - symmetry. apply take_drop.
  - rewrite length_drop. lia.
Qed.

(** The last messages of a list are the ones [slice] takes. *)
Lemma slice_last_recent {A : Type} (k : nat) (older recent : list A) :
  length recent = Nat.min k (length (older ++ recent)) ->
  JS.slice_last k (older ++ recent) = recent.
Proof.
  intros Hn. unfold JS.slice_last. rewrite length_app in *.
  replace (length older + length recent - k)%nat with (length older) by lia.
  apply drop_app_length.
Qed.

Lemma ends_here (x : string) : exists body : string, x = body +:+ x.
Proof. exists EmptyString. reflexivity. Qed.

Lemma ends_later (a r x : string) :
  (exists body : string, r = body +:+ x) -> exists body : string, a +:+ r = body +:+ x.
Proof.
  intros (b & ->). exists (a +:+ b). now rewrite append_assoc.
Qed.

End PromptText.

(** C9, as stated: the ellipsis marker appears exactly when the content is
    longer than the prefix.  It fails on a short message: both generators
    append the marker to a content of two characters. *)
Lemma ellipsis_on_short_message :
  (String.length (Message.content Sample.short) <= 150)%nat /\
  TokenMonitor.renderMessage Sample.short = "USER: hi..." /\
  LifeOSChat.renderMessage Sample.short = "USER: hi..." /\
  renderTruncated 200 Sample.short = "USER: hi" /\
  TokenMonitor.renderMessage Sample.short <> renderTruncated 200 Sample.short /\
  LifeOSChat.renderMessage Sample.short <> renderTruncated 150 Sample.short.
Proof.
  split; [simpl; lia |].
  repeat split; try reflexivity; intros H; vm_compute in H; discriminate H.
Qed.

(** C9, amended.  The backend prompt is a head, then the renderings, one per
    line, of exactly the last 5 messages of the checkpoint (all of them when
    there are fewer), then a tail that ends with the instruction line; head
    and tail do not depend on the messages.  The client prompt is built the
    same way from the last 6 messages of the session.  A rendered message is
    the role in upper case, then the first 200 (backend) or 150 (client)
    characters of the content, then the ellipsis marker, which is appended in
    every case, cut or not. *)
Theorem prompt_renders_recent_messages :
  (forall JSON_stringify : JS.Json -> string,
    exists head tail : SessionCheckpoint.t -> string,
      (forall (messages : list Message.t) (checkpoint : SessionCheckpoint.t),
          head (withMessages messages checkpoint) = head checkpoint /\
          tail (withMessages messages checkpoint) = tail checkpoint) /\
      (forall (checkpoint : SessionCheckpoint.t) (older recent : list Message.t),
          SessionCheckpoint.messages checkpoint = older ++ recent ->
          length recent = Nat.min 5 (length (SessionCheckpoint.messages checkpoint)) ->
          generateContinuationPrompt JSON_stringify checkpoint
          = head checkpoint +:+ JS.join JS.nl (map renderMessage recent)
            +:+ tail checkpoint) /\
      (forall checkpoint : SessionCheckpoint.t,
          exists body : string,
            tail checkpoint
            = body +:+ instructionLine (SessionCheckpoint.currentStep checkpoint))) /\
  (exists head tail : LifeOSChat.State.t -> string,
      (forall (messages : list Message.t) (s : LifeOSChat.State.t),
          head (holdingMessages messages s) = head s /\
          tail (holdingMessages messages s) = tail s) /\
      (forall (s : LifeOSChat.State.t) (older recent : list Message.t),
          LifeOSChat.State.messages s = older ++ recent ->
          length recent = Nat.min 6 (length (LifeOSChat.State.messages s)) ->
          LifeOSChat.generateContinuationPrompt s
          = head s +:+ JS.join JS.nl (map LifeOSChat.renderMessage recent) +:+ tail s) /\
      (forall s : LifeOSChat.State.t,
          exists body : string, tail s = body +:+ LifeOSChat.instructionLine)) /\
  (forall m : Message.t,
      exists shown cut : string,
        Message.content m = shown +:+ cut /\
        String.length shown = Nat.min 200 (String.length (Message.content m)) /\
        renderMessage m
        = match Message.role m with user => "USER" | assistant => "ASSISTANT" end
          +:+ ": " +:+ shown +:+ "...") /\
  (forall m : Message.t,
      exists shown cut : string,
        Message.content m = shown +:+ cut /\
        String.length shown = Nat.min 150 (String.length (Message.content m)) /\
        LifeOSChat.renderMessage m
        = match Message.role m with user => "USER" | assistant => "ASSISTANT" end
          +:+ ": " +:+ shown +:+ "...").
Proof.
  split; [| split; [| split]].
  - intros JSON_stringify.
    exists
      (fun checkpoint =>
         "## SESSION RESUME - " +:+ SessionCheckpoint.id checkpoint +:+ JS.nl
         +:+ JS.nl
         +:+ "**Task:** " +:+ SessionCheckpoint.taskDescription checkpoint +:+ JS.nl
         +:+ JS.nl
         +:+ "### Progress" +:+ JS.nl
         +:+ "**Completed:**" +:+ JS.nl
         +:+ JS.join JS.nl
               (map (fun s => "- ✅ " +:+ s) (SessionCheckpoint.completedSteps checkpoint))
         +:+ JS.nl
         +:+ JS.nl
         +:+ "**Current:** " +:+ SessionCheckpoint.currentStep checkpoint +:+ JS.nl
         +:+ JS.nl
         +:+ "**Next Steps:**" +:+ JS.nl
         +:+ JS.join JS.nl
               (map (fun s => "- ⏳ " +:+ s) (SessionCheckpoint.nextSteps checkpoint))
         +:+ JS.nl
         +:+ JS.nl
         +:+ "### Recent Context" +:+ JS.nl),
      (fun checkpoint =>
         JS.nl
         +:+ JS.nl
         +:+ "### Variables" +:+ JS.nl
         +:+ JSON_stringify (SessionCheckpoint.contextVariables checkpoint) +:+ JS.nl
         +:+ JS.nl
         +:+ instructionLine (SessionCheckpoint.currentStep checkpoint)).
    split; [| split].
    + intros messages checkpoint. split; reflexivity.
    + intros checkpoint older recent Hm Hn.
      unfold generateContinuationPrompt. rewrite Hm in Hn |- *.
      rewrite (slice_last_recent 5 older recent Hn).
      rewrite !append_assoc. reflexivity.
    + intros checkpoint. repeat first [apply ends_here | apply ends_later].
  - exists
      (fun s =>
         "## SESSION RESUME" +:+ JS.nl
         +:+ JS.nl
         +:+ "**Task:** "
         +:+ JS.or_else_str (Some (LifeOSChat.State.checkpointTask s))
               "Continuing previous conversation"
         +:+ JS.nl
         +:+ JS.nl
         +:+ "### Recent Context:" +:+ JS.nl),
      (fun _ => JS.nl +:+ JS.nl +:+ LifeOSChat.instructionLine).
    split; [| split].
    + intros messages s. split; reflexivity.
    + intros s older recent Hm Hn.
      unfold LifeOSChat.generateContinuationPrompt. rewrite Hm in Hn |- *.
      rewrite (slice_last_recent 6 older recent Hn).
      rewrite !append_assoc. reflexivity.
    + intros s. repeat first [apply ends_here | apply ends_later].
  - intros m. destruct (slice0_prefix 200 (Message.content m)) as [cut Hcut].
    exists (JS.slice0 200 (Message.content m)), cut.
    split; [exact Hcut |]. split; [apply slice0_length |].
    unfold renderMessage. destruct (Message.role m); reflexivity.
  - intros m. destruct (slice0_prefix 150 (Message.content m)) as [cut Hcut].
    exists (JS.slice0 150 (Message.content m)), cut.
    split; [exact Hcut |]. split; [apply slice0_length |].
    unfold LifeOSChat.renderMessage. destruct (Message.role m); reflexivity.
Qed.

(** * Further properties of the code *)

(** ** lib/token-monitor.ts *)

Section MonitorExtras.

Lemma min_cases (x y : Q) :
  ((x <= y)%Q /\ JS.min x y = x) \/ ((y < x)%Q /\ JS.min x y = y).
Proof.
  unfold JS.min. destruct (Qle_bool x y) eqn:E.
  - left. split; [now apply Qle_bool_iff | reflexivity].
  - right. split; [| reflexivity].
    apply Qnot_le_lt. intros H. apply Qle_bool_iff in H. congruence.
Qed.

Lemma gt_iff (x y : Q) : JS.gt x y = true <-> (y < x)%Q.
Proof.
  unfold JS.gt. rewrite negb_true_iff, <- not_true_iff_false, Qle_bool_iff.
  split; [apply Qnot_le_lt | apply Qlt_not_le].
Qed.


(** The quotients of [getProgressSegments], without the divisions. *)
Lemma safe_quotient (x : Q) :
  (x / CHECKPOINT_THRESHOLD * 100 == x * (1000 # 7))%Q.
Proof. unfold CHECKPOINT_THRESHOLD. field. Qed.

Lemma warning_quotient (p : Q) :
  ((p - CHECKPOINT_THRESHOLD) / (WARNING_THRESHOLD - CHECKPOINT_THRESHOLD)
   == (p - (7 # 10)) * (20 # 3))%Q.
Proof. unfold CHECKPOINT_THRESHOLD, WARNING_THRESHOLD. field. Qed.

Lemma critical_quotient (p : Q) :
  ((p - WARNING_THRESHOLD) / (1 - WARNING_THRESHOLD) == (p - (17 # 20)) * (20 # 3))%Q.
Proof. unfold WARNING_THRESHOLD. field. Qed.

End MonitorExtras.

(** X1.  For a usage ratio that is not negative, each of the three segments
    of the progress bar lies between 0 and 100; the warning and the critical
    segment do so for every ratio. *)
Theorem progress_segments_bounded :
  forall p : Q,
    let g := getProgressSegments p in
    ((0 <= p)%Q ->
     (0 <= ProgressSegments.safe g)%Q /\ (ProgressSegments.safe g <= 100)%Q) /\
    (0 <= ProgressSegments.warning g)%Q /\ (ProgressSegments.warning g <= 100)%Q /\
    (0 <= ProgressSegments.critical g)%Q /\ (ProgressSegments.critical g <= 100)%Q.
Proof.
  intros p g. unfold g, getProgressSegments; simpl.
  split; [| split; [| split; [| split]]].
  - intros Hp. rewrite safe_quotient.
    destruct (min_cases p CHECKPOINT_THRESHOLD) as [[H ->] | [H ->]];
      unfold CHECKPOINT_THRESHOLD in *; split; lra.
  - destruct (JS.gt p CHECKPOINT_THRESHOLD) eqn:E; [| lra]. apply gt_iff in E.
    pose proof (warning_quotient p) as Eq.
    destruct (min_cases ((p - CHECKPOINT_THRESHOLD)
                         / (WARNING_THRESHOLD - CHECKPOINT_THRESHOLD)) 1)
      as [[H ->] | [H ->]]; [| lra].
    rewrite Eq. unfold CHECKPOINT_THRESHOLD in *. lra.
  - destruct (JS.gt p CHECKPOINT_THRESHOLD) eqn:E; [| lra]. apply gt_iff in E.
    pose proof (warning_quotient p) as Eq.
    destruct (min_cases ((p - CHECKPOINT_THRESHOLD)
                         / (WARNING_THRESHOLD - CHECKPOINT_THRESHOLD)) 1)
      as [[H ->] | [H ->]]; [| lra].
    rewrite Eq in H |- *. lra.
  - destruct (JS.gt p WARNING_THRESHOLD) eqn:E; [| lra]. apply gt_iff in E.
    pose proof (critical_quotient p) as Eq.
    destruct (min_cases ((p - WARNING_THRESHOLD) / (1 - WARNING_THRESHOLD)) 1)
      as [[H ->] | [H ->]]; [| lra].
    rewrite Eq. unfold WARNING_THRESHOLD in *. lra.
  - destruct (JS.gt p WARNING_THRESHOLD) eqn:E; [| lra]. apply gt_iff in E.
    pose proof (critical_quotient p) as Eq.
    destruct (min_cases ((p - WARNING_THRESHOLD) / (1 - WARNING_THRESHOLD)) 1)
      as [[H ->] | [H ->]]; [| lra].
    rewrite Eq in H |- *. lra.
Qed.

Lemma progress_segments_bounded_witness :
  (0 <= 0.5)%Q /\
  (ProgressSegments.safe (getProgressSegments 0.5) <= 100)%Q.
Proof.
  assert (H : (0 <= 0.5)%Q) by (unfold Qle; simpl; lia).
  split; [exact H |].
  exact (proj2 (proj1 (progress_segments_bounded 0.5) H)).
Defined.



Section CountExtras.

Lemma append_nonempty (a b : string) : a <> EmptyString -> a +:+ b <> EmptyString.
Proof.
  destruct a as [| x a]; [contradiction |]. intros _.
  change (String x (a +:+ b) <> EmptyString). discriminate.
Qed.

Lemma length_append (a b : string) :
  String.length (a +:+ b) = (String.length a + String.length b)%nat.
Proof.
  induction a as [| x a IH]; [reflexivity |].
  change (S (String.length (a +:+ b)) = S (String.length a + String.length b)).
  now rewrite IH.
Qed.

Lemma countMessage_cons (m : Message.t) (l : list Message.t) :
  fold_left countMessage (m :: l) (0, 0) =
  match Message.role m with
  | user =>
      (fst (fold_left countMessage l (0, 0)) + messageTokens m,
       snd (fold_left countMessage l (0, 0)))
  | assistant =>
      (fst (fold_left countMessage l (0, 0)),
       snd (fold_left countMessage l (0, 0)) + messageTokens m)
  end.
Proof. exact (countMessage_insert [] l m). Qed.

Lemma countMessage_app (l1 l2 : list Message.t) :
  fold_left countMessage (l1 ++ l2) (0, 0) =
  (fst (fold_left countMessage l1 (0, 0)) + fst (fold_left countMessage l2 (0, 0)),
   snd (fold_left countMessage l1 (0, 0)) + snd (fold_left countMessage l2 (0, 0))).
Proof.
  rewrite fold_left_app.
  destruct (fold_left countMessage l1 (0, 0)) as [a b].
  now rewrite countMessage_shift.
Qed.

Lemma countMessage_Permutation (l1 l2 : list Message.t) :
  Permutation l1 l2 ->
  fold_left countMessage l1 (0, 0) = fold_left countMessage l2 (0, 0).
Proof.
  induction 1 as [| x l l' _ IH | x y l | l l' l'' _ IH1 _ IH2].
  - reflexivity.
  - now rewrite !countMessage_cons, IH.
  - rewrite !(countMessage_cons _ (_ :: _)), !countMessage_cons.
    destruct (Message.role x), (Message.role y); simpl; f_equal; lia.
  - now rewrite IH1.
Qed.

Lemma messageTokens_nonneg (m : Message.t) :
  countNonNegative m -> 0 <= messageTokens m.
Proof.
  unfold countNonNegative, messageTokens, JS.or_else.
  destruct (Message.tokens m) as [t |]; intros H.
  - destruct (Z.eqb_spec t 0); [apply estimateTokens_nonneg | exact H].
  - apply estimateTokens_nonneg.
Qed.

Lemma counters_nonneg (l : list Message.t) :
  Forall countNonNegative l ->
  0 <= fst (fold_left countMessage l (0, 0)) /\
  0 <= snd (fold_left countMessage l (0, 0)).
Proof.
  induction 1 as [| m l Hm _ IH]; [simpl; lia |].
  rewrite countMessage_cons. pose proof (messageTokens_nonneg m Hm).
  destruct (Message.role m); simpl; lia.
Qed.

Lemma modelLimit_number (mdl : string) :
  ~ In mdl JS.Object_prototype ->
  exists n : Z, modelLimit mdl = JS.own n /\ 0 < n.
Proof.
  intros Hp. destruct (In_dec string_dec mdl knownModels) as [H | H].
  - exists 180000. rewrite (modelLimit_known mdl H). split; [reflexivity | lia].
  - exists 150000. rewrite (modelLimit_unknown mdl H Hp). split; [reflexivity | lia].
Qed.

Lemma div_zero (n : Z) : JS.div 0 n = 0%Q.
Proof.
  unfold JS.div. transitivity (Qred 0); [| reflexivity]. apply Qred_complete.
  unfold Qdiv. apply Qmult_0_l.
Qed.

Lemma div_mono (a b c : Z) : a <= b -> 0 < c -> (JS.div a c <= JS.div b c)%Q.
Proof.
  intros Hab Hc. rewrite !div_is_quotient. unfold Qdiv.
  apply Qmult_le_compat_r.
  - rewrite <- Zle_Qle. exact Hab.
  - apply Qinv_le_0_compat. change 0%Q with (inject_Z 0). rewrite <- Zle_Qle. lia.
Qed.

Lemma div_nonneg (a c : Z) : 0 <= a -> 0 < c -> (0 <= JS.div a c)%Q.
Proof.
  intros Ha Hc. rewrite div_is_quotient. unfold Qdiv.
  apply Qmult_le_0_compat.
  - change 0%Q with (inject_Z 0). rewrite <- Zle_Qle. exact Ha.
  - apply Qinv_le_0_compat. change 0%Q with (inject_Z 0). rewrite <- Zle_Qle. lia.
Qed.

End CountExtras.

(** X3.  [createCheckpoint] returns an active checkpoint that carries the
    session's identifier, messages and usage; its continuation prompt is
    never blank and is the prompt of the returned record itself, although it
    was rendered while that field was still empty. *)
Theorem createCheckpoint_prompt_of_record :
  forall (JSON_stringify : JS.Json -> string) (uuid now : string)
         (session : SessionState.t) (taskDescription : string)
         (completedSteps : list string) (currentStep : string)
         (nextSteps : list string) (contextVariables : JS.Json),
    let checkpoint :=
      createCheckpoint JSON_stringify uuid now session taskDescription completedSteps
        currentStep nextSteps contextVariables in
    SessionCheckpoint.status checkpoint = cs_active /\
    SessionCheckpoint.sessionId checkpoint = SessionState.sessionId session /\
    SessionCheckpoint.messages checkpoint = SessionState.messages session /\
    SessionCheckpoint.tokenUsage checkpoint = SessionState.tokenUsage session /\
    SessionCheckpoint.continuationPrompt checkpoint
    = generateContinuationPrompt JSON_stringify checkpoint /\
    SessionCheckpoint.continuationPrompt checkpoint <> EmptyString.
Proof.
  intros. repeat split.
  unfold checkpoint, createCheckpoint; simpl.
  unfold generateContinuationPrompt.
  apply append_nonempty. discriminate.
Qed.

(** X4.  The counts of [calculateTokenUsage] do not depend on the order of
    the messages, and the counts of a concatenation are the sums of the
    counts of its parts. *)
Theorem calculateTokenUsage_order_and_concat :
  (forall (l1 l2 : list Message.t) (mdl : string),
      Permutation l1 l2 -> calculateTokenUsage l1 mdl = calculateTokenUsage l2 mdl) /\
  (forall (l1 l2 : list Message.t) (mdl : string),
      let u := calculateTokenUsage (l1 ++ l2) mdl in
      let u1 := calculateTokenUsage l1 mdl in
      let u2 := calculateTokenUsage l2 mdl in
      TokenUsage.inputTokens u = TokenUsage.inputTokens u1 + TokenUsage.inputTokens u2 /\
      TokenUsage.outputTokens u = TokenUsage.outputTokens u1 + TokenUsage.outputTokens u2 /\
      TokenUsage.totalTokens u = TokenUsage.totalTokens u1 + TokenUsage.totalTokens u2).
Proof.
  split.
  - intros l1 l2 mdl H. unfold calculateTokenUsage.
    now rewrite (countMessage_Permutation l1 l2 H).
  - intros l1 l2 mdl u u1 u2. unfold u, u1, u2, calculateTokenUsage; simpl.
    rewrite countMessage_app; simpl. repeat split; lia.
Qed.

Lemma calculateTokenUsage_order_and_concat_witness :
  Permutation [Sample.question; Sample.answer] [Sample.answer; Sample.question] /\
  calculateTokenUsage [Sample.question; Sample.answer] "default"
  = calculateTokenUsage [Sample.answer; Sample.question] "default".
Proof.
  assert (H : Permutation [Sample.question; Sample.answer]
                [Sample.answer; Sample.question]) by apply perm_swap.
  split; [exact H |].
  exact (proj1 calculateTokenUsage_order_and_concat _ _ "default" H).
Defined.

(** X5.  When no message carries a negative count, the counts computed by
    [calculateTokenUsage] are not negative, and appending one more such
    message never lowers a count nor moves the status back.  The ratio is a
    number that is not negative and does not decrease, for every model
    except the names of the members of [Object.prototype], for which it is
    [NaN] before and after. *)
Theorem calculateTokenUsage_grows :
  forall (l : list Message.t) (m : Message.t) (mdl : string),
    Forall countNonNegative l ->
    countNonNegative m ->
    let u := calculateTokenUsage l mdl in
    let u' := calculateTokenUsage (l ++ [m]) mdl in
    0 <= TokenUsage.inputTokens u /\
    0 <= TokenUsage.outputTokens u /\
    TokenUsage.inputTokens u <= TokenUsage.inputTokens u' /\
    TokenUsage.outputTokens u <= TokenUsage.outputTokens u' /\
    statusRank (getSessionStatus u) <= statusRank (getSessionStatus u') /\
    (~ In mdl JS.Object_prototype ->
     exists p p' : Q,
       TokenUsage.percentUsed u = JS.num p /\
       TokenUsage.percentUsed u' = JS.num p' /\
       (0 <= p)%Q /\ (p <= p')%Q) /\
    (In mdl JS.Object_prototype ->
     TokenUsage.percentUsed u = JS.NaN /\ TokenUsage.percentUsed u' = JS.NaN).
Proof.
  intros l m mdl Hl Hm u u'.
  destruct (counters_nonneg l Hl) as [Hi Ho].
  pose proof (messageTokens_nonneg m Hm) as Ht.
  assert (Hin : TokenUsage.inputTokens u <= TokenUsage.inputTokens u').
  { unfold u, u', calculateTokenUsage; simpl. rewrite countMessage_app; simpl.
    unfold countMessage; simpl. destruct (Message.role m); simpl; lia. }
  assert (Hout : TokenUsage.outputTokens u <= TokenUsage.outputTokens u').
  { unfold u, u', calculateTokenUsage; simpl. rewrite countMessage_app; simpl.
    unfold countMessage; simpl. destruct (Message.role m); simpl; lia. }
  assert (Hnum :
    ~ In mdl JS.Object_prototype ->
    exists p p' : Q,
      TokenUsage.percentUsed u = JS.num p /\
      TokenUsage.percentUsed u' = JS.num p' /\
      (0 <= p)%Q /\ (p <= p')%Q).
  { intros Hp. destruct (modelLimit_number mdl Hp) as (n & En & Hn).
    exists (JS.div (TokenUsage.totalTokens u) n), (JS.div (TokenUsage.totalTokens u') n).
    split; [unfold u, calculateTokenUsage; simpl; now rewrite En |].
    split; [unfold u', calculateTokenUsage; simpl; now rewrite En |].
    split.
    - apply div_nonneg; [| exact Hn]. unfold u, calculateTokenUsage in *; simpl in *. lia.
    - apply div_mono; [| exact Hn]. unfold u, u', calculateTokenUsage in *; simpl in *. lia. }
  assert (Hnan :
    In mdl JS.Object_prototype ->
    TokenUsage.percentUsed u = JS.NaN /\ TokenUsage.percentUsed u' = JS.NaN).
  { intros Hp. pose proof (modelLimit_inherited mdl Hp) as E.
    unfold u, u', calculateTokenUsage; simpl. rewrite E. split; reflexivity. }
  split; [exact Hi |]. split; [exact Ho |].
  split; [exact Hin |]. split; [exact Hout |].
  split; [| split; [exact Hnum | exact Hnan]].
  destruct (In_dec string_dec mdl JS.Object_prototype) as [Hp | Hp].
  - destruct (Hnan Hp) as [E E']. unfold getSessionStatus. rewrite E, E'. simpl. lia.
  - destruct (Hnum Hp) as (p & p' & E & E' & _ & Hle).
    now apply (getSessionStatus_mono u u' p p').
Qed.

Lemma calculateTokenUsage_grows_witness :
  Forall countNonNegative [Sample.question] /\
  countNonNegative Sample.answer /\
  TokenUsage.outputTokens (calculateTokenUsage [Sample.question] "default")
  <= TokenUsage.outputTokens
       (calculateTokenUsage ([Sample.question] ++ [Sample.answer]) "default").
Proof.
  assert (H1 : Forall countNonNegative [Sample.question]).
  { constructor; [unfold countNonNegative; simpl; lia | constructor]. }
  assert (H2 : countNonNegative Sample.answer)
    by (unfold countNonNegative; simpl; lia).
  split; [exact H1 |]. split; [exact H2 |].
  destruct (calculateTokenUsage_grows [Sample.question] Sample.answer "default" H1 H2)
    as (_ & _ & _ & Hout & _).
  exact Hout.
Defined.

Section UpdateExtras.

Import LifeOSChat.

Lemma Tracked_consistent (u : Page.TokenUsage.t) : Tracked u -> consistent u.
Proof.
  induction 1 as [| i o prev _ IH].
  - apply zeroUsage_consistent.
  - now apply updateTokenUsage_consistent.
Qed.

Lemma estimateTokens_mono (a b : string) :
  (String.length a <= String.length b)%nat -> estimateTokens a <= estimateTokens b.
Proof.
  intros H. rewrite !estimateTokens_div. Z.div_mod_to_equations. lia.
Qed.

Lemma slice_last_app {A : Type} (older recent : list A) :
  JS.slice_last (length recent) (older ++ recent) = recent.
Proof.
  unfold JS.slice_last. rewrite length_app.
  replace (length older + length recent - length recent)%nat with (length older) by lia.
  apply drop_app_length.
Qed.

Lemma slice_last_short {A : Type} (k : nat) (l : list A) :
  (length l <= k)%nat -> JS.slice_last k l = l.
Proof.
  intros H. unfold JS.slice_last.
  replace (length l - k)%nat with 0%nat by lia. reflexivity.
Qed.

End UpdateExtras.

(** X6.  Two incremental updates in a row are one update with the summed
    deltas, so the order of two updates does not matter; and an update with
    zero deltas leaves a usage reached from the zeroed one as it is. *)
Theorem updateTokenUsage_merges :
  (forall (u : Page.TokenUsage.t) (i1 o1 i2 o2 : Z),
      LifeOSChat.updateTokenUsage i2 o2 (LifeOSChat.updateTokenUsage i1 o1 u)
      = LifeOSChat.updateTokenUsage (i1 + i2) (o1 + o2) u) /\
  (forall (u : Page.TokenUsage.t) (i1 o1 i2 o2 : Z),
      LifeOSChat.updateTokenUsage i2 o2 (LifeOSChat.updateTokenUsage i1 o1 u)
      = LifeOSChat.updateTokenUsage i1 o1 (LifeOSChat.updateTokenUsage i2 o2 u)) /\
  (forall u : Page.TokenUsage.t,
      Tracked u -> LifeOSChat.updateTokenUsage 0 0 u = u).
Proof.
  assert (Hmerge :
    forall (u : Page.TokenUsage.t) (i1 o1 i2 o2 : Z),
      LifeOSChat.updateTokenUsage i2 o2 (LifeOSChat.updateTokenUsage i1 o1 u)
      = LifeOSChat.updateTokenUsage (i1 + i2) (o1 + o2) u).
  { intros u i1 o1 i2 o2. unfold LifeOSChat.updateTokenUsage; simpl.
    replace (Page.TokenUsage.totalTokens u + i1 + o1 + i2 + o2)
      with (Page.TokenUsage.totalTokens u + (i1 + i2) + (o1 + o2)) by lia.
    f_equal; lia. }
  split; [exact Hmerge |]. split.
  - intros u i1 o1 i2 o2. rewrite !Hmerge. f_equal; lia.
  - intros u Hu. destruct (Tracked_consistent u Hu) as [Ht Hp].
    destruct u as [i o t p]; simpl in *.
    unfold LifeOSChat.updateTokenUsage; simpl.
    rewrite !Z.add_0_r. now rewrite <- Hp.
Qed.

Lemma updateTokenUsage_merges_witness :
  Tracked (LifeOSChat.updateTokenUsage 40 200 LifeOSChat.zeroUsage) /\
  LifeOSChat.updateTokenUsage 0 0 (LifeOSChat.updateTokenUsage 40 200 LifeOSChat.zeroUsage)
  = LifeOSChat.updateTokenUsage 40 200 LifeOSChat.zeroUsage.
Proof.
  assert (H : Tracked (LifeOSChat.updateTokenUsage 40 200 LifeOSChat.zeroUsage))
    by apply Tracked_update, Tracked_zero.
  split; [exact H |].
  exact (proj2 (proj2 updateTokenUsage_merges) _ H).
Defined.

(** X7.  The estimate grows with the length of the text, and cutting a text
    in two raises the summed estimate by at most one token. *)
Theorem estimateTokens_of_parts :
  (forall a b : string,
      (String.length a <= String.length b)%nat -> estimateTokens a <= estimateTokens b) /\
  (forall a b : string,
      estimateTokens (a +:+ b) <= estimateTokens a + estimateTokens b /\
      estimateTokens a + estimateTokens b <= estimateTokens (a +:+ b) + 1).
Proof.
  split; [exact estimateTokens_mono |].
  intros a b. rewrite !estimateTokens_div, length_append, Nat2Z.inj_add.
  split; Z.div_mod_to_equations; lia.
Qed.

Lemma estimateTokens_of_parts_witness :
  (String.length "abc" <= String.length "abcde")%nat /\
  estimateTokens "abc" <= estimateTokens "abcde".
Proof.
  assert (H : (String.length "abc" <= String.length "abcde")%nat) by (simpl; lia).
  split; [exact H |].
  exact (proj1 estimateTokens_of_parts "abc" "abcde" H).
Defined.

(** X8.  Only the most recent messages reach a continuation prompt: with at
    least 5 messages the backend prompt is the one of the last 5 alone, with
    at least 6 the client prompt is the one of the last 6 alone, and with
    fewer messages all of them are rendered. *)
Theorem prompt_ignores_older_messages :
  (forall (JSON_stringify : JS.Json -> string) (c : SessionCheckpoint.t)
          (older recent : list Message.t),
      SessionCheckpoint.messages c = older ++ recent ->
      length recent = 5%nat ->
      generateContinuationPrompt JSON_stringify c
      = generateContinuationPrompt JSON_stringify
          (SessionCheckpoint.mk (SessionCheckpoint.id c) (SessionCheckpoint.sessionId c)
             (SessionCheckpoint.timestamp c) (SessionCheckpoint.taskDescription c)
             (SessionCheckpoint.completedSteps c) (SessionCheckpoint.currentStep c)
             (SessionCheckpoint.nextSteps c) recent (SessionCheckpoint.tokenUsage c)
             (SessionCheckpoint.contextVariables c) (SessionCheckpoint.status c)
             (SessionCheckpoint.continuationPrompt c))) /\
  (forall (s : LifeOSChat.State.t) (older recent : list Message.t),
      LifeOSChat.State.messages s = older ++ recent ->
      length recent = 6%nat ->
      LifeOSChat.generateContinuationPrompt s
      = LifeOSChat.generateContinuationPrompt
          (LifeOSChat.setMessages (fun _ => recent) s)) /\
  (forall s : LifeOSChat.State.t,
      (length (LifeOSChat.State.messages s) <= 6)%nat ->
      JS.slice_last 6 (LifeOSChat.State.messages s) = LifeOSChat.State.messages s).
Proof.
  split; [| split].
  - intros JSON_stringify c older recent Hm Hn.
    unfold generateContinuationPrompt; simpl.
    rewrite Hm, <- Hn, slice_last_app.
    rewrite (slice_last_short (length recent) recent) by lia. reflexivity.
  - intros s older recent Hm Hn.
    unfold LifeOSChat.generateContinuationPrompt; simpl.
    rewrite Hm, <- Hn, slice_last_app.
    rewrite (slice_last_short (length recent) recent) by lia. reflexivity.
  - intros s H. now apply slice_last_short.
Qed.

Lemma prompt_ignores_older_messages_witness :
  let recent := [Sample.question; Sample.answer; Sample.short;
                 Sample.question; Sample.answer; Sample.short] in
  let s := LifeOSChat.setMessages (fun _ => [Sample.answer; Sample.short] ++ recent)
             Sample.session in
  length recent = 6%nat /\
  LifeOSChat.generateContinuationPrompt s
  = LifeOSChat.generateContinuationPrompt (LifeOSChat.setMessages (fun _ => recent) s).
Proof.
  intros recent s. split; [reflexivity |].
  exact (proj1 (proj2 prompt_ignores_older_messages) s
           [Sample.answer; Sample.short] recent eq_refl eq_refl).
Defined.

Section PromptSize.

Lemma join_length_bound (B : nat) (l : list string) :
  Forall (fun x => (String.length x <= B)%nat) l ->
  (String.length (JS.join JS.nl l) <= length l * (B + 1))%nat.
Proof.
  unfold JS.join. induction 1 as [| x l Hx Hl IH]; [simpl; lia |].
  destruct l as [| y l].
  - simpl. lia.
  - change (String.concat JS.nl (x :: y :: l))
      with (x +:+ JS.nl +:+ String.concat JS.nl (y :: l)).
    rewrite !length_append. change (String.length JS.nl) with 1%nat.
    simpl length in *. lia.
Qed.

Lemma page_renderMessage_length (m : Message.t) :
  (String.length (LifeOSChat.renderMessage m) <= 164)%nat.
Proof.
  unfold LifeOSChat.renderMessage. rewrite !length_append, slice0_length.
  pose proof (Nat.le_min_l 150 (String.length (Message.content m))) as Hk.
  set (k := Nat.min 150 (String.length (Message.content m))) in *. clearbody k.
  destruct (Message.role m); simpl; lia.
Qed.

Lemma slice_last_length {A : Type} (k : nat) (l : list A) :
  (length (JS.slice_last k l) <= k)%nat.
Proof. unfold JS.slice_last. rewrite length_drop. lia. Qed.

End PromptSize.

(** X9.  The prompt the page generates has a bounded size whatever the
    length of the conversation: at most 1193 characters besides the task
    label. *)
Theorem page_prompt_is_bounded :
  forall s : LifeOSChat.State.t,
    (String.length (LifeOSChat.generateContinuationPrompt s)
     <= String.length
          (JS.or_else_str (Some (LifeOSChat.State.checkpointTask s))
             "Continuing previous conversation")
        + 1193)%nat.
Proof.
  intros s. unfold LifeOSChat.generateContinuationPrompt.
  rewrite !length_append.
  assert (Hsum :
    (String.length
       (JS.join JS.nl
          (map LifeOSChat.renderMessage (JS.slice_last 6 (LifeOSChat.State.messages s))))
     <= 6 * 165)%nat).
  { etransitivity.
    - apply (join_length_bound 164). apply Forall_forall. intros x Hx.
      apply list_elem_of_In, in_map_iff in Hx. destruct Hx as (m & <- & _).
      apply page_renderMessage_length.
    - rewrite length_map.
      pose proof (slice_last_length 6 (LifeOSChat.State.messages s)). lia. }
  change (String.length JS.nl) with 1%nat.
  change (String.length LifeOSChat.instructionLine) with 150%nat.
  simpl String.length. lia.
Qed.

(** ** app/page.tsx: sending a message *)

Section SendExtras.

Import LifeOSChat.

Lemma append_nil_r (a : string) : a +:+ EmptyString = a.
Proof.
  induction a as [| x a IH]; [reflexivity |].
  change (String x (a +:+ EmptyString) = String x a). now rewrite IH.
Qed.

Lemma mapAssistant_compose (aid : string) (f g : Message.t -> Message.t)
    (l : list Message.t) :
  (forall m, Message.id (g m) = Message.id m) ->
  mapAssistant aid f (mapAssistant aid g l) = mapAssistant aid (fun m => f (g m)) l.
Proof.
  intros Hg. unfold mapAssistant. rewrite map_map. apply map_ext. intros m.
  destruct (String.eqb (Message.id m) aid) eqn:E.
  - now rewrite Hg, E.
  - now rewrite E.
Qed.

Lemma mapAssistant_same (aid : string) (l : list Message.t) :
  mapAssistant aid (fun m => m) l = l.
Proof.
  unfold mapAssistant. induction l as [| m l IH]; simpl; [reflexivity |].
  rewrite IH. now destruct (String.eqb (Message.id m) aid).
Qed.

Lemma finalMessage_keeps (events : list StreamEvent) :
  forall (fc : string) (m : Message.t),
    Message.id (finalMessage events fc m) = Message.id m /\
    Message.role (finalMessage events fc m) = Message.role m /\
    Message.timestamp (finalMessage events fc m) = Message.timestamp m /\
    Message.tokens (finalMessage events fc m) = lastReport events (Message.tokens m).
Proof.
  induction events as [| ev events IH]; intros fc m; simpl; [auto |].
  destruct ev as [content | i o | message].
  - destruct (IH (fc +:+ content) (withContent (fc +:+ content) m))
      as (H1 & H2 & H3 & H4); simpl in *; auto.
  - destruct (IH fc (withTokens o m)) as (H1 & H2 & H3 & H4); simpl in *; auto.
  - destruct (IH fc (withContent ("Error: " +:+ message) m))
      as (H1 & H2 & H3 & H4); simpl in *; auto.
Qed.

(** The read loop in closed form. *)
Lemma read_loop_closed_form (aid : string) (events : list StreamEvent) :
  forall (fc : string) (s : State.t),
    fold_left (handleEvent aid) events (fc, s) =
    (fc +:+ streamText events,
     setMessages (mapAssistant aid (finalMessage events fc))
       (setTokenUsage (streamUsage events) s)).
Proof.
  induction events as [| ev events IH]; intros fc s.
  - simpl. rewrite append_nil_r. unfold setMessages, setTokenUsage; simpl.
    rewrite mapAssistant_same. now destruct s.
  - change (fold_left (handleEvent aid) (ev :: events) (fc, s))
      with (fold_left (handleEvent aid) events (handleEvent aid (fc, s) ev)).
    destruct ev as [content | i o | message]; unfold handleEvent; rewrite IH; simpl.
    + rewrite append_assoc. f_equal.
      unfold setMessages, setTokenUsage; simpl. f_equal.
      now rewrite mapAssistant_compose.
    + f_equal. unfold setMessages, setTokenUsage; simpl. f_equal.
      now rewrite mapAssistant_compose.
    + f_equal. unfold setMessages, setTokenUsage; simpl. f_equal.
      now rewrite mapAssistant_compose.
Qed.

Lemma finalMessage_app (a b : list StreamEvent) :
  forall (fc : string) (m : Message.t),
    finalMessage (a ++ b) fc m
    = finalMessage b (fc +:+ streamText a) (finalMessage a fc m).
Proof.
  induction a as [| ev a IH]; intros fc m; simpl.
  - now rewrite append_nil_r.
  - destruct ev; rewrite IH; try reflexivity. now rewrite append_assoc.
Qed.

(** Without an error event the message shows the text received so far. *)
Lemma finalMessage_text (events : list StreamEvent) :
  forall (fc : string) (m : Message.t),
    forallb (fun ev => negb (isError ev)) events = true ->
    Message.content m = fc ->
    Message.content (finalMessage events fc m) = fc +:+ streamText events.
Proof.
  induction events as [| ev events IH]; intros fc m Hne Hc; simpl.
  - now rewrite append_nil_r.
  - simpl in Hne. apply andb_true_iff in Hne. destruct Hne as [Hev Hne].
    destruct ev; simpl in *; try discriminate.
    + rewrite IH; [now rewrite append_assoc | exact Hne | reflexivity].
    + now apply IH.
Qed.

(** Usage reports change neither the text nor the error shown. *)
Lemma finalMessage_reports (events : list StreamEvent) :
  forall (fc : string) (m : Message.t),
    forallb isDone events = true ->
    Message.content (finalMessage events fc m) = Message.content m.
Proof.
  induction events as [| ev events IH]; intros fc m H; simpl; [reflexivity |].
  simpl in H. apply andb_true_iff in H. destruct H as [Hev H].
  destruct ev; simpl in *; try discriminate. now rewrite IH.
Qed.

Lemma streamUsage_no_report (events : list StreamEvent) :
  forall u : Page.TokenUsage.t,
    forallb (fun ev => negb (isDone ev)) events = true -> streamUsage events u = u.
Proof.
  induction events as [| ev events IH]; intros u H; simpl; [reflexivity |].
  simpl in H. apply andb_true_iff in H. destruct H as [Hev H].
  destruct ev; simpl in *; try discriminate; now apply IH.
Qed.

Lemma streamUsage_consistent (events : list StreamEvent) :
  forall u : Page.TokenUsage.t, consistent u -> consistent (streamUsage events u).
Proof.
  induction events as [| ev events IH]; intros u H; simpl; [exact H |].
  destruct ev; try now apply IH.
  apply IH. now apply updateTokenUsage_consistent.
Qed.

(** What the messages of a mapped list look like. *)
Lemma mapAssistant_Forall2 (aid : string) (f : Message.t -> Message.t)
    (l : list Message.t) :
  Forall2
    (fun m m' =>
       (Message.id m = aid -> m' = f m) /\ (Message.id m <> aid -> m' = m))
    l (mapAssistant aid f l).
Proof.
  unfold mapAssistant. induction l as [| m l IH]; simpl; constructor; [| exact IH].
  destruct (String.eqb_spec (Message.id m) aid) as [E | E]; split; intros H;
    congruence.
Qed.

End SendExtras.

Section StreamFacts.

Import LifeOSChat.

Lemma mapAssistant_Forall (aid : string) (f : Message.t -> Message.t)
    (Q P : Message.t -> Prop) (l : list Message.t) :
  Forall (fun m => Message.id m = aid -> Q m) l ->
  (forall m, Message.id m = aid -> Q m -> P (f m)) ->
  Forall (fun m' => Message.id m' = aid -> P m') (mapAssistant aid f l).
Proof.
  intros Hl Hf. unfold mapAssistant.
  induction Hl as [| m l Hm _ IH]; simpl; constructor; [| exact IH].
  destruct (String.eqb_spec (Message.id m) aid) as [E | E].
  - intros _. apply Hf; [exact E | exact (Hm E)].
  - intros E'. contradiction.
Qed.

Lemma Forall_trivial_id (aid : string) (l : list Message.t) :
  Forall (fun m => Message.id m = aid -> True) l.
Proof. apply Forall_forall. auto. Qed.

Lemma streamUsage_app (a b : list StreamEvent) :
  forall u, streamUsage (a ++ b) u = streamUsage b (streamUsage a u).
Proof.
  induction a as [| ev a IH]; intros u; simpl; [reflexivity |].
  destruct ev; apply IH.
Qed.

Lemma lastReport_app (a b : list StreamEvent) :
  forall t, lastReport (a ++ b) t = lastReport b (lastReport a t).
Proof.
  induction a as [| ev a IH]; intros t; simpl; [reflexivity |].
  destruct ev; apply IH.
Qed.

Lemma lastReport_no_report (events : list StreamEvent) :
  forall t, forallb (fun ev => negb (isDone ev)) events = true -> lastReport events t = t.
Proof.
  induction events as [| ev events IH]; intros t H; simpl; [reflexivity |].
  simpl in H. apply andb_true_iff in H. destruct H as [Hev H].
  destruct ev; simpl in *; try discriminate; now apply IH.
Qed.

Lemma stream_messages (aid : string) (events : list StreamEvent) (s : State.t) :
  State.messages (handleSend_stream aid (Some events) s)
  = mapAssistant aid (finalMessage events EmptyString) (State.messages s).
Proof.
  unfold handleSend_stream. rewrite read_loop_closed_form. reflexivity.
Qed.

Lemma stream_usage (aid : string) (events : list StreamEvent) (s : State.t) :
  State.tokenUsage (handleSend_stream aid (Some events) s)
  = streamUsage events (State.tokenUsage s).
Proof.
  unfold handleSend_stream. rewrite read_loop_closed_form. reflexivity.
Qed.

End StreamFacts.

(** X10.  A send is refused, without any effect, when the content is blank
    or a request is in flight.  Otherwise a send of the typed input appends
    the user message, with the input as content and its estimate as count,
    and an empty assistant placeholder, clears the input and marks the
    request as in flight. *)
Theorem send_refuses_or_appends_turn :
  forall (closure : LifeOSChat.State.t) (overrideContent : option string)
         (s : LifeOSChat.State.t) (e : LifeOSChat.Env.t),
    let content := JS.or_else_str overrideContent (LifeOSChat.State.input closure) in
    (JS.blank content = true \/ LifeOSChat.State.isLoading closure = true ->
     LifeOSChat.handleSend_begin closure overrideContent s e = (s, e) /\
     forall stream, LifeOSChat.handleSend closure overrideContent stream s e = (s, e)) /\
    (JS.blank content = false ->
     LifeOSChat.State.isLoading closure = false ->
     overrideContent = None ->
     let s' := fst (LifeOSChat.handleSend_begin closure overrideContent s e) in
     let e' := snd (LifeOSChat.handleSend_begin closure overrideContent s e) in
     LifeOSChat.State.messages s'
     = LifeOSChat.State.messages s
       ++ [Message.mk (LifeOSChat.Env.uuids e (LifeOSChat.Env.uuids_drawn e)) user
             (LifeOSChat.State.input closure) (LifeOSChat.Env.now e)
             (Some (LifeOSChat.estimateTokens (LifeOSChat.State.input closure)));
           Message.mk (LifeOSChat.Env.uuids e (S (LifeOSChat.Env.uuids_drawn e)))
             assistant EmptyString (LifeOSChat.Env.now e) None] /\
     LifeOSChat.State.input s' = EmptyString /\
     LifeOSChat.State.isLoading s' = true /\
     LifeOSChat.State.tokenUsage s' = LifeOSChat.State.tokenUsage s /\
     LifeOSChat.Env.uuids_drawn e' = S (S (LifeOSChat.Env.uuids_drawn e))).
Proof.
  intros closure ov s e content. split.
  - intros H.
    assert (Hb : (JS.blank content || LifeOSChat.State.isLoading closure)%bool = true).
    { destruct H as [-> | ->]; [reflexivity | apply orb_true_r]. }
    unfold LifeOSChat.handleSend, LifeOSChat.handleSend_begin.
    fold content. rewrite Hb. auto.
  - intros Hb Hl ->. unfold LifeOSChat.handleSend_begin.
    unfold content in Hb. simpl in Hb. simpl JS.or_else_str.
    rewrite Hb, Hl. simpl. rewrite <- app_assoc. auto.
Qed.

Lemma send_refuses_or_appends_turn_witness :
  JS.blank "   " = true /\
  LifeOSChat.handleSend_begin
    (LifeOSChat.setInput "   " Sample.session) None Sample.session
    (Sample.env (Sample.emptyDb true) true)
  = (Sample.session, Sample.env (Sample.emptyDb true) true) /\
  map Message.content
    (LifeOSChat.State.messages
       (fst (LifeOSChat.handleSend_begin Sample.session None Sample.session
               (Sample.env (Sample.emptyDb true) true))))
  = ["Why is the invoice total wrong?"; "The tax is applied twice."; "draft"; EmptyString].
Proof.
  split; [reflexivity |].
  split.
  - apply (proj1 (send_refuses_or_appends_turn
                    (LifeOSChat.setInput "   " Sample.session) None Sample.session
                    (Sample.env (Sample.emptyDb true) true))).
    left. reflexivity.
  - destruct (proj2 (send_refuses_or_appends_turn Sample.session None Sample.session
                       (Sample.env (Sample.emptyDb true) true))
                eq_refl eq_refl eq_refl) as (Hm & _).
    rewrite Hm. reflexivity.
Defined.

(** X11.  Reading the response stream never adds, removes or reorders
    messages and keeps identifier, role and time of each; a message whose
    identifier is not the one of the assistant message is left as it is; the
    request is no longer in flight afterwards, whether the stream was read
    to its end or the request failed; the session identifier stays. *)
Theorem stream_keeps_conversation_shape :
  forall (assistantId : string) (stream : option (list LifeOSChat.StreamEvent))
         (s : LifeOSChat.State.t),
    let s' := LifeOSChat.handleSend_stream assistantId stream s in
    map Message.id (LifeOSChat.State.messages s')
    = map Message.id (LifeOSChat.State.messages s) /\
    map Message.role (LifeOSChat.State.messages s')
    = map Message.role (LifeOSChat.State.messages s) /\
    map Message.timestamp (LifeOSChat.State.messages s')
    = map Message.timestamp (LifeOSChat.State.messages s) /\
    Forall2 (fun m m' => Message.id m <> assistantId -> m' = m)
      (LifeOSChat.State.messages s) (LifeOSChat.State.messages s') /\
    LifeOSChat.State.isLoading s' = false /\
    LifeOSChat.State.sessionId s' = LifeOSChat.State.sessionId s.
Proof.
  intros aid stream s s'.
  assert (Hshape :
    exists f : Message.t -> Message.t,
      LifeOSChat.State.messages s'
      = LifeOSChat.mapAssistant aid f (LifeOSChat.State.messages s) /\
      forall m, Message.id (f m) = Message.id m /\
                Message.role (f m) = Message.role m /\
                Message.timestamp (f m) = Message.timestamp m).
  { destruct stream as [events |].
    - exists (finalMessage events EmptyString). split.
      + apply stream_messages.
      + intros m. destruct (finalMessage_keeps events EmptyString m) as (H1 & H2 & H3 & _).
        auto.
    - eexists. split; [reflexivity |]. intros m. simpl. auto. }
  destruct Hshape as (f & Hm & Hf).
  assert (Hmap : forall (A : Type) (g : Message.t -> A),
             (forall m, g (f m) = g m) ->
             map g (LifeOSChat.mapAssistant aid f (LifeOSChat.State.messages s))
             = map g (LifeOSChat.State.messages s)).
  { intros A g Hg. unfold LifeOSChat.mapAssistant. rewrite map_map. apply map_ext.
    intros m. destruct (String.eqb (Message.id m) aid); [apply Hg | reflexivity]. }
  rewrite Hm.
  split; [apply Hmap; intros m; apply (Hf m) |].
  split; [apply Hmap; intros m; apply (Hf m) |].
  split; [apply Hmap; intros m; apply (Hf m) |].
  split.
  { eapply Forall2_impl; [apply mapAssistant_Forall2 |]. simpl. intros m m' [_ H]. exact H. }
  unfold s'. destruct stream as [events |];
    [unfold LifeOSChat.handleSend_stream; rewrite read_loop_closed_form |];
    split; reflexivity.
Qed.

(** X12.  What the assistant message shows once the stream is handled: the
    text chunks in the order received when no error event came, the error
    text when an error event was the last event carrying text, and the
    connection notice when the request failed. *)
Theorem stream_sets_assistant_content :
  forall (assistantId : string) (s : LifeOSChat.State.t),
    (forall events : list LifeOSChat.StreamEvent,
        forallb (fun ev => negb (isError ev)) events = true ->
        Forall (fun m => Message.id m = assistantId -> Message.content m = EmptyString)
          (LifeOSChat.State.messages s) ->
        Forall (fun m => Message.id m = assistantId ->
                         Message.content m = streamText events)
          (LifeOSChat.State.messages
             (LifeOSChat.handleSend_stream assistantId (Some events) s))) /\
    (forall (before after : list LifeOSChat.StreamEvent) (message : string),
        forallb isDone after = true ->
        Forall (fun m => Message.id m = assistantId ->
                         Message.content m = "Error: " +:+ message)
          (LifeOSChat.State.messages
             (LifeOSChat.handleSend_stream assistantId
                (Some (before ++ LifeOSChat.ev_error message :: after)) s))) /\
    Forall (fun m => Message.id m = assistantId ->
                     Message.content m
                     = "Connection error. Check your internet and try again.")
      (LifeOSChat.State.messages (LifeOSChat.handleSend_stream assistantId None s)).
Proof.
  intros aid s. split; [| split].
  - intros events Hne Hempty. rewrite stream_messages.
    eapply mapAssistant_Forall; [exact Hempty |].
    intros m _ Hm. simpl in Hm.
    now rewrite (finalMessage_text events EmptyString m Hne Hm).
  - intros before after message Hdone. rewrite stream_messages.
    eapply mapAssistant_Forall; [apply Forall_trivial_id |].
    intros m _ _. simpl. rewrite finalMessage_app. simpl.
    now rewrite finalMessage_reports.
  - simpl. eapply mapAssistant_Forall; [apply Forall_trivial_id |].
    intros m _ _. reflexivity.
Qed.

Lemma stream_sets_assistant_content_witness :
  let s :=
    LifeOSChat.setMessages
      (fun _ => [Sample.question; Message.mk "a-1" assistant EmptyString "t" None])
      Sample.session in
  map Message.content
    (LifeOSChat.State.messages
       (LifeOSChat.handleSend_stream "a-1"
          (Some [LifeOSChat.ev_text "The tax "; LifeOSChat.ev_text "is applied twice.";
                 LifeOSChat.ev_done 12 7]) s))
  = ["Why is the invoice total wrong?"; "The tax is applied twice."] /\
  Forall (fun m => Message.id m = "a-1" ->
                   Message.content m = "The tax is applied twice.")
    (LifeOSChat.State.messages
       (LifeOSChat.handleSend_stream "a-1"
          (Some [LifeOSChat.ev_text "The tax "; LifeOSChat.ev_text "is applied twice.";
                 LifeOSChat.ev_done 12 7]) s)).
Proof.
  intros s. split; [reflexivity |].
  apply (proj1 (stream_sets_assistant_content "a-1" s)
           [LifeOSChat.ev_text "The tax "; LifeOSChat.ev_text "is applied twice.";
            LifeOSChat.ev_done 12 7]).
  - reflexivity.
  - repeat constructor; simpl; intros H; try reflexivity; discriminate H.
Defined.

(** X13.  Only a usage report moves the token counters: a stream without a
    report, or a failed request, leaves the usage as it was; a stream with
    exactly one report adds its two counts once and stamps the assistant
    message with the reported output count; and a usage whose total is the
    sum of its sides keeps that through any stream. *)
Theorem stream_updates_usage_on_report :
  forall (assistantId : string) (s : LifeOSChat.State.t),
    (forall events : list LifeOSChat.StreamEvent,
        forallb (fun ev => negb (isDone ev)) events = true ->
        LifeOSChat.State.tokenUsage
          (LifeOSChat.handleSend_stream assistantId (Some events) s)
        = LifeOSChat.State.tokenUsage s) /\
    LifeOSChat.State.tokenUsage (LifeOSChat.handleSend_stream assistantId None s)
    = LifeOSChat.State.tokenUsage s /\
    (forall (before after : list LifeOSChat.StreamEvent) (i o : Z),
        forallb (fun ev => negb (isDone ev)) before = true ->
        forallb (fun ev => negb (isDone ev)) after = true ->
        let s' :=
          LifeOSChat.handleSend_stream assistantId
            (Some (before ++ LifeOSChat.ev_done i o :: after)) s in
        LifeOSChat.State.tokenUsage s'
        = LifeOSChat.updateTokenUsage i o (LifeOSChat.State.tokenUsage s) /\
        Forall (fun m => Message.id m = assistantId -> Message.tokens m = Some o)
          (LifeOSChat.State.messages s')) /\
    (forall stream : option (list LifeOSChat.StreamEvent),
        consistent (LifeOSChat.State.tokenUsage s) ->
        consistent
          (LifeOSChat.State.tokenUsage (LifeOSChat.handleSend_stream assistantId stream s))).
Proof.
  intros aid s. split; [| split; [| split]].
  - intros events H. rewrite stream_usage. now apply streamUsage_no_report.
  - reflexivity.
  - intros before after i o Hb Ha s'. split.
    + unfold s'. rewrite stream_usage, streamUsage_app. simpl.
      rewrite (streamUsage_no_report after) by exact Ha.
      now rewrite (streamUsage_no_report before) by exact Hb.
    + unfold s'. rewrite stream_messages.
      eapply mapAssistant_Forall; [apply Forall_trivial_id |].
      intros m _ _. simpl.
      destruct (finalMessage_keeps (before ++ LifeOSChat.ev_done i o :: after)
                  EmptyString m) as (_ & _ & _ & ->).
      rewrite lastReport_app. simpl. now apply lastReport_no_report.
  - intros [events |] H.
    + rewrite stream_usage. now apply streamUsage_consistent.
    + exact H.
Qed.

Lemma stream_updates_usage_on_report_witness :
  consistent (LifeOSChat.State.tokenUsage Sample.session) /\
  Page.TokenUsage.totalTokens
    (LifeOSChat.State.tokenUsage
       (LifeOSChat.handleSend_stream "a-1"
          (Some [LifeOSChat.ev_text "ok"; LifeOSChat.ev_done 12 7]) Sample.session))
  = 153919 /\
  consistent
    (LifeOSChat.State.tokenUsage
       (LifeOSChat.handleSend_stream "a-1"
          (Some [LifeOSChat.ev_text "ok"; LifeOSChat.ev_done 12 7]) Sample.session)).
Proof.
  assert (H : consistent (LifeOSChat.State.tokenUsage Sample.session))
    by (split; reflexivity).
  split; [exact H |].
  destruct (stream_updates_usage_on_report "a-1" Sample.session) as (_ & _ & Hone & Hc).
  split.
  - destruct (Hone [LifeOSChat.ev_text "ok"] [] 12 7 eq_refl eq_refl) as [Hx _].
    simpl app in Hx. rewrite Hx. reflexivity.
  - exact (Hc (Some [LifeOSChat.ev_text "ok"; LifeOSChat.ev_done 12 7]) H).
Defined.

(** ** app/api/chat/route.ts *)

Section ChatExtras.

Import ChatRoute.

Lemma chat_loop_closed_form (events : list AnthropicEvent) :
  forall st : Loop.t,
    fold_left onEvent events st =
    Loop.mk (Loop.emitted st ++ map sse_text (providerDeltas events))
      (Loop.fullResponse st +:+ providerText events)
      (fold_left
         (fun n ev =>
            match ev with
            | message_start input_tokens => JS.or_else input_tokens 0
            | _ => n
            end) events (Loop.inputTokens st))
      (fold_left
         (fun n ev =>
            match ev with
            | message_delta output_tokens => JS.or_else output_tokens 0
            | _ => n
            end) events (Loop.outputTokens st)).
Proof.
  induction events as [| ev events IH]; intros st.
  - simpl. unfold providerText; simpl. rewrite app_nil_r, append_nil_r. now destruct st.
  - change (fold_left onEvent (ev :: events) st)
      with (fold_left onEvent events (onEvent st ev)).
    rewrite IH. destruct ev as [[text |] | t | t |]; simpl; try reflexivity.
    unfold providerText; simpl. rewrite <- app_assoc, append_assoc. reflexivity.
Qed.

Lemma chat_route_shape (response : AnthropicStream.t) :
  start response =
  map sse_text (providerDeltas (AnthropicStream.events response))
  ++ [match AnthropicStream.failure response with
      | None =>
          sse_done (reportedInput (AnthropicStream.events response))
            (reportedOutput (AnthropicStream.events response))
            (reportedInput (AnthropicStream.events response)
             + reportedOutput (AnthropicStream.events response))
      | Some error => sse_error (errorMessage error)
      end].
Proof.
  unfold start. rewrite chat_loop_closed_form. simpl.
  destruct (AnthropicStream.failure response); reflexivity.
Qed.

End ChatExtras.

(** X14.  The chat route writes the text deltas of the provider as text
    events, in order, and then exactly one closing event: a usage report with
    the counts reported last (0 for a count never reported) and their sum as
    total when the provider's stream ended normally, an error event with the
    error's message, and no usage report, when it threw. *)
Theorem chat_route_closes_with_one_event :
  forall response : ChatRoute.AnthropicStream.t,
    let events := ChatRoute.AnthropicStream.events response in
    ChatRoute.start response =
    map ChatRoute.sse_text (providerDeltas events)
    ++ [match ChatRoute.AnthropicStream.failure response with
        | None =>
            ChatRoute.sse_done (reportedInput events) (reportedOutput events)
              (reportedInput events + reportedOutput events)
        | Some error => ChatRoute.sse_error (ChatRoute.errorMessage error)
        end].
Proof.
  intros response events. apply chat_route_shape.
Qed.

Section ExchangeFacts.

Import LifeOSChat.

Lemma mapAssistant_fresh (aid : string) (f : Message.t -> Message.t) (l : list Message.t) :
  Forall (fun m => Message.id m <> aid) l -> mapAssistant aid f l = l.
Proof.
  unfold mapAssistant. induction 1 as [| m l Hm _ IH]; simpl; [reflexivity |].
  rewrite IH. apply String.eqb_neq in Hm. now rewrite Hm.
Qed.

Lemma finalMessage_texts (deltas : list string) :
  forall (fc : string) (m : Message.t),
    Message.content m = fc ->
    finalMessage (map ev_text deltas) fc m
    = withContent (fc +:+ fold_right String.append EmptyString deltas) m.
Proof.
  induction deltas as [| d deltas IH]; intros fc m Hc; simpl.
  - rewrite append_nil_r. destruct m; simpl in *. now subst.
  - rewrite IH by reflexivity. rewrite append_assoc. reflexivity.
Qed.

(** The state and the environment after the start of a send of the typed
    input that is not refused. *)
Lemma handleSend_begin_typed (closure s : State.t) (e : Env.t) :
  JS.blank (State.input closure) = false ->
  State.isLoading closure = false ->
  handleSend_begin closure None s e =
  (setMessages
     (fun prev =>
        prev ++ [Message.mk (Env.uuids e (S (Env.uuids_drawn e))) assistant EmptyString
                   (Env.now e) None])
     (setIsLoading true
        (setInput EmptyString
           (setMessages
              (fun prev =>
                 prev ++ [Message.mk (Env.uuids e (Env.uuids_drawn e)) user
                            (State.input closure) (Env.now e)
                            (Some (estimateTokens (State.input closure)))])
              s))),
   Env.mk (Env.supabase e) (Env.online e) (Env.uuids e) (S (S (Env.uuids_drawn e)))
     (Env.now e)).
Proof.
  intros Hb Hl. unfold handleSend_begin. simpl. rewrite Hb, Hl. reflexivity.
Qed.

(** The events the page parses from what the chat route wrote. *)
Lemma parsed_start (response : ChatRoute.AnthropicStream.t) :
  map parsed (ChatRoute.start response) =
  map ev_text (providerDeltas (ChatRoute.AnthropicStream.events response))
  ++ [match ChatRoute.AnthropicStream.failure response with
      | None =>
          ev_done (reportedInput (ChatRoute.AnthropicStream.events response))
            (reportedOutput (ChatRoute.AnthropicStream.events response))
      | Some error => ev_error (ChatRoute.errorMessage error)
      end].
Proof.
  rewrite chat_route_shape, map_app, map_map. simpl.
  destruct (ChatRoute.AnthropicStream.failure response); reflexivity.
Qed.

End ExchangeFacts.

(** X15.  A complete exchange, from the typed input to the end of the stream
    the chat route writes, with fresh identifiers: the conversation gains the
    user message and one assistant message; when the provider's stream ended
    normally that message holds the provider's whole text and the reported
    output count, and the usage grows by the two reported counts; when the
    provider threw, the message holds the error text, has no count, and the
    usage is unchanged.  Either way the request is no longer in flight and
    the input is empty. *)
Theorem exchange_with_provider :
  forall (closure s : LifeOSChat.State.t) (e : LifeOSChat.Env.t)
         (response : ChatRoute.AnthropicStream.t),
    JS.blank (LifeOSChat.State.input closure) = false ->
    LifeOSChat.State.isLoading closure = false ->
    LifeOSChat.Env.uuids e (LifeOSChat.Env.uuids_drawn e)
      <> LifeOSChat.Env.uuids e (S (LifeOSChat.Env.uuids_drawn e)) ->
    Forall (fun m => Message.id m <> LifeOSChat.Env.uuids e (S (LifeOSChat.Env.uuids_drawn e)))
      (LifeOSChat.State.messages s) ->
    let events := ChatRoute.AnthropicStream.events response in
    let s' :=
      fst (LifeOSChat.handleSend closure None
             (Some (map LifeOSChat.parsed (ChatRoute.start response))) s e) in
    let userMessage :=
      Message.mk (LifeOSChat.Env.uuids e (LifeOSChat.Env.uuids_drawn e)) user
        (LifeOSChat.State.input closure) (LifeOSChat.Env.now e)
        (Some (LifeOSChat.estimateTokens (LifeOSChat.State.input closure))) in
    LifeOSChat.State.isLoading s' = false /\
    LifeOSChat.State.input s' = EmptyString /\
    match ChatRoute.AnthropicStream.failure response with
    | None =>
        LifeOSChat.State.messages s'
        = LifeOSChat.State.messages s
          ++ [userMessage;
              Message.mk (LifeOSChat.Env.uuids e (S (LifeOSChat.Env.uuids_drawn e)))
                assistant (providerText events) (LifeOSChat.Env.now e)
                (Some (reportedOutput events))] /\
        LifeOSChat.State.tokenUsage s'
        = LifeOSChat.updateTokenUsage (reportedInput events) (reportedOutput events)
            (LifeOSChat.State.tokenUsage s)
    | Some error =>
        LifeOSChat.State.messages s'
        = LifeOSChat.State.messages s
          ++ [userMessage;
              Message.mk (LifeOSChat.Env.uuids e (S (LifeOSChat.Env.uuids_drawn e)))
                assistant ("Error: " +:+ ChatRoute.errorMessage error)
                (LifeOSChat.Env.now e) None] /\
        LifeOSChat.State.tokenUsage s' = LifeOSChat.State.tokenUsage s
    end.
Proof.
  intros closure s e response Hb Hl Hids Hfresh events s' userMessage.
  set (aid := LifeOSChat.Env.uuids e (S (LifeOSChat.Env.uuids_drawn e))) in *.
  assert (Hs' :
    s' = LifeOSChat.handleSend_stream aid
           (Some (map LifeOSChat.parsed (ChatRoute.start response)))
           (fst (LifeOSChat.handleSend_begin closure None s e))).
  { unfold s', LifeOSChat.handleSend. simpl JS.or_else_str. rewrite Hb, Hl. simpl.
    now destruct (LifeOSChat.handleSend_begin closure None s e). }
  rewrite handleSend_begin_typed in Hs' by assumption. simpl fst in Hs'.
  assert (Hflag : LifeOSChat.State.isLoading s' = false /\
                  LifeOSChat.State.input s' = EmptyString).
  { rewrite Hs'. unfold LifeOSChat.handleSend_stream.
    rewrite read_loop_closed_form. split; reflexivity. }
  destruct Hflag as [Hload Hinput].
  split; [exact Hload |]. split; [exact Hinput |].
  assert (Hmsgs : forall evs,
    LifeOSChat.State.messages
      (LifeOSChat.handleSend_stream aid (Some evs)
         (LifeOSChat.setMessages
            (fun prev => prev ++ [Message.mk aid assistant EmptyString
                                    (LifeOSChat.Env.now e) None])
            (LifeOSChat.setIsLoading true
               (LifeOSChat.setInput EmptyString
                  (LifeOSChat.setMessages (fun prev => prev ++ [userMessage]) s)))))
    = LifeOSChat.State.messages s
      ++ [userMessage;
          finalMessage evs EmptyString
            (Message.mk aid assistant EmptyString (LifeOSChat.Env.now e) None)]).
  { intros evs. rewrite stream_messages. simpl.
    unfold LifeOSChat.mapAssistant. rewrite !map_app.
    fold (LifeOSChat.mapAssistant aid (finalMessage evs EmptyString)
            (LifeOSChat.State.messages s)).
    rewrite mapAssistant_fresh by exact Hfresh. simpl.
    apply String.eqb_neq in Hids. fold aid in Hids. rewrite Hids.
    rewrite String.eqb_refl, <- app_assoc. reflexivity. }
  rewrite parsed_start in Hs'. fold events in Hs'.
  destruct (ChatRoute.AnthropicStream.failure response) as [error |].
  - split.
    + rewrite Hs', Hmsgs, finalMessage_app.
      rewrite finalMessage_texts by reflexivity. reflexivity.
    + rewrite Hs', stream_usage. simpl.
      apply streamUsage_no_report. rewrite forallb_app. simpl.
      rewrite andb_true_r. apply forallb_forall. intros ev Hev.
      apply in_map_iff in Hev. destruct Hev as (d & <- & _). reflexivity.
  - split.
    + rewrite Hs', Hmsgs, finalMessage_app.
      rewrite finalMessage_texts by reflexivity. reflexivity.
    + rewrite Hs', stream_usage, streamUsage_app. simpl.
      f_equal. apply streamUsage_no_report. apply forallb_forall. intros ev Hev.
      apply in_map_iff in Hev. destruct Hev as (d & <- & _). reflexivity.
Qed.

Lemma exchange_with_provider_witness :
  let response :=
    ChatRoute.AnthropicStream.mk
      [ChatRoute.message_start (Some 12); ChatRoute.content_block_delta (Some "The tax ");
       ChatRoute.content_block_delta (Some "is applied twice.");
       ChatRoute.message_delta (Some 7)] None in
  let s' :=
    fst (LifeOSChat.handleSend Sample.session None
           (Some (map LifeOSChat.parsed (ChatRoute.start response))) Sample.session
           (Sample.env (Sample.emptyDb true) true)) in
  map Message.content (LifeOSChat.State.messages s')
  = ["Why is the invoice total wrong?"; "The tax is applied twice."; "draft";
     "The tax is applied twice."] /\
  Page.TokenUsage.totalTokens (LifeOSChat.State.tokenUsage s') = 153919 /\
  LifeOSChat.State.isLoading s' = false.
Proof.
  intros response s'.
  assert (Hfresh : Forall (fun m => Message.id m <> "uuid-1")
                     (LifeOSChat.State.messages Sample.session)).
  { repeat constructor; simpl; discriminate. }
  destruct (exchange_with_provider Sample.session Sample.session
              (Sample.env (Sample.emptyDb true) true) response
              eq_refl eq_refl ltac:(simpl; discriminate) Hfresh)
    as (Hload & _ & Hm & Hu).
  split; [| split; [| exact Hload]].
  - unfold s'. rewrite Hm. reflexivity.
  - unfold s'. rewrite Hu. reflexivity.
Defined.

(** ** app/api/checkpoint/route.ts *)

Section RouteExtras.

Import CheckpointRoute.

(** POST, case by case. *)
Lemma POST_cases (c : Body.t) (db : Supabase.t) :
  POST c db =
  if Supabase.reachable db then
    if has_id (Body.id c) (Supabase.session_checkpoints db) then
      (Failed "Failed to save checkpoint",
       Supabase.mk
         (map (demote (Body.sessionId c) (Supabase.NOW db)) (Supabase.session_checkpoints db))
         (Supabase.activities db) true (Supabase.NOW db))
    else
      (Ok (storedRow c (Supabase.NOW db)),
       Supabase.mk
         (map (demote (Body.sessionId c) (Supabase.NOW db)) (Supabase.session_checkpoints db)
          ++ [storedRow c (Supabase.NOW db)])
         (Supabase.activities db ++ [loggedActivity c]) true (Supabase.NOW db))
  else (Failed "Failed to save checkpoint", db).
Proof.
  unfold POST, update_status, insert_row, insert_activity.
  destruct (Supabase.reachable db) eqn:Er; simpl.
  - change (fun r0 : Row.t =>
              if (String.eqb (Row.status r0) "active"
                  && String.eqb (Row.session_id r0) (Body.sessionId c))%bool
              then set_status "superseded" (Supabase.NOW db) r0
              else r0)
      with (demote (Body.sessionId c) (Supabase.NOW db)).
    rewrite has_id_demote.
    destruct (has_id (Body.id c) (Supabase.session_checkpoints db)); reflexivity.
  - rewrite Er. reflexivity.
Qed.

Lemma demote_sameData (sid now : string) (r : Row.t) : sameData r (demote sid now r).
Proof. unfold demote, sameData. destruct (_ && _)%bool; simpl; auto 10. Qed.

Lemma restamp_sameData (id status now : string) (r : Row.t) :
  sameData r (restamp id status now r).
Proof. unfold restamp, sameData. destruct (String.eqb _ _); simpl; auto 10. Qed.

Lemma rowIds_demote (sid now : string) (rows : list Row.t) :
  rowIds (map (demote sid now) rows) = rowIds rows.
Proof.
  unfold rowIds. rewrite map_map. apply map_ext. intros r. apply demote_id.
Qed.

Lemma rowIds_restamp (id status now : string) (rows : list Row.t) :
  rowIds (map (restamp id status now) rows) = rowIds rows.
Proof.
  unfold rowIds. rewrite map_map. apply map_ext. intros r. apply restamp_id.
Qed.

Lemma has_id_In (id : string) (rows : list Row.t) :
  has_id id rows = true <-> In id (rowIds rows).
Proof.
  unfold has_id, rowIds. rewrite existsb_exists, in_map_iff. split.
  - intros (r & Hr & E). apply String.eqb_eq in E. now exists r.
  - intros (r & E & Hr). exists r. split; [exact Hr | now apply String.eqb_eq].
Qed.

(** PATCH, case by case. *)
Lemma PATCH_table (id status : string) (db : Supabase.t) :
  Supabase.session_checkpoints (snd (PATCH id status db)) =
  if (Supabase.reachable db && status_check status)%bool
  then map (restamp id status (Supabase.NOW db)) (Supabase.session_checkpoints db)
  else Supabase.session_checkpoints db.
Proof.
  unfold PATCH, update_status.
  destruct (Supabase.reachable db && status_check status)%bool; simpl; [| reflexivity].
  match goal with
  | |- context [match ?l with _ => _ end] => destruct l as [| ? [| ? ?]]
  end; reflexivity.
Qed.

Lemma restamp_no_match (id status now : string) (rows : list Row.t) :
  has_id id rows = false -> map (restamp id status now) rows = rows.
Proof.
  unfold has_id, restamp. induction rows as [| r rows IH]; simpl; [reflexivity |].
  destruct (String.eqb (Row.id r) id); simpl; [discriminate |].
  intros H. now rewrite IH.
Qed.

Lemma filter_id_restamp (id status now : string) (rows : list Row.t) :
  List.filter (fun r => String.eqb (Row.id r) id) (map (restamp id status now) rows)
  = map (set_status status now) (List.filter (fun r => String.eqb (Row.id r) id) rows).
Proof.
  induction rows as [| r rows IH]; simpl; [reflexivity |].
  rewrite restamp_id, IH. unfold restamp at 1.
  destruct (String.eqb (Row.id r) id); reflexivity.
Qed.

(** With distinct identifiers at most one row answers to an identifier. *)
Lemma filter_id_NoDup (id : string) (rows : list Row.t) (r : Row.t) :
  NoDup (rowIds rows) -> In r rows -> Row.id r = id ->
  List.filter (fun x => String.eqb (Row.id x) id) rows = [r].
Proof.
  unfold rowIds. induction rows as [| x rows IH]; simpl; intros Hnd Hin Hid.
  - destruct Hin.
  - apply NoDup_cons in Hnd. destruct Hnd as [Hx Hnd].
    rewrite list_elem_of_In in Hx.
    destruct Hin as [-> | Hin].
    + rewrite Hid, String.eqb_refl. f_equal.
      apply has_id_false_filter. apply not_true_iff_false. intros H.
      apply has_id_In in H. unfold rowIds in H. now rewrite <- Hid in H.
    + destruct (String.eqb_spec (Row.id x) id) as [E | E].
      * exfalso. apply Hx. rewrite E, <- Hid. now apply in_map.
      * now apply IH.
Qed.

End RouteExtras.

(** X16.  POST is not atomic.  When the identifier of the new checkpoint is
    already stored, the insert fails and the answer is the failure, no row is
    added and no activity is logged; yet the demotion that ran first stays,
    so the session is left without an active checkpoint. *)
Theorem POST_duplicate_id_still_supersedes :
  forall (c : CheckpointRoute.Body.t) (db : CheckpointRoute.Supabase.t),
    CheckpointRoute.Supabase.reachable db = true ->
    CheckpointRoute.has_id (CheckpointRoute.Body.id c)
      (CheckpointRoute.Supabase.session_checkpoints db) = true ->
    let db' := snd (CheckpointRoute.POST c db) in
    fst (CheckpointRoute.POST c db) = CheckpointRoute.Failed "Failed to save checkpoint" /\
    CheckpointRoute.Supabase.session_checkpoints db'
    = map (demote (CheckpointRoute.Body.sessionId c) (CheckpointRoute.Supabase.NOW db))
        (CheckpointRoute.Supabase.session_checkpoints db) /\
    activeFor (CheckpointRoute.Body.sessionId c)
      (CheckpointRoute.Supabase.session_checkpoints db') = [] /\
    CheckpointRoute.Supabase.activities db' = CheckpointRoute.Supabase.activities db.
Proof.
  intros c db Hr Hid db'. unfold db'. rewrite POST_cases, Hr, Hid. simpl.
  repeat split. apply activeFor_demote.
Qed.

Lemma POST_duplicate_id_still_supersedes_witness :
  let db := CheckpointRoute.Supabase.mk [Sample.storedCheckpoint] [] true "2025-01-02" in
  activeFor "session-1" (CheckpointRoute.Supabase.session_checkpoints db)
  = [Sample.storedCheckpoint] /\
  activeFor "session-1"
    (CheckpointRoute.Supabase.session_checkpoints
       (snd (CheckpointRoute.POST (Sample.body "cp-1" "session-1") db))) = [] /\
  length
    (CheckpointRoute.Supabase.session_checkpoints
       (snd (CheckpointRoute.POST (Sample.body "cp-1" "session-1") db))) = 1%nat.
Proof.
  intros db.
  destruct (POST_duplicate_id_still_supersedes (Sample.body "cp-1" "session-1") db
              eq_refl eq_refl) as (_ & Hrows & Hact & _).
  split; [reflexivity |]. split; [exact Hact |].
  rewrite Hrows. reflexivity.
Defined.

(** X17.  POST logs exactly one activity when the checkpoint is stored and
    none when it is not, and it never touches an activity logged before; the
    new entry carries the identifier, the task and the time of the request,
    and the percentage [Math.round] gives for a hundred times the ratio of
    the checkpoint's usage. *)
Theorem POST_logs_one_activity :
  forall (c : CheckpointRoute.Body.t) (db : CheckpointRoute.Supabase.t),
    let logged := CheckpointRoute.Supabase.activities (snd (CheckpointRoute.POST c db)) in
    match fst (CheckpointRoute.POST c db) with
    | CheckpointRoute.Ok _ =>
        exists a : CheckpointRoute.Activity.t,
          logged = CheckpointRoute.Supabase.activities db ++ [a] /\
          CheckpointRoute.Activity.checkpoint_id a = CheckpointRoute.Body.id c /\
          CheckpointRoute.Activity.task a = CheckpointRoute.Body.taskDescription c /\
          CheckpointRoute.Activity.start_time a = CheckpointRoute.Body.timestamp c /\
          CheckpointRoute.Activity.token_percent a
          = JS.round_percent
              (Page.TokenUsage.percentUsed (CheckpointRoute.Body.tokenUsage c)) /\
          CheckpointRoute.Activity.activity_type a = "session_checkpoint"
    | CheckpointRoute.Failed _ => logged = CheckpointRoute.Supabase.activities db
    end.
Proof.
  intros c db logged. unfold logged. rewrite POST_cases.
  destruct (CheckpointRoute.Supabase.reachable db); [| reflexivity].
  destruct (CheckpointRoute.has_id _ _); [reflexivity |].
  simpl. eexists. split; [reflexivity |]. repeat split.
Qed.

(** The product is the one of the doubles: for 51300 of 180000 tokens the
    ratio is 0.285, a hundred times it is 28.499999999999996 and the logged
    percentage is 28, where the exact product 28.5 would round to 29. *)
Example token_percent_of_51300 :
  JS.round_percent (JS.div 51300 180000) = Some 28 /\
  JS.round (JS.div 51300 180000 * 100) = 29 /\
  JS.round_percent (JS.div 90000 180000) = Some 50.
Proof. repeat split; vm_compute; reflexivity. Qed.

(** X18.  The primary key stays a key: when the stored identifiers are
    pairwise different, they still are after any POST and after any PATCH,
    whatever the outcome. *)
Theorem routes_keep_ids_distinct :
  forall db : CheckpointRoute.Supabase.t,
    NoDup (rowIds (CheckpointRoute.Supabase.session_checkpoints db)) ->
    (forall c : CheckpointRoute.Body.t,
        NoDup (rowIds (CheckpointRoute.Supabase.session_checkpoints
                         (snd (CheckpointRoute.POST c db))))) /\
    (forall id status : string,
        NoDup (rowIds (CheckpointRoute.Supabase.session_checkpoints
                         (snd (CheckpointRoute.PATCH id status db))))).
Proof.
  intros db Hnd. split.
  - intros c. rewrite POST_cases.
    destruct (CheckpointRoute.Supabase.reachable db); [| exact Hnd].
    destruct (CheckpointRoute.has_id (CheckpointRoute.Body.id c)
                (CheckpointRoute.Supabase.session_checkpoints db)) eqn:Eh; simpl.
    + now rewrite rowIds_demote.
    + unfold rowIds. rewrite map_app. fold (rowIds
        (map (demote (CheckpointRoute.Body.sessionId c) (CheckpointRoute.Supabase.NOW db))
           (CheckpointRoute.Supabase.session_checkpoints db))).
      rewrite rowIds_demote. simpl.
      apply NoDup_app. split; [exact Hnd |]. split; [| apply NoDup_singleton].
      intros x Hx Hx'. apply list_elem_of_singleton in Hx'. subst x.
      apply list_elem_of_In, has_id_In in Hx. congruence.
  - intros id status. rewrite PATCH_table.
    destruct (_ && _)%bool; [| exact Hnd]. now rewrite rowIds_restamp.
Qed.

Lemma routes_keep_ids_distinct_witness :
  NoDup (rowIds [Sample.storedCheckpoint]) /\
  NoDup (rowIds (CheckpointRoute.Supabase.session_checkpoints
                   (snd (CheckpointRoute.POST (Sample.body "cp-2" "session-1")
                           (CheckpointRoute.Supabase.mk [Sample.storedCheckpoint] [] true
                              "2025-01-02"))))).
Proof.
  assert (H : NoDup (rowIds [Sample.storedCheckpoint])) by apply NoDup_singleton.
  split; [exact H |].
  exact (proj1 (routes_keep_ids_distinct
                  (CheckpointRoute.Supabase.mk [Sample.storedCheckpoint] [] true "2025-01-02")
                  H) (Sample.body "cp-2" "session-1")).
Defined.

(** X19.  Whatever its outcome, POST keeps every row that was stored, in
    place and with its identifier, session, task, messages, usage, prompt
    and creation time; a row that is not an active row of the session of the
    new checkpoint is not changed at all. *)
Theorem POST_keeps_stored_data :
  forall (c : CheckpointRoute.Body.t) (db : CheckpointRoute.Supabase.t),
    Forall2
      (fun r r' =>
         sameData r r' /\
         (CheckpointRoute.Row.status r <> "active"
          \/ CheckpointRoute.Row.session_id r <> CheckpointRoute.Body.sessionId c ->
          r' = r))
      (CheckpointRoute.Supabase.session_checkpoints db)
      (take (length (CheckpointRoute.Supabase.session_checkpoints db))
         (CheckpointRoute.Supabase.session_checkpoints (snd (CheckpointRoute.POST c db)))).
Proof.
  intros c db.
  assert (Hmap :
    Forall2
      (fun r r' =>
         sameData r r' /\
         (CheckpointRoute.Row.status r <> "active"
          \/ CheckpointRoute.Row.session_id r <> CheckpointRoute.Body.sessionId c ->
          r' = r))
      (CheckpointRoute.Supabase.session_checkpoints db)
      (map (demote (CheckpointRoute.Body.sessionId c) (CheckpointRoute.Supabase.NOW db))
         (CheckpointRoute.Supabase.session_checkpoints db))).
  { induction (CheckpointRoute.Supabase.session_checkpoints db) as [| r rows IH];
      simpl; constructor; [| exact IH].
    split; [apply demote_sameData |]. unfold demote.
    destruct (String.eqb_spec (CheckpointRoute.Row.status r) "active") as [Ea | Ea];
      destruct (String.eqb_spec (CheckpointRoute.Row.session_id r)
                  (CheckpointRoute.Body.sessionId c)) as [Es | Es];
      simpl; intros [H | H]; congruence. }
  rewrite POST_cases.
  destruct (CheckpointRoute.Supabase.reachable db).
  - destruct (CheckpointRoute.has_id _ _); simpl.
    + rewrite firstn_all2 by (rewrite length_map; lia). exact Hmap.
    + rewrite take_app_length' by (now rewrite length_map). exact Hmap.
  - simpl. rewrite firstn_all.
    apply Forall2_same_length_lookup_2; [reflexivity |].
    intros i x y Hx Hy. rewrite Hx in Hy. injection Hy as <-.
    split; [unfold sameData; auto 10 | reflexivity].
Qed.

(** X20.  PATCH fails, and changes no row, when the store cannot be reached,
    when the status is not one the table admits, or when no row has the
    identifier.  With distinct identifiers, a reachable store and an admitted
    status it answers with the row of that identifier carrying the new
    status, whatever status the row had before, with its other data kept, and
    it changes no other row. *)
Theorem PATCH_outcomes :
  forall (id status : string) (db : CheckpointRoute.Supabase.t),
    let rows := CheckpointRoute.Supabase.session_checkpoints db in
    let response := fst (CheckpointRoute.PATCH id status db) in
    let rows' :=
      CheckpointRoute.Supabase.session_checkpoints (snd (CheckpointRoute.PATCH id status db)) in
    (CheckpointRoute.Supabase.reachable db = false
     \/ CheckpointRoute.status_check status = false
     \/ CheckpointRoute.has_id id rows = false ->
     response = CheckpointRoute.Failed "Failed to update checkpoint" /\ rows' = rows) /\
    (CheckpointRoute.Supabase.reachable db = true ->
     CheckpointRoute.status_check status = true ->
     NoDup (rowIds rows) ->
     forall r : CheckpointRoute.Row.t,
       In r rows ->
       CheckpointRoute.Row.id r = id ->
       response
       = CheckpointRoute.Ok (CheckpointRoute.set_status status (CheckpointRoute.Supabase.NOW db) r) /\
       CheckpointRoute.Row.status
         (CheckpointRoute.set_status status (CheckpointRoute.Supabase.NOW db) r) = status /\
       sameData r (CheckpointRoute.set_status status (CheckpointRoute.Supabase.NOW db) r) /\
       Forall2 (fun x x' => CheckpointRoute.Row.id x <> id -> x' = x) rows rows').
Proof.
  intros id status db rows response rows'. split.
  - intros H. unfold response, rows', CheckpointRoute.PATCH, CheckpointRoute.update_status.
    destruct (CheckpointRoute.Supabase.reachable db) eqn:Er; simpl; [| auto].
    destruct (CheckpointRoute.status_check status) eqn:Es; simpl; [| auto].
    destruct H as [H | [H | H]]; try discriminate H.
    fold (restamp id status (CheckpointRoute.Supabase.NOW db)).
    fold rows. rewrite (restamp_no_match id status _ rows H).
    rewrite (has_id_false_filter id rows H). auto.
  - intros Er Es Hnd r Hin Hid.
    assert (Hrows : rows' = map (restamp id status (CheckpointRoute.Supabase.NOW db)) rows).
    { unfold rows'. rewrite PATCH_table, Er, Es. reflexivity. }
    split.
    { unfold response, CheckpointRoute.PATCH, CheckpointRoute.update_status.
      rewrite Er, Es. simpl.
      fold (restamp id status (CheckpointRoute.Supabase.NOW db)). fold rows.
      rewrite filter_id_restamp, (filter_id_NoDup id rows r Hnd Hin Hid). reflexivity. }
    split; [reflexivity |]. split; [unfold sameData; simpl; auto 10 |].
    rewrite Hrows. clear. induction rows as [| x rows IH]; simpl; constructor; [| exact IH].
    unfold restamp. destruct (String.eqb_spec (CheckpointRoute.Row.id x) id); congruence.
Qed.

Lemma PATCH_outcomes_witness :
  let db := CheckpointRoute.Supabase.mk [Sample.storedCheckpoint] [] true "2025-01-02" in
  fst (CheckpointRoute.PATCH "cp-1" "paused" db)
  = CheckpointRoute.Failed "Failed to update checkpoint" /\
  fst (CheckpointRoute.PATCH "cp-9" "resumed" db)
  = CheckpointRoute.Failed "Failed to update checkpoint" /\
  fst (CheckpointRoute.PATCH "cp-1" "abandoned" db)
  = CheckpointRoute.Ok (CheckpointRoute.set_status "abandoned" "2025-01-02"
                          Sample.storedCheckpoint).
Proof.
  intros db.
  split; [| split].
  - apply (proj1 (PATCH_outcomes "cp-1" "paused" db)). right. left. reflexivity.
  - apply (proj1 (PATCH_outcomes "cp-9" "resumed" db)). right. right. reflexivity.
  - apply (proj2 (PATCH_outcomes "cp-1" "abandoned" db) eq_refl eq_refl).
    + apply NoDup_singleton.
    + simpl. left. reflexivity.
    + reflexivity.
Defined.

(** X21.  A checkpoint that POST stored is the one GET returns for its
    identifier, with the messages, the usage and the continuation prompt of
    the request unchanged; an empty identifier is not a lookup by identifier. *)
Theorem stored_checkpoint_is_loaded_back :
  forall (order_desc : list CheckpointRoute.Row.t -> list CheckpointRoute.Row.t)
         (c : CheckpointRoute.Body.t) (db db' : CheckpointRoute.Supabase.t)
         (r : CheckpointRoute.Row.t) (activeOnly : bool),
    CheckpointRoute.POST c db = (CheckpointRoute.Ok r, db') ->
    CheckpointRoute.Body.id c <> EmptyString ->
    CheckpointRoute.GET order_desc (Some (CheckpointRoute.Body.id c)) activeOnly db'
    = CheckpointRoute.GetRow (Some r) /\
    CheckpointRoute.Row.messages r = CheckpointRoute.Body.messages c /\
    CheckpointRoute.Row.token_usage r = CheckpointRoute.Body.tokenUsage c /\
    CheckpointRoute.Row.continuation_prompt r = CheckpointRoute.Body.continuationPrompt c /\
    CheckpointRoute.GET order_desc (Some EmptyString) activeOnly db'
    = CheckpointRoute.GET order_desc None activeOnly db'.
Proof.
  intros order_desc c db db' r activeOnly H Hne.
  rewrite POST_cases in H.
  destruct (CheckpointRoute.Supabase.reachable db); [| discriminate H].
  destruct (CheckpointRoute.has_id (CheckpointRoute.Body.id c)
              (CheckpointRoute.Supabase.session_checkpoints db)) eqn:Eh;
    [discriminate H |].
  injection H as <- <-.
  split; [| repeat split].
  assert (Eid : JS.or_else_str (Some (CheckpointRoute.Body.id c)) EmptyString
                = CheckpointRoute.Body.id c).
  { destruct (CheckpointRoute.Body.id c); [contradiction | reflexivity]. }
  unfold CheckpointRoute.GET. rewrite (truthy_nonempty _ Hne), Eid. simpl.
  rewrite List.filter_app, filter_id_demote.
  rewrite (has_id_false_filter _ _ Eh). simpl.
  rewrite String.eqb_refl. reflexivity.
Qed.

Lemma stored_checkpoint_is_loaded_back_witness :
  exists (r : CheckpointRoute.Row.t) (db' : CheckpointRoute.Supabase.t),
    CheckpointRoute.POST (Sample.body "cp-1" "session-1") (Sample.emptyDb true)
    = (CheckpointRoute.Ok r, db') /\
    CheckpointRoute.GET (fun rows => rows) (Some "cp-1") false db'
    = CheckpointRoute.GetRow (Some r) /\
    CheckpointRoute.Row.messages r = [Sample.question; Sample.answer].
Proof.
  eassert (E : CheckpointRoute.POST (Sample.body "cp-1" "session-1") (Sample.emptyDb true)
               = (CheckpointRoute.Ok _, _)) by (vm_compute; reflexivity).
  eexists _, _. split; [exact E |].
  destruct (stored_checkpoint_is_loaded_back (fun rows => rows)
              (Sample.body "cp-1" "session-1") _ _ _ false E
              ltac:(simpl; discriminate)) as (Hget & Hm & _).
  split; [exact Hget | exact Hm].
Defined.

(** X22.  Loading the active checkpoint tells "none" from "failed": with a
    store that cannot be reached the answer is the failure; with a reachable
    store it is [null] exactly when no row is active, and otherwise a stored
    row whose status is active.  The order the database sorts in only has to
    keep the rows it is given. *)
Theorem GET_active_null_or_active_row :
  forall (order_desc : list CheckpointRoute.Row.t -> list CheckpointRoute.Row.t)
         (db : CheckpointRoute.Supabase.t),
    (forall rows, Permutation (order_desc rows) rows) ->
    let rows := CheckpointRoute.Supabase.session_checkpoints db in
    let answer := CheckpointRoute.GET order_desc None true db in
    (CheckpointRoute.Supabase.reachable db = false ->
     answer = CheckpointRoute.GetFailed "Failed to load checkpoint") /\
    (CheckpointRoute.Supabase.reachable db = true ->
     (answer = CheckpointRoute.GetRow None
      <-> Forall (fun r => CheckpointRoute.Row.status r <> "active") rows) /\
     (forall r, answer = CheckpointRoute.GetRow (Some r) ->
                In r rows /\ CheckpointRoute.Row.status r = "active") /\
     (exists data, answer = CheckpointRoute.GetRow data)).
Proof.
  intros order_desc db Hperm rows answer. split.
  - intros Hr. unfold answer, CheckpointRoute.GET. simpl. now rewrite Hr.
  - intros Hr. unfold answer, CheckpointRoute.GET. simpl. rewrite Hr. fold rows.
    set (act := List.filter (fun r => String.eqb (CheckpointRoute.Row.status r) "active") rows).
    pose proof (Hperm act) as Hp.
    assert (Hact : act = [] <-> Forall (fun r => CheckpointRoute.Row.status r <> "active") rows).
    { unfold act. clear. induction rows as [| r rows IH]; simpl.
      - split; [constructor | reflexivity].
      - destruct (String.eqb_spec (CheckpointRoute.Row.status r) "active") as [E | E].
        + split; [discriminate |]. intros H. inversion H; subst. contradiction.
        + rewrite IH. split; [now constructor | intros H; now inversion H]. }
    destruct (order_desc act) as [| x l] eqn:El.
    + apply Permutation_nil in Hp. simpl. split; [| split].
      * rewrite <- Hact. split; [intros _; exact Hp | reflexivity].
      * intros r H. discriminate H.
      * eexists; reflexivity.
    + simpl. split; [| split].
      * split; [intros H; discriminate H |].
        intros H. apply Hact in H. rewrite H in Hp.
        symmetry in Hp. apply Permutation_nil in Hp. discriminate Hp.
      * intros r H. injection H as <-.
        assert (Hx : In x act).
        { apply list_elem_of_In. rewrite <- Hp. apply list_elem_of_here. }
        unfold act in Hx. apply filter_In in Hx. destruct Hx as [Hin Hs].
        split; [exact Hin | now apply String.eqb_eq].
      * eexists; reflexivity.
Qed.

Lemma GET_active_null_or_active_row_witness :
  (forall rows : list CheckpointRoute.Row.t, Permutation ((fun l => l) rows) rows) /\
  CheckpointRoute.GET (fun l => l) None true (Sample.emptyDb true)
  = CheckpointRoute.GetRow None /\
  CheckpointRoute.GET (fun l => l) None true (Sample.emptyDb false)
  = CheckpointRoute.GetFailed "Failed to load checkpoint".
Proof.
  assert (H : forall rows : list CheckpointRoute.Row.t,
             Permutation ((fun l => l) rows) rows) by (intros; reflexivity).
  split; [exact H |]. split.
  - apply (proj2 (GET_active_null_or_active_row (fun l => l) (Sample.emptyDb true) H)
             eq_refl).
    constructor.
  - apply (proj1 (GET_active_null_or_active_row (fun l => l) (Sample.emptyDb false) H)
             eq_refl).
Defined.

(** X23.  The list of checkpoints holds at most 20 rows, each of them a
    stored row, and all stored rows when there are no more than 20; with a
    store that cannot be reached the answer is the failure. *)
Theorem GET_list_is_capped :
  forall (order_desc : list CheckpointRoute.Row.t -> list CheckpointRoute.Row.t)
         (db : CheckpointRoute.Supabase.t),
    (forall rows, Permutation (order_desc rows) rows) ->
    let rows := CheckpointRoute.Supabase.session_checkpoints db in
    let answer := CheckpointRoute.GET order_desc None false db in
    (CheckpointRoute.Supabase.reachable db = false ->
     answer = CheckpointRoute.GetFailed "Failed to load checkpoint") /\
    (CheckpointRoute.Supabase.reachable db = true ->
     exists listed : list CheckpointRoute.Row.t,
       answer = CheckpointRoute.GetRows listed /\
       (length listed <= 20)%nat /\
       (forall r, In r listed -> In r rows) /\
       ((length rows <= 20)%nat -> Permutation listed rows)).
Proof.
  intros order_desc db Hperm rows answer. split.
  - intros Hr. unfold answer, CheckpointRoute.GET. simpl. now rewrite Hr.
  - intros Hr. unfold answer, CheckpointRoute.GET. simpl. rewrite Hr. fold rows.
    eexists. split; [reflexivity |]. split; [| split].
    + rewrite length_take. lia.
    + intros r Hin. apply list_elem_of_In. rewrite <- (Hperm rows).
      apply list_elem_of_In. rewrite <- (take_drop 20 (order_desc rows)).
      apply in_or_app. now left.
    + intros Hlen. rewrite take_ge; [apply Hperm |].
      rewrite (Permutation_length (Hperm rows)). exact Hlen.
Qed.

Lemma GET_list_is_capped_witness :
  (forall rows : list CheckpointRoute.Row.t, Permutation ((fun l => l) rows) rows) /\
  CheckpointRoute.GET (fun l => l) None false (Sample.emptyDb false)
  = CheckpointRoute.GetFailed "Failed to load checkpoint".
Proof.
  assert (H : forall rows : list CheckpointRoute.Row.t,
             Permutation ((fun l => l) rows) rows) by (intros; reflexivity).
  split; [exact H |].
  apply (proj1 (GET_list_is_capped (fun l => l) (Sample.emptyDb false) H) eq_refl).
Defined.

(** ** app/page.tsx: saving, starting fresh, and the status display *)

(** X24.  A save that gets through with a fresh identifier stores the
    conversation before it resets the session: the table gains one active
    row holding the session's identifier, messages, usage and the generated
    continuation prompt, with at most 3 completed steps of at most 100
    characters each; only then the messages are dropped, the usage is zeroed,
    a new session identifier is drawn and the dialog is closed. *)
Theorem save_stores_then_resets :
  forall (s : LifeOSChat.State.t) (e : LifeOSChat.Env.t),
    LifeOSChat.Env.online e = true ->
    CheckpointRoute.Supabase.reachable (LifeOSChat.Env.supabase e) = true ->
    CheckpointRoute.has_id (LifeOSChat.Env.uuids e (LifeOSChat.Env.uuids_drawn e))
      (CheckpointRoute.Supabase.session_checkpoints (LifeOSChat.Env.supabase e)) = false ->
    let s' := fst (LifeOSChat.handleSaveCheckpoint s e) in
    let e' := snd (LifeOSChat.handleSaveCheckpoint s e) in
    (exists row : CheckpointRoute.Row.t,
        CheckpointRoute.Supabase.session_checkpoints (LifeOSChat.Env.supabase e')
        = map (demote (LifeOSChat.State.sessionId s)
                 (CheckpointRoute.Supabase.NOW (LifeOSChat.Env.supabase e)))
            (CheckpointRoute.Supabase.session_checkpoints (LifeOSChat.Env.supabase e))
          ++ [row] /\
        CheckpointRoute.Row.id row = LifeOSChat.Env.uuids e (LifeOSChat.Env.uuids_drawn e) /\
        CheckpointRoute.Row.session_id row = LifeOSChat.State.sessionId s /\
        CheckpointRoute.Row.messages row = LifeOSChat.State.messages s /\
        CheckpointRoute.Row.token_usage row = LifeOSChat.State.tokenUsage s /\
        CheckpointRoute.Row.continuation_prompt row
        = LifeOSChat.generateContinuationPrompt s /\
        CheckpointRoute.Row.status row = "active" /\
        (length (CheckpointRoute.Row.completed_steps row) <= 3)%nat /\
        Forall (fun step => (String.length step <= 100)%nat)
          (CheckpointRoute.Row.completed_steps row)) /\
    LifeOSChat.State.messages s' = [] /\
    LifeOSChat.State.tokenUsage s' = LifeOSChat.zeroUsage /\
    LifeOSChat.State.sessionId s'
    = LifeOSChat.Env.uuids e (S (LifeOSChat.Env.uuids_drawn e)) /\
    LifeOSChat.State.showCheckpointModal s' = false /\
    LifeOSChat.State.checkpointTask s' = EmptyString.
Proof.
  intros s e Ho Hr Hid s' e'.
  unfold s', e', LifeOSChat.handleSaveCheckpoint, LifeOSChat.fetch_POST, LifeOSChat.uuidv4.
  simpl. rewrite Ho, POST_cases. simpl. rewrite Hr, Hid. simpl.
  split; [| repeat split].
  eexists. split; [reflexivity |]. simpl.
  repeat (split; [reflexivity |]).
  split.
  - rewrite length_map. apply slice_last_length.
  - apply Forall_forall. intros step Hin.
    apply list_elem_of_In, in_map_iff in Hin. destruct Hin as (m & <- & _).
    rewrite slice0_length. lia.
Qed.

Lemma save_stores_then_resets_witness :
  let e := Sample.env (Sample.emptyDb true) true in
  map CheckpointRoute.Row.messages
    (CheckpointRoute.Supabase.session_checkpoints
       (LifeOSChat.Env.supabase (snd (LifeOSChat.handleSaveCheckpoint Sample.session e))))
  = [[Sample.question; Sample.answer]] /\
  LifeOSChat.State.messages (fst (LifeOSChat.handleSaveCheckpoint Sample.session e)) = [].
Proof.
  intros e.
  destruct (save_stores_then_resets Sample.session e eq_refl eq_refl eq_refl)
    as ((row & Hrows & _ & _ & Hm & _) & Hreset & _).
  split; [| exact Hreset].
  rewrite Hrows. simpl. now rewrite Hm.
Defined.

(** X25.  Starting fresh hides the resume prompt and forgets the checkpoint
    without touching the messages, the usage or the session identifier.  When
    the request gets through to a reachable store, every row stored under the
    checkpoint's identifier becomes abandoned and all rows keep their other
    data; when the network is down the store is left as it is, and the page
    forgets the checkpoint all the same. *)
Theorem start_fresh_abandons_checkpoint :
  forall (s : LifeOSChat.State.t) (e : LifeOSChat.Env.t) (C : CheckpointRoute.Row.t),
    LifeOSChat.State.activeCheckpoint s = Some C ->
    let s' := fst (LifeOSChat.handleStartFresh s e) in
    let e' := snd (LifeOSChat.handleStartFresh s e) in
    let rows := CheckpointRoute.Supabase.session_checkpoints (LifeOSChat.Env.supabase e) in
    let rows' := CheckpointRoute.Supabase.session_checkpoints (LifeOSChat.Env.supabase e') in
    LifeOSChat.State.activeCheckpoint s' = None /\
    LifeOSChat.State.showResumePrompt s' = false /\
    LifeOSChat.State.messages s' = LifeOSChat.State.messages s /\
    LifeOSChat.State.tokenUsage s' = LifeOSChat.State.tokenUsage s /\
    LifeOSChat.State.sessionId s' = LifeOSChat.State.sessionId s /\
    (LifeOSChat.Env.online e = true ->
     CheckpointRoute.Supabase.reachable (LifeOSChat.Env.supabase e) = true ->
     statusOf (CheckpointRoute.Row.id C) rows'
     = map (fun _ => "abandoned") (statusOf (CheckpointRoute.Row.id C) rows) /\
     Forall2 sameData rows rows') /\
    (LifeOSChat.Env.online e = false -> rows' = rows).
Proof.
  intros s e C Hc s' e' rows rows'.
  unfold s', rows', e', LifeOSChat.handleStartFresh. rewrite Hc. simpl.
  repeat (split; [reflexivity |]).
  unfold LifeOSChat.fetch_PATCH. split.
  - intros Ho Hr. rewrite Ho.
    destruct (CheckpointRoute.PATCH (CheckpointRoute.Row.id C) "abandoned"
                (LifeOSChat.Env.supabase e)) as [response db1] eqn:E.
    simpl.
    assert (Hrows : CheckpointRoute.Supabase.session_checkpoints db1
                    = map (restamp (CheckpointRoute.Row.id C) "abandoned"
                             (CheckpointRoute.Supabase.NOW (LifeOSChat.Env.supabase e)))
                        rows).
    { change db1 with (snd (response, db1)). rewrite <- E, PATCH_table, Hr. reflexivity. }
    rewrite Hrows. split; [apply statusOf_restamp |].
    clear. induction rows as [| r rows IH]; simpl; constructor;
      [apply restamp_sameData | exact IH].
  - intros Ho. rewrite Ho. reflexivity.
Qed.

Lemma start_fresh_abandons_checkpoint_witness :
  let s := LifeOSChat.setActiveCheckpoint (Some Sample.storedCheckpoint) Sample.session in
  let e :=
    Sample.env (CheckpointRoute.Supabase.mk [Sample.storedCheckpoint] [] true "2025-01-02")
      true in
  statusOf "cp-1"
    (CheckpointRoute.Supabase.session_checkpoints
       (LifeOSChat.Env.supabase (snd (LifeOSChat.handleStartFresh s e))))
  = ["abandoned"] /\
  LifeOSChat.State.messages (fst (LifeOSChat.handleStartFresh s e))
  = [Sample.question; Sample.answer].
Proof.
  intros s e.
  destruct (start_fresh_abandons_checkpoint s e Sample.storedCheckpoint eq_refl)
    as (_ & _ & Hm & _ & _ & Hst & _).
  split; [| exact Hm].
  exact (proj1 (Hst eq_refl eq_refl)).
Defined.

(** X26.  The page and the library draw the same lines: for a usage with the
    same ratio, the colour and the class of the header are those of the
    library's status, the save button shows exactly when a checkpoint is
    needed, and the effect opens the save dialog exactly when the usage is
    critical, never closes it, and running it again changes nothing; the
    progress bar is never wider than 100 percent. *)
Theorem page_display_follows_library_status :
  forall (s : LifeOSChat.State.t) (u : TokenUsage.t),
    TokenUsage.percentUsed u
    = JS.num (Page.TokenUsage.percentUsed (LifeOSChat.State.tokenUsage s)) ->
    LifeOSChat.getStatusColor s
    = match getSessionStatus u with
      | st_critical => "bg-red-500"
      | st_warning => "bg-yellow-500"
      | st_active => "bg-green-500"
      end /\
    LifeOSChat.getStatusClass s
    = match getSessionStatus u with
      | st_critical => "token-critical"
      | st_warning => "token-warning"
      | st_active => EmptyString
      end /\
    LifeOSChat.saveButtonShown s = needsCheckpoint u /\
    LifeOSChat.State.showCheckpointModal (LifeOSChat.checkpointEffect s)
    = (LifeOSChat.State.showCheckpointModal s || isCritical u)%bool /\
    LifeOSChat.checkpointEffect (LifeOSChat.checkpointEffect s)
    = LifeOSChat.checkpointEffect s /\
    LifeOSChat.State.messages (LifeOSChat.checkpointEffect s) = LifeOSChat.State.messages s /\
    LifeOSChat.State.tokenUsage (LifeOSChat.checkpointEffect s)
    = LifeOSChat.State.tokenUsage s /\
    (LifeOSChat.barWidth s <= 100)%Q.
Proof.
  intros s u Hp.
  assert (Hbar : (LifeOSChat.barWidth s <= 100)%Q).
  { unfold LifeOSChat.barWidth.
    destruct (min_cases (Page.TokenUsage.percentUsed (LifeOSChat.State.tokenUsage s) * 100)
                100) as [[H ->] | [H ->]]; lra. }
  pose proof (critical_implies_checkpoint u) as Himp.
  unfold LifeOSChat.getStatusColor, LifeOSChat.getStatusClass, LifeOSChat.saveButtonShown,
    LifeOSChat.checkpointEffect, getSessionStatus.
  unfold isCritical, needsCheckpoint in *. rewrite Hp in *. rewrite !number_ge_num in *.
  change Page.WARNING_THRESHOLD with WARNING_THRESHOLD.
  change Page.CHECKPOINT_THRESHOLD with CHECKPOINT_THRESHOLD.
  destruct (JS.ge (Page.TokenUsage.percentUsed (LifeOSChat.State.tokenUsage s))
              WARNING_THRESHOLD) eqn:Ec;
    destruct (JS.ge (Page.TokenUsage.percentUsed (LifeOSChat.State.tokenUsage s))
                CHECKPOINT_THRESHOLD) eqn:En;
    try (specialize (Himp eq_refl); discriminate Himp);
    destruct (LifeOSChat.State.showCheckpointModal s) eqn:Em; simpl;
    rewrite ?Ec, ?En, ?Em; simpl; rewrite ?Ec, ?En; simpl; auto 10.
Qed.

Lemma page_display_follows_library_status_witness :
  TokenUsage.percentUsed (usageAt (JS.div 153900 Page.MODEL_LIMIT))
  = JS.num (Page.TokenUsage.percentUsed (LifeOSChat.State.tokenUsage Sample.session)) /\
  LifeOSChat.getStatusColor Sample.session = "bg-red-500" /\
  getSessionStatus (usageAt (JS.div 153900 Page.MODEL_LIMIT)) = st_critical.
Proof.
  assert (H : TokenUsage.percentUsed (usageAt (JS.div 153900 Page.MODEL_LIMIT))
              = JS.num (Page.TokenUsage.percentUsed
                          (LifeOSChat.State.tokenUsage Sample.session)))
    by reflexivity.
  split; [exact H |].
  destruct (page_display_follows_library_status Sample.session _ H) as (Hc & _).
  split; [rewrite Hc |]; reflexivity.
Defined.

(** X27.  A new session starts where the bulk count of an empty conversation
    is: [createSession] carries the usage [calculateTokenUsage] gives for no
    messages exactly when the model is not the name of a member of
    [Object.prototype]; for such a name the session holds the ratio 0 and
    the bulk count holds [NaN].  Either way the stored status is the status
    of both usages, and the session needs no checkpoint. *)
Theorem createSession_is_empty_count :
  forall uuid mdl : string,
    let session := createSession uuid mdl in
    (SessionState.tokenUsage session = calculateTokenUsage [] mdl
     <-> ~ In mdl JS.Object_prototype) /\
    TokenUsage.percentUsed (SessionState.tokenUsage session) = JS.num 0 /\
    (In mdl JS.Object_prototype ->
     TokenUsage.percentUsed (calculateTokenUsage [] mdl) = JS.NaN) /\
    SessionState.status session = getSessionStatus (SessionState.tokenUsage session) /\
    SessionState.status session = getSessionStatus (calculateTokenUsage [] mdl) /\
    needsCheckpoint (SessionState.tokenUsage session) = false /\
    SessionState.messages session = [] /\
    SessionState.sessionId session = uuid.
Proof.
  intros uuid mdl session.
  assert (Hnan : In mdl JS.Object_prototype ->
                 TokenUsage.percentUsed (calculateTokenUsage [] mdl) = JS.NaN).
  { intros Hp. unfold calculateTokenUsage; simpl.
    now rewrite (modelLimit_inherited mdl Hp). }
  assert (Hnum : ~ In mdl JS.Object_prototype ->
                 calculateTokenUsage [] mdl = TokenUsage.mk 0 0 0 (JS.num 0) mdl).
  { intros Hp. destruct (modelLimit_number mdl Hp) as (n & En & _).
    unfold calculateTokenUsage. cbn [fold_left fst snd]. change (0 + 0) with 0.
    rewrite En. unfold JS.div_by. now rewrite div_zero. }
  split; [| split; [reflexivity | split; [exact Hnan |]]].
  - split.
    + intros E Hp. apply Hnan in Hp. rewrite <- E in Hp. discriminate Hp.
    + intros Hp. now rewrite Hnum.
  - split; [reflexivity |]. split; [| repeat split].
    destruct (In_dec string_dec mdl JS.Object_prototype) as [Hp | Hp].
    + unfold getSessionStatus. now rewrite (Hnan Hp).
    + now rewrite (Hnum Hp).
Qed.

(** X28.  Loading the page without an active checkpoint to find, because the
    network is down, the store cannot be reached or no stored row is active,
    leaves the state as it was but for the session identifier, which is
    drawn in every case; the store is not touched, and on the initial state
    the resume dialog stays hidden. *)
Theorem initSession_without_active_checkpoint :
  forall (order_desc : list CheckpointRoute.Row.t -> list CheckpointRoute.Row.t)
         (s : LifeOSChat.State.t) (e : LifeOSChat.Env.t),
    (forall rows, Permutation (order_desc rows) rows) ->
    LifeOSChat.Env.online e = false
    \/ CheckpointRoute.Supabase.reachable (LifeOSChat.Env.supabase e) = false
    \/ Forall (fun r => CheckpointRoute.Row.status r <> "active")
         (CheckpointRoute.Supabase.session_checkpoints (LifeOSChat.Env.supabase e)) ->
    let s' := fst (LifeOSChat.initSession order_desc s e) in
    let e' := snd (LifeOSChat.initSession order_desc s e) in
    s' = LifeOSChat.setSessionId (LifeOSChat.Env.uuids e (LifeOSChat.Env.uuids_drawn e)) s /\
    LifeOSChat.Env.supabase e' = LifeOSChat.Env.supabase e /\
    LifeOSChat.Env.uuids_drawn e' = S (LifeOSChat.Env.uuids_drawn e) /\
    (s = LifeOSChat.initialState ->
     LifeOSChat.State.activeCheckpoint s' = None /\
     LifeOSChat.resumePrompt s' = LifeOSChat.rp_hidden).
Proof.
  intros order_desc s e Hperm Hcase s' e'.
  assert (Hinit :
    LifeOSChat.initSession order_desc s e
    = (LifeOSChat.setSessionId (LifeOSChat.Env.uuids e (LifeOSChat.Env.uuids_drawn e)) s,
       snd (LifeOSChat.uuidv4 e))).
  { unfold LifeOSChat.initSession, LifeOSChat.fetch_GET_active.
    destruct (LifeOSChat.Env.online e) eqn:Ho; [| reflexivity].
    destruct (CheckpointRoute.Supabase.reachable (LifeOSChat.Env.supabase e)) eqn:Hr.
    - destruct Hcase as [H | [H | H]]; try discriminate H.
      now rewrite (GET_active_none order_desc _ Hperm Hr H).
    - unfold CheckpointRoute.GET. simpl. rewrite Hr. reflexivity. }
  unfold s', e'. rewrite Hinit. simpl.
  split; [reflexivity |]. split; [reflexivity |]. split; [reflexivity |].
  intros ->. split; reflexivity.
Qed.

Lemma initSession_without_active_checkpoint_witness :
  (forall rows : list CheckpointRoute.Row.t, Permutation ((fun l => l) rows) rows) /\
  LifeOSChat.State.sessionId
    (fst (LifeOSChat.initSession (fun l => l) LifeOSChat.initialState
            (Sample.env (Sample.emptyDb true) true))) = "uuid-0" /\
  LifeOSChat.resumePrompt
    (fst (LifeOSChat.initSession (fun l => l) LifeOSChat.initialState
            (Sample.env (Sample.emptyDb true) true))) = LifeOSChat.rp_hidden.
Proof.
  assert (H : forall rows : list CheckpointRoute.Row.t,
             Permutation ((fun l => l) rows) rows) by (intros; reflexivity).
  split; [exact H |].
  destruct (initSession_without_active_checkpoint (fun l => l) LifeOSChat.initialState
              (Sample.env (Sample.emptyDb true) true) H
              ltac:(right; right; constructor))
    as (Hs & _ & _ & Hhidden).
  split; [rewrite Hs; reflexivity |].
  exact (proj2 (Hhidden eq_refl)).
Defined.
